(** * Identity-document classification engine: a shallow embedding

    The embedded program is the classification and scoring core of the
    OCR verification service:

    - [src/OCR/app/schemas/document.py]                 (module [Schemas])
    - [src/OCR/app/core/config.py]                      (module [Config])
    - [src/OCR/app/services/validation_service.py]      (module [OCR])
    - [src/OCR/app/services/classification_service.py]  (module [OCR])
    - [src/services/ocr-service/app/services/*.py]      (module [OcrService])
    - [src/OCR/app/api/routes/document.py],
      [src/OCR/app/services/ocr_service.py],
      [src/services/ocr-service/app/services/image_processing.py],
      [src/services/ocr-service/app/core/exceptions.py] (module [Pipeline])

    Python's [float] is IEEE 754 binary64; scores are therefore embedded as
    Rocq's primitive floats, whose operations are the same binary64
    operations, and every literal of the source is the same literal here.
    Text is a sequence of code points below 256.  On these the embedded
    [str.lower], [\s] and [re.IGNORECASE] are Python's.  Beyond them
    [str.lower] can change the length of a text and [re.IGNORECASE] lets
    [[A-Z]] accept U+0130, U+0131, U+017F and U+212A as well; such texts
    are outside the model. *)

From Corelib Require Import PrimFloat.
From Stdlib Require Import Floats.SpecFloat Floats.FloatOps.
From Stdlib Require Import ZArith NArith List Bool Ascii String Lia Uint63.
Import ListNotations.

Set Warnings "-inexact-float".
Set Implicit Arguments.

(** ** Text *)

Definition text := list ascii.

Definition text_of_string (s : string) : text := list_ascii_of_string s.
Coercion text_of_string : string >-> text.

(** ** The Python built-ins the engine relies on *)

Module Py.

Definition code (c : ascii) : N := N_of_ascii c.

Definition in_range (lo hi : N) (c : ascii) : bool :=
  ((lo <=? code c) && (code c <=? hi))%N.

(** [str.lower] on one code point below 256: the ASCII capitals and the
    Latin-1 capitals (U+00C0..U+00DE without the multiplication sign). *)
Definition has_lower (c : ascii) : bool :=
  in_range 65 90 c || (in_range 192 222 c && negb (code c =? 215)%N).

Definition lower_char (c : ascii) : ascii :=
  if has_lower c then ascii_of_N (code c + 32) else c.

(** The inverse mapping, used by case-insensitive matching only. *)
Definition has_upper (c : ascii) : bool :=
  in_range 97 122 c || (in_range 224 254 c && negb (code c =? 247)%N).

Definition upper_char (c : ascii) : ascii :=
  if has_upper c then ascii_of_N (code c - 32) else c.

(** [text.lower()] *)
Definition lower (t : text) : text := map lower_char t.

Fixpoint starts_with (w t : text) : bool :=
  match w, t with
  | [], _ => true
  | _ :: _, [] => false
  | a :: w', b :: t' => Ascii.eqb a b && starts_with w' t'
  end.

(** [w in t] on strings: substring test. *)
Fixpoint contains (w t : text) : bool :=
  starts_with w t ||
  match t with
  | [] => false
  | _ :: t' => contains w t'
  end.

(** [any(f(x) for x in l)] *)
Definition any {A} (f : A -> bool) (l : list A) : bool := existsb f l.

(** Truthiness of an [Optional[str]]: [None] and the empty string are false. *)
Definition truthy (o : option text) : bool :=
  match o with
  | Some (_ :: _) => true
  | _ => false
  end.

Local Open Scope float_scope.

(** [min(a, b)]: the first argument is kept unless the second is smaller. *)
Definition min (a b : float) : float := if b <? a then b else a.

(** [max(items, key=key)]: the running best is replaced only by an item
    whose key is strictly greater, so the first maximal item wins. *)
Fixpoint max_from {A} (key : A -> float) (best : A) (l : list A) : A :=
  match l with
  | [] => best
  | x :: l' => max_from key (if key best <? key x then x else best) l'
  end.

(** [max] raises [ValueError] on an empty sequence: [None] here. *)
Definition max {A} (key : A -> float) (l : list A) : option A :=
  match l with
  | [] => None
  | x :: l' => Some (max_from key x l')
  end.

(** Nearest integer to [n / 2^k], ties to even. *)
Definition div_pow2_half_even (n : Z) (k : positive) : Z :=
  let d := Z.pow_pos 2 k in
  let q := (n / d)%Z in
  let r := (n mod d)%Z in
  match (2 * r ?= d)%Z with
  | Lt => q
  | Gt => (q + 1)%Z
  | Eq => if Z.even q then q else (q + 1)%Z
  end.

(** [round(x, 2)].  CPython rounds the exact binary value of [x] to two
    decimals (ties to even) and returns the double nearest to that
    decimal.  [x] is [m * 2^e] exactly; for [e >= 0] it is an integer and
    is returned as it is.  The quotient [n / 100] of two exactly
    represented numbers is correctly rounded by the binary64 division;
    [n] is exactly represented for every [|x| < 2^46], which covers the
    scores of this program (they never exceed 1.4). *)
Definition round2 (x : float) : float :=
  match Prim2SF x with
  | S754_finite s m (Zneg k) =>
      let n := div_pow2_half_even (100 * Zpos m) k in
      let r := of_uint63 (Uint63.of_Z n) / 100 in
      if s then - r else r
  | _ => x
  end.

End Py.

Open Scope string_scope.
Open Scope list_scope.

(** ** Regular expressions: the fragment of [re] the pattern library uses

    Every quantifier of the source ([\s?], [\s*], [[-\s]?], [[0-9]{4}],
    [[0-9]{4,19}], [[A-Z]{5}]) applies to a single character class, so
    repetition is a constructor over classes. *)

Module Re.

Inductive regex : Type :=
| Eps
| Chr (c : ascii)                          (* a literal character *)
| Cls (p : ascii -> bool)                  (* one character of a class *)
| Rep (p : ascii -> bool) (lo hi : nat)    (* greedy [p{lo,hi}] *)
| Star (p : ascii -> bool)                 (* greedy [p*] *)
| Cat (r1 r2 : regex)
| Alt (r1 r2 : regex).

(** Character classes *)
Definition digit : ascii -> bool := Py.in_range 48 57.       (* [0-9] *)
Definition upper : ascii -> bool := Py.in_range 65 90.       (* [A-Z] *)

(** [\s] of a [str] pattern: Unicode white space, here below 256. *)
Definition space (c : ascii) : bool :=
  Py.in_range 9 13 c || Py.in_range 28 32 c ||
  (Py.code c =? 133)%N || (Py.code c =? 160)%N.

Definition one_of (cs : text) (c : ascii) : bool :=
  existsb (Ascii.eqb c) cs.

(** [[-\s]] *)
Definition dash_or_space (c : ascii) : bool := Ascii.eqb c "-" || space c.

(** Pattern combinators *)
Definition seq (rs : list regex) : regex := fold_right Cat Eps rs.
Definition lit (w : text) : regex := seq (map Chr w).
Definition opt (p : ascii -> bool) : regex := Rep p 0 1.          (* [p?] *)
Definition times (n : nat) (p : ascii -> bool) : regex := Rep p n n. (* [p{n}] *)
Definition ws : regex := Star space.                                (* [\s*] *)

(** [re.IGNORECASE]: a character matches when it or its other case does.
    Below 256 the other case of a character is its [lower_char] or its
    [upper_char]. *)
Definition fold_case (p : ascii -> bool) (c : ascii) : bool :=
  p c || p (Py.lower_char c) || p (Py.upper_char c).

Fixpoint ignorecase (r : regex) : regex :=
  match r with
  | Eps => Eps
  | Chr c => Cls (fold_case (Ascii.eqb c))
  | Cls p => Cls (fold_case p)
  | Rep p lo hi => Rep (fold_case p) lo hi
  | Star p => Star (fold_case p)
  | Cat r1 r2 => Cat (ignorecase r1) (ignorecase r2)
  | Alt r1 r2 => Alt (ignorecase r1) (ignorecase r2)
  end.

(** Length of the longest run of [p] at the head of [s], at most [bound]. *)
Fixpoint run (p : ascii -> bool) (bound : nat) (s : text) : nat :=
  match bound, s with
  | S b, c :: s' => if p c then S (run p b s') else 0
  | _, _ => 0
  end.

(** [hi, hi-1, ..., lo]: a greedy quantifier tries the longest run first. *)
Definition down (hi lo : nat) : list nat := rev (List.seq lo (S hi - lo)).

(** The lengths of the prefixes of [s] that [r] matches, in the order in
    which the backtracking matcher tries them (greedy quantifiers, left
    alternative first). *)
Fixpoint mlens (r : regex) (s : text) : list nat :=
  match r with
  | Eps => [0]
  | Chr c =>
      match s with
      | d :: _ => if Ascii.eqb c d then [1] else []
      | [] => []
      end
  | Cls p =>
      match s with
      | d :: _ => if p d then [1] else []
      | [] => []
      end
  | Rep p lo hi =>
      let n := run p hi s in
      if Nat.ltb n lo then [] else down n lo
  | Star p => down (run p (List.length s) s) 0
  | Cat r1 r2 =>
      flat_map (fun n => map (Nat.add n) (mlens r2 (skipn n s))) (mlens r1 s)
  | Alt r1 r2 => mlens r1 s ++ mlens r2 s
  end.

(** The match of [r] anchored at the head of [s]: the first alternative
    of the backtracking order. *)
Definition match_here (r : regex) (s : text) : option text :=
  match mlens r s with
  | n :: _ => Some (firstn n s)
  | [] => None
  end.

(** [re.search(r, s)], reduced to [group(0)]: the leftmost start
    position at which the pattern matches. *)
Fixpoint search (r : regex) (s : text) : option text :=
  match match_here r s with
  | Some m => Some m
  | None =>
      match s with
      | [] => None
      | _ :: s' => search r s'
      end
  end.

(** [if re.search(r, s):] *)
Definition found (r : regex) (s : text) : bool :=
  match search r s with
  | Some _ => true
  | None => false
  end.

(** The words a pattern denotes: what the matcher is measured against. *)
Inductive matches : regex -> text -> Prop :=
| M_Eps : matches Eps []
| M_Chr c : matches (Chr c) [c]
| M_Cls (p : ascii -> bool) c : p c = true -> matches (Cls p) [c]
| M_Rep (p : ascii -> bool) lo hi w :
    Forall (fun c => p c = true) w ->
    lo <= List.length w -> List.length w <= hi ->
    matches (Rep p lo hi) w
| M_Star (p : ascii -> bool) w :
    Forall (fun c => p c = true) w -> matches (Star p) w
| M_Cat r1 r2 w1 w2 :
    matches r1 w1 -> matches r2 w2 -> matches (Cat r1 r2) (w1 ++ w2)
| M_AltL r1 r2 w : matches r1 w -> matches (Alt r1 r2) w
| M_AltR r1 r2 w : matches r2 w -> matches (Alt r1 r2) w.

(** Some substring of [s] is a word of [r]. *)
Definition occurs (r : regex) (s : text) : Prop :=
  exists pre w post, s = pre ++ w ++ post /\ matches r w.

End Re.

(** ** [app/schemas/document.py] *)

Module Schemas.

Inductive DocumentType : Type := AADHAAR | PAN | DRIVING_LICENCE | UNKNOWN.

(** The [.value] of the enumeration members. *)
Definition value (d : DocumentType) : string :=
  match d with
  | AADHAAR => "aadhaar"
  | PAN => "pan"
  | DRIVING_LICENCE => "driving_license"
  | UNKNOWN => "unknown"
  end.

Definition DocumentType_eqb (a b : DocumentType) : bool :=
  match a, b with
  | AADHAAR, AADHAAR | PAN, PAN
  | DRIVING_LICENCE, DRIVING_LICENCE | UNKNOWN, UNKNOWN => true
  | _, _ => false
  end.

Inductive VerificationStatus : Type := VERIFIED | REJECTED.

Definition status_value (s : VerificationStatus) : string :=
  match s with
  | VERIFIED => "verified"
  | REJECTED => "rejected"
  end.

(** A formatted message: the literal parts of an f-string and the
    floats interpolated into it (Python prints them with [repr]). *)
Inductive piece : Type :=
| Lit (s : string)
| Num (x : float).

Definition message := list piece.

Record VerificationResponse : Type := Build_VerificationResponse {
  status : VerificationStatus;
  detected_document_type : DocumentType;
  confidence_score : float;
  failure_reason : option message;
  extracted_fields : list (string * text);
  raw_ocr_text : option text
}.

(** The model constructor validates [confidence_score] against
    [Field(..., ge=0.0, le=1.0)] and raises on a violation. *)
Definition VerificationResponse_new
    (status : VerificationStatus) (detected_document_type : DocumentType)
    (confidence_score : float) (failure_reason : option message)
    (extracted_fields : list (string * text)) (raw_ocr_text : option text)
  : option VerificationResponse :=
  if ((0.0 <=? confidence_score) && (confidence_score <=? 1.0))%float
  then Some (Build_VerificationResponse status detected_document_type
               confidence_score failure_reason extracted_fields raw_ocr_text)
  else None.

(** [extracted_fields.get("id_number")] *)
Definition get (k : string) (d : list (string * text)) : option text :=
  match find (fun kv => String.eqb (fst kv) k) d with
  | Some kv => Some (snd kv)
  | None => None
  end.

End Schemas.

(** ** [app/core/config.py] *)

Module Config.

Record Settings : Type := Build_Settings {
  CONFIDENCE_THRESHOLD_HIGH : float;
  CONFIDENCE_THRESHOLD_LOW : float
}.

(** The defaults of the class. *)
Definition settings : Settings :=
  {| CONFIDENCE_THRESHOLD_HIGH := 0.85%float;
     CONFIDENCE_THRESHOLD_LOW := 0.60%float |}.

End Config.

(** Sequencing of computations that may raise. *)
Notation "' p <- e ;; k" :=
  (match e with Some p => k | None => None end)
  (at level 61, p pattern, e at next level, right associativity).

(** What the three matchers return: [(matched, identifier, base_confidence)]. *)
Definition MatchResult : Type := bool * option text * float.

(** What the engine keeps of a matcher that fired. *)
Definition Candidate : Type := Schemas.DocumentType * option text * float.

(** ** [src/OCR/app/services]: the engine the specification describes *)

Module OCR.

Import Schemas Re.

(** *** [validation_service.py] *)

Definition AADHAAR_PATTERN : regex :=
  seq [times 4 digit; opt space; times 4 digit; opt space; times 4 digit].

Definition PAN_PATTERN : regex :=
  seq [times 5 upper; times 4 digit; Cls upper].

Definition DL_PATTERN : regex :=
  Alt (seq [Alt (lit "DL") (times 2 upper); opt dash_or_space;
            times 2 digit; opt dash_or_space; Rep digit 4 19])
      (seq [times 2 upper; times 2 digit; Rep digit 4 19]).

Definition licen_cs : regex := seq [lit "licen"; Cls (one_of "cs")].

Definition KEYWORD_PATTERNS (doc_type : DocumentType) : list regex :=
  match doc_type with
  | AADHAAR =>
      [ lit "aadhaar";
        seq [lit "unique"; ws; lit "identification"; ws; lit "authority"];
        lit "uidai";
        seq [lit "government"; ws; lit "of"; ws; lit "india"];
        seq [lit "mera"; ws; lit "aadhaar"];
        lit "dob";
        seq [lit "date"; ws; lit "of"; ws; lit "birth"];
        lit "yob";
        seq [lit "year"; ws; lit "of"; ws; lit "birth"];
        lit "bale"; lit "female"; lit "male" ]
  | PAN =>
      [ seq [lit "permanent"; ws; lit "account"; ws; lit "number"];
        seq [lit "income"; ws; lit "tax"; ws; lit "department"];
        seq [lit "govt"; ws; lit "of"; ws; lit "india"];
        seq [lit "date"; ws; lit "of"; ws; lit "birth"];
        seq [lit "father's"; ws; lit "name"] ]
  | DRIVING_LICENCE =>
      [ seq [lit "driving"; ws; licen_cs; lit "e"];
        seq [lit "driving"; ws; licen_cs];
        seq [lit "union"; ws; lit "of"; ws; lit "india"];
        seq [lit "transport"; ws; lit "department"];
        seq [lit "valid"; ws; lit "till"];
        seq [lit "issued"; ws; lit "on"];
        seq [lit "motor"; ws; lit "vehicle"];
        lit "transport";
        seq [lit "license"; ws; lit "to"; ws; lit "drive"];
        seq [lit "license"; ws; lit "no"];
        seq [lit "dl"; ws; lit "no"];
        seq [lit "dl"; ws; lit "number"];
        lit "driving";
        seq [licen_cs; lit "e"];
        seq [lit "vehicle"; ws; lit "class"];
        seq [lit "issuing"; ws; lit "authority"];
        lit "rto";
        seq [lit "regional"; ws; lit "transport"];
        seq [lit "motor"; ws; lit "driving"] ]
  | UNKNOWN => []                  (* [KEYWORD_PATTERNS.get(doc_type, [])] *)
  end.

Definition validate_aadhaar (t : text) : MatchResult :=
  match search AADHAAR_PATTERN t with
  | Some m => (true, Some m, 1.0%float)
  | None => (false, None, 0.0%float)
  end.

Definition validate_pan (t : text) : MatchResult :=
  match search PAN_PATTERN t with
  | Some m => (true, Some m, 1.0%float)
  | None => (false, None, 0.0%float)
  end.

Definition dl_keyword_indicators : list regex :=
  [ seq [lit "driving"; ws; licen_cs; lit "e"];
    seq [lit "driving"; ws; licen_cs];
    seq [lit "motor"; ws; lit "vehicle"];
    seq [lit "license"; ws; lit "to"; ws; lit "drive"];
    seq [lit "transport"; ws; lit "department"];
    seq [lit "dl"; ws; lit "no"];
    seq [lit "regional"; ws; lit "transport"];
    seq [lit "motor"; ws; lit "driving"];
    seq [lit "vehicle"; ws; lit "class"] ].

Definition dl_context_words : list text :=
  [ "driving" : text; "license" : text; "licence" : text;
    "transport" : text; "vehicle" : text; "dl" : text ].

Definition validate_dl (t : text) : MatchResult :=
  let text_lower := Py.lower t in
  let keyword_found :=
    Py.any (fun pattern => found pattern text_lower) dl_keyword_indicators in
  match search (ignorecase DL_PATTERN) t with
  | Some dl_number =>
      if keyword_found then (true, Some dl_number, 0.95%float)
      else if Py.any (fun word => Py.contains word text_lower) dl_context_words
      then (true, Some dl_number, 0.85%float)
      else (true, Some dl_number, 0.7%float)
  | None =>
      if keyword_found &&
         (2 <=? List.length
                  (filter (fun kw => found kw text_lower) dl_keyword_indicators))%nat
      then (true, None, 0.6%float)
      else (false, None, 0.0%float)
  end.

(** The counting loop of [calculate_scoring]. *)
Definition count_keywords (patterns : list regex) (text_lower : text) : nat :=
  fold_left
    (fun found_keywords pattern =>
       if found pattern text_lower then S found_keywords else found_keywords)
    patterns 0%nat.

Definition calculate_scoring (t : text) (doc_type : DocumentType) : float :=
  let text_lower := Py.lower t in
  let score := 0.0%float in
  let patterns := KEYWORD_PATTERNS doc_type in
  let found_keywords := count_keywords patterns text_lower in
  let score := if (1 <=? found_keywords)%nat then (score + 0.4)%float else score in
  let score := if (2 <=? found_keywords)%nat then (score + 0.2)%float else score in
  score.

(** *** [classification_service.py] *)

(** Lines 14-29: every matcher runs, in the order Aadhaar, PAN, DL. *)
Definition candidates (t : text) : list Candidate :=
  (let '(is_aadhaar, aadhaar_no, aadhaar_score) := validate_aadhaar t in
   if is_aadhaar then [(AADHAAR, aadhaar_no, aadhaar_score)] else []) ++
  (let '(is_pan, pan_no, pan_score) := validate_pan t in
   if is_pan then [(PAN, pan_no, pan_score)] else []) ++
  (let '(is_dl, dl_no, dl_score) := validate_dl t in
   if is_dl then [(DRIVING_LICENCE, dl_no, dl_score)] else []).

(** Lines 36-39: a candidate with its disambiguation total. *)
Definition scored (t : text) (c : Candidate) : Candidate * float :=
  let '(doc_type, number, base_score) := c in
  let keyword_score := calculate_scoring t doc_type in
  let total_score := ((base_score * 0.6) + (keyword_score * 0.4))%float in
  (doc_type, number, base_score, total_score).

(** Lines 33-46: the candidate adopted, if any. *)
Definition disambiguate (t : text) : option Candidate :=
  let candidates := candidates t in
  if (1 <? List.length candidates)%nat then
    let scored_candidates := map (scored t) candidates in
    ' best_candidate <- Py.max snd scored_candidates ;;
    Some (fst best_candidate)
  else if (List.length candidates =? 1)%nat then
    nth_error candidates 0
  else Some (UNKNOWN, None, 0.0%float).

(** Lines 49-61: the keyword fallback. *)
Definition fallback (t : text) (c : Candidate) : option Candidate :=
  let '(detected_type, id_number, base_confidence) := c in
  if DocumentType_eqb detected_type UNKNOWN then
    let scores :=
      map (fun dtype => (dtype, calculate_scoring t dtype))
          [AADHAAR; PAN; DRIVING_LICENCE] in
    ' (best_type, best_kw_score) <- Py.max snd scores ;;
    if (0 <? best_kw_score)%float
    then Some (best_type, id_number, 0.0%float)
    else Some c
  else Some c.

(** Lines 64-75: the final confidence. *)
Definition final_confidence
    (t : text) (detected_type : DocumentType) (base_confidence : float) : float :=
  let final_score := 0.0%float in
  if negb (DocumentType_eqb detected_type UNKNOWN) then
    let keyword_score := calculate_scoring t detected_type in
    let final_score := ((base_confidence * 0.6) + keyword_score)%float in
    let final_score :=
      if ((0.8 <=? base_confidence) && (0 <? keyword_score))%float
      then Py.min (final_score + 0.2)%float 0.99%float
      else final_score in
    Py.min final_score 0.99%float
  else final_score.

Definition unknown_reason : message :=
  [Lit "Could not identify document type. No supported ID keywords or patterns found."].

Definition too_low_reason (final_score : float) (detected_type : DocumentType)
  : message :=
  [Lit "Confidence score ("; Num (Py.round2 final_score);
   Lit ") too low for "; Lit (value detected_type);
   Lit ". Validation failed."].

Section Engine.

(** The process-wide [settings] object. *)
Variable settings : Config.Settings.

(** Lines 81-93: status and reason. *)
Definition decide (detected_type : DocumentType) (final_score : float)
  : VerificationStatus * option message :=
  if DocumentType_eqb detected_type UNKNOWN then
    (REJECTED, Some unknown_reason)
  else if (Config.CONFIDENCE_THRESHOLD_HIGH settings <=? final_score)%float then
    (VERIFIED, None)
  else if (Config.CONFIDENCE_THRESHOLD_LOW settings <=? final_score)%float then
    (VERIFIED, None)
  else (REJECTED, Some (too_low_reason final_score detected_type)).

Definition classify_and_verify_with (t : text) : option VerificationResponse :=
  ' c <- disambiguate t ;;
  ' (detected_type, id_number, base_confidence) <- fallback t c ;;
  let final_score := final_confidence t detected_type base_confidence in
  let extracted_fields :=
    match id_number with
    | Some n => if Py.truthy id_number then [("id_number", n)] else []
    | None => []
    end in
  let '(status, reason) := decide detected_type final_score in
  VerificationResponse_new status detected_type (Py.round2 final_score)
    reason extracted_fields (Some t).

End Engine.

(** The engine under the default configuration. *)
Definition classify_and_verify : text -> option VerificationResponse :=
  classify_and_verify_with Config.settings.

End OCR.

(** ** [src/services/ocr-service/app/services]: the second copy *)

Module OcrService.

Import Schemas Re.

(** *** [validation_service.py] *)

Definition AADHAAR_PATTERN : regex :=
  seq [times 4 digit; opt space; times 4 digit; opt space; times 4 digit].

Definition PAN_PATTERN : regex :=
  seq [times 5 upper; times 4 digit; Cls upper].

Definition DL_PATTERN : regex :=
  seq [times 2 upper; opt dash_or_space; times 2 digit; opt dash_or_space;
       Rep digit 4 19].

Definition KEYWORD_PATTERNS (doc_type : DocumentType) : list regex :=
  match doc_type with
  | AADHAAR =>
      [ lit "aadhaar";
        seq [lit "unique"; ws; lit "identification"; ws; lit "authority"];
        lit "uidai";
        seq [lit "government"; ws; lit "of"; ws; lit "india"];
        seq [lit "mera"; ws; lit "aadhaar"];
        lit "dob";
        seq [lit "date"; ws; lit "of"; ws; lit "birth"];
        lit "yob";
        seq [lit "year"; ws; lit "of"; ws; lit "birth"];
        lit "bale"; lit "female"; lit "male" ]
  | PAN =>
      [ seq [lit "permanent"; ws; lit "account"; ws; lit "number"];
        seq [lit "income"; ws; lit "tax"; ws; lit "department"];
        seq [lit "govt"; ws; lit "of"; ws; lit "india"];
        seq [lit "date"; ws; lit "of"; ws; lit "birth"];
        seq [lit "father's"; ws; lit "name"] ]
  | DRIVING_LICENCE =>
      [ seq [lit "driving"; ws; lit "licence"];
        seq [lit "driving"; ws; lit "license"];
        seq [lit "union"; ws; lit "of"; ws; lit "india"];
        seq [lit "transport"; ws; lit "department"];
        seq [lit "valid"; ws; lit "till"];
        seq [lit "issued"; ws; lit "on"] ]
  | UNKNOWN => []
  end.

Definition validate_aadhaar (t : text) : MatchResult :=
  match search AADHAAR_PATTERN t with
  | Some m => (true, Some m, 1.0%float)
  | None => (false, None, 0.0%float)
  end.

Definition validate_pan (t : text) : MatchResult :=
  match search PAN_PATTERN t with
  | Some m => (true, Some m, 1.0%float)
  | None => (false, None, 0.0%float)
  end.

Definition validate_dl (t : text) : MatchResult :=
  match search DL_PATTERN t with
  | Some m =>
      if Py.contains "DL" t || Py.contains "Licences" t || Py.contains "Driving" t
      then (true, Some m, 0.8%float)
      else (true, Some m, 0.6%float)
  | None => (false, None, 0.0%float)
  end.

Definition count_keywords (patterns : list regex) (text_lower : text) : nat :=
  fold_left
    (fun found_keywords pattern =>
       if found pattern text_lower then S found_keywords else found_keywords)
    patterns 0%nat.

Definition calculate_scoring (t : text) (doc_type : DocumentType) : float :=
  let text_lower := Py.lower t in
  let score := 0.0%float in
  let patterns := KEYWORD_PATTERNS doc_type in
  let found_keywords := count_keywords patterns text_lower in
  let score := if (1 <=? found_keywords)%nat then (score + 0.4)%float else score in
  let score := if (2 <=? found_keywords)%nat then (score + 0.2)%float else score in
  score.

(** *** [classification_service.py] *)

(** Lines 13-32: Aadhaar first, PAN and DL only while nothing is detected. *)
Definition regex_validation (t : text) : Candidate :=
  let c : Candidate := (UNKNOWN, None, 0.0%float) in
  let c : Candidate :=
    let '(is_aadhaar, aadhaar_no, aadhaar_score) := validate_aadhaar t in
    if is_aadhaar then (AADHAAR, aadhaar_no, aadhaar_score) else c in
  let c : Candidate :=
    if DocumentType_eqb (fst (fst c)) UNKNOWN then
      let '(is_pan, pan_no, pan_score) := validate_pan t in
      if is_pan then (PAN, pan_no, pan_score) else c
    else c in
  if DocumentType_eqb (fst (fst c)) UNKNOWN then
    let '(is_dl, dl_no, dl_score) := validate_dl t in
    if is_dl then (DRIVING_LICENCE, dl_no, dl_score) else c
  else c.

(** Lines 35-47: the keyword fallback. *)
Definition fallback (t : text) (c : Candidate) : option Candidate :=
  let '(detected_type, id_number, base_confidence) := c in
  if DocumentType_eqb detected_type UNKNOWN then
    let scores :=
      map (fun dtype => (dtype, calculate_scoring t dtype))
          [AADHAAR; PAN; DRIVING_LICENCE] in
    ' (best_type, best_kw_score) <- Py.max snd scores ;;
    if (0 <? best_kw_score)%float
    then Some (best_type, id_number, 0.0%float)
    else Some c
  else Some c.

(** Lines 50-61: the final confidence. *)
Definition final_confidence
    (t : text) (detected_type : DocumentType) (base_confidence : float) : float :=
  let final_score := 0.0%float in
  if negb (DocumentType_eqb detected_type UNKNOWN) then
    let keyword_score := calculate_scoring t detected_type in
    let final_score := ((base_confidence * 0.6) + keyword_score)%float in
    let final_score :=
      if ((0.8 <=? base_confidence) && (0 <? keyword_score))%float
      then Py.min (final_score + 0.2)%float 0.99%float
      else final_score in
    Py.min final_score 0.99%float
  else final_score.

Definition unknown_reason : message :=
  [Lit "Could not identify document type. No supported ID keywords or patterns found."].

Definition too_low_reason (final_score : float) (detected_type : DocumentType)
  : message :=
  [Lit "Confidence score ("; Num (Py.round2 final_score);
   Lit ") too low for "; Lit (value detected_type);
   Lit ". Validation failed."].

Section Engine.

(** Modelled from the spec: [app/core/config.py] and
    [app/schemas/document.py] of this copy are not among the sources.
    Its [settings] object is a parameter; its document types, statuses
    and response are the data model of section 3 of the specification,
    which is the schema of the first copy. *)
Variable settings : Config.Settings.

Definition decide (detected_type : DocumentType) (final_score : float)
  : VerificationStatus * option message :=
  if DocumentType_eqb detected_type UNKNOWN then
    (REJECTED, Some unknown_reason)
  else if (Config.CONFIDENCE_THRESHOLD_HIGH settings <=? final_score)%float then
    (VERIFIED, None)
  else if (Config.CONFIDENCE_THRESHOLD_LOW settings <=? final_score)%float then
    (VERIFIED, None)
  else (REJECTED, Some (too_low_reason final_score detected_type)).

Definition classify_and_verify (t : text) : option VerificationResponse :=
  ' (detected_type, id_number, base_confidence) <- fallback t (regex_validation t) ;;
  let final_score := final_confidence t detected_type base_confidence in
  let extracted_fields :=
    match id_number with
    | Some n => if Py.truthy id_number then [("id_number", n)] else []
    | None => []
    end in
  let '(status, reason) := decide detected_type final_score in
  VerificationResponse_new status detected_type (Py.round2 final_score)
    reason extracted_fields (Some t).

End Engine.

End OcrService.

(** ** The specification's wording, as definitions to compare the code with *)

Module Spec.

Import Schemas.

(** Number of keyword patterns of the type's list that match somewhere in
    the lower-cased text. *)
Definition hits (t : text) (doc_type : DocumentType) : nat :=
  List.length
    (filter (fun p => Re.found p (Py.lower t)) (OCR.KEYWORD_PATTERNS doc_type)).

(** Section 4.2: 0 hits -> 0.0; 1 hit -> 0.4; 2 or more -> 0.6. *)
Definition keyword_step (n : nat) : float :=
  match n with
  | 0 => 0.0
  | 1 => 0.4
  | _ => 0.6
  end%float.

(** What the code accumulates in binary64: 0.4, then 0.2 on top of it. *)
Definition keyword_sum (n : nat) : float :=
  match n with
  | 0 => 0.0
  | 1 => 0.4
  | _ => 0.4 + 0.2
  end%float.

(** Section 4.1, step 1: the strong DL-indicator phrases, with optional
    white space between their words.  The specification names eight of
    them by example; [driving licen[cs]], without the final e, is the
    ninth pattern of the list, so that a text with driving licence hits
    two indicators. *)
Definition indicator_phrases : list Re.regex :=
  [ Re.seq [Re.lit "driving"; Re.ws;
            Re.seq [Re.lit "licen"; Re.Cls (Re.one_of "cs")]; Re.lit "e"];
    Re.seq [Re.lit "driving"; Re.ws;
            Re.seq [Re.lit "licen"; Re.Cls (Re.one_of "cs")]];
    Re.seq [Re.lit "motor"; Re.ws; Re.lit "vehicle"];
    Re.seq [Re.lit "license"; Re.ws; Re.lit "to"; Re.ws; Re.lit "drive"];
    Re.seq [Re.lit "transport"; Re.ws; Re.lit "department"];
    Re.seq [Re.lit "dl"; Re.ws; Re.lit "no"];
    Re.seq [Re.lit "regional"; Re.ws; Re.lit "transport"];
    Re.seq [Re.lit "motor"; Re.ws; Re.lit "driving"];
    Re.seq [Re.lit "vehicle"; Re.ws; Re.lit "class"] ].

(** The decision table, second row: the six context words. *)
Definition context_words : list text :=
  [ "driving" : text; "license" : text; "licence" : text;
    "transport" : text; "vehicle" : text; "dl" : text ].

(** Section 4.1, step 2: the licence-number-like token.  Either [DL] or
    two letters, an optional hyphen or white-space character, two digits,
    an optional hyphen or white-space character and four to nineteen
    digits; or two letters, two digits and four to nineteen digits in one
    run.  The search ignores case. *)
Definition licence_number : Re.regex :=
  Re.Alt
    (Re.seq [Re.Alt (Re.lit "DL") (Re.times 2 Re.upper); Re.opt Re.dash_or_space;
             Re.times 2 Re.digit; Re.opt Re.dash_or_space; Re.Rep Re.digit 4 19])
    (Re.seq [Re.times 2 Re.upper; Re.times 2 Re.digit; Re.Rep Re.digit 4 19]).

(** The numeric match of the decision table: the leftmost token. *)
Definition numeric_match (t : text) : option text :=
  Re.search (Re.ignorecase licence_number) t.

(** Number of strong DL indicator phrases that match the lower-cased
    text. *)
Definition indicator_hits (t : text) : nat :=
  List.length
    (filter (fun p => Re.found p (Py.lower t)) indicator_phrases).

(** One of the context words is a substring of the lower-cased text. *)
Definition context_word (t : text) : bool :=
  existsb (fun w => Py.contains w (Py.lower t)) context_words.

(** Section 4.1, the decision table of the driving-licence matcher. *)
Definition dl_table (numeric : option text) (indicators : nat) (context : bool)
  : MatchResult :=
  match numeric with
  | Some n =>
      if (1 <=? indicators)%nat then (true, Some n, 0.95%float)
      else if context then (true, Some n, 0.85%float)
      else (true, Some n, 0.70%float)
  | None =>
      if (2 <=? indicators)%nat then (true, None, 0.60%float)
      else (false, None, 0.0%float)
  end.

(** The matcher of a document type. *)
Definition matcher (doc_type : DocumentType) (t : text) : MatchResult :=
  match doc_type with
  | AADHAAR => OCR.validate_aadhaar t
  | PAN => OCR.validate_pan t
  | DRIVING_LICENCE => OCR.validate_dl t
  | UNKNOWN => (false, None, 0.0%float)
  end.

Definition fires (t : text) (doc_type : DocumentType) : bool :=
  fst (fst (matcher doc_type t)).

(** The evaluation order of the engine. *)
Definition evaluation_order : list DocumentType :=
  [AADHAAR; PAN; DRIVING_LICENCE].

(** Some identifier matcher fired. *)
Definition fired (t : text) : bool := existsb (fires t) evaluation_order.

(** The base confidence that goes with a detected type: the base score
    its matcher reported, or 0.0 when no matcher fired at all. *)
Definition base_confidence (t : text) (doc_type : DocumentType) : float :=
  if fired t then snd (matcher doc_type t) else 0.0%float.

(** Section 4.3, step 4: the final blend. *)
Definition blend (base_confidence keyword_score : float) : float :=
  let final := ((base_confidence * 0.6) + keyword_score)%float in
  let final :=
    if ((0.8 <=? base_confidence) && (0 <? keyword_score))%float
    then Py.min (final + 0.2)%float 0.99%float
    else final in
  Py.min final 0.99%float.

(** Section 4.3, step 2: the disambiguation total of a candidate. *)
Definition total (t : text) (c : Candidate) : float :=
  let '(doc_type, _, base) := c in
  ((base * 0.6) + (OCR.calculate_scoring t doc_type * 0.4))%float.

(** Section 4.3, step 3: the type with the highest keyword score, the
    first one in the order Aadhaar, PAN, DL among equals. *)
Definition best_type (t : text) : DocumentType :=
  let a := OCR.calculate_scoring t AADHAAR in
  let p := OCR.calculate_scoring t PAN in
  let d := OCR.calculate_scoring t DRIVING_LICENCE in
  if (a <? p)%float
  then (if (p <? d)%float then DRIVING_LICENCE else PAN)
  else (if (a <? d)%float then DRIVING_LICENCE else AADHAAR).

(** What the engine adopts: the result of disambiguation, then of the
    keyword fallback. *)
Definition adopts (t : text) (c : Candidate) : Prop :=
  exists c0, OCR.disambiguate t = Some c0 /\ OCR.fallback t c0 = Some c.

(** Step 7: the extracted fields of an identifier. *)
Definition fields (id_number : option text) : list (string * text) :=
  match id_number with
  | Some (c :: n) => [("id_number", c :: n)]
  | _ => []
  end.

End Spec.

(** ** Finite carriers and example inputs *)

(** The order laws of the binary64 comparison on a finite set of keys:
    asymmetry and negative transitivity, checked by evaluation. *)
Definition order_laws (K : list float) : bool :=
  forallb (fun x => forallb (fun y =>
    implb (x <? y)%float (negb (y <? x)%float) &&
    forallb (fun z =>
      implb (negb (x <? y)%float && negb (y <? z)%float) (negb (x <? z)%float)) K)
    K) K.

(** The keyword scores, the base confidences of the matchers, and the
    disambiguation totals they give rise to. *)
Definition keyword_scores : list float := [0.0; 0.4; 0.4 + 0.2]%float.

Definition base_scores : list float := [1.0; 0.95; 0.85; 0.7; 0.6; 0.0]%float.

Definition totals : list float :=
  flat_map (fun b => map (fun k => (b * 0.6) + (k * 0.4))%float keyword_scores)
    base_scores.

(** The text of the specification's end-to-end example (and of the
    repository's [test_verify_pan_success]). *)
Definition pan_card_text : text :=
  "Income Tax Department GOVT OF INDIA Permanent Account Number ABCDE1234F".

(** A PAN number with two PAN keywords, and an Aadhaar number with no
    Aadhaar keyword. *)
Definition pan_and_aadhaar_text : text :=
  "Income Tax Department Permanent Account Number ABCDE1234F 1234 5678 9012".

(** A configuration whose low threshold is the double 0.4 + 0.2, one unit
    in the last place above 0.6. *)
Definition tight_settings : Config.Settings :=
  {| Config.CONFIDENCE_THRESHOLD_HIGH := 0.85%float;
     Config.CONFIDENCE_THRESHOLD_LOW := (0.4 + 0.2)%float |}.

(** The text of the repository's [test_scoring]. *)
Definition scoring_test_text : text :=
  "government of india aadhaar 1234 5678 9012".

(** Two Aadhaar keywords and nothing else. *)
Definition aadhaar_keywords_text : text := "aadhaar uidai".

(** An Aadhaar number next to two DL indicator phrases, with no Aadhaar
    keyword and no DL number. *)
Definition aadhaar_and_dl_phrases_text : text :=
  "1234 5678 9012 regional transport motor driving".

(** ** Notions used by the further properties *)

(** ** Patterns that a character mapping leaves alone *)

(** Every class of [r] gives the same answer on [f c] as on [c]. *)
Fixpoint stable (f : ascii -> ascii) (r : Re.regex) : Prop :=
  match r with
  | Re.Eps => True
  | Re.Chr c => forall d, Ascii.eqb c (f d) = Ascii.eqb c d
  | Re.Cls p | Re.Rep p _ _ | Re.Star p => forall d, p (f d) = p d
  | Re.Cat r1 r2 | Re.Alt r1 r2 => stable f r1 /\ stable f r2
  end.


(** The length of the shortest word of a pattern. *)
Fixpoint min_len (r : Re.regex) : nat :=
  match r with
  | Re.Eps | Re.Star _ => 0
  | Re.Chr _ | Re.Cls _ => 1
  | Re.Rep _ lo _ => lo
  | Re.Cat r1 r2 => min_len r1 + min_len r2
  | Re.Alt r1 r2 => Nat.min (min_len r1) (min_len r2)
  end.

(** ** The scores the engine can reach *)

(** The pairs of base confidence and keyword score that can meet in the
    final blend. *)
Definition reachable_pairs : list (float * float) :=
  [ (1.0, 0.0); (1.0, 0.4); (1.0, 0.4 + 0.2);
    (0.95, 0.4); (0.95, 0.4 + 0.2);
    (0.85, 0.0); (0.85, 0.4); (0.85, 0.4 + 0.2);
    (0.7, 0.0); (0.7, 0.4); (0.7, 0.4 + 0.2);
    (0.6, 0.4 + 0.2);
    (0.0, 0.4); (0.0, 0.4 + 0.2) ]%float.

(** The confidence scores a response can carry. *)
Definition confidence_values : list float :=
  [0.0; 0.4; 0.42; 0.51; 0.6; 0.82; 0.96; 0.99]%float.


(** Number of keyword patterns of the second copy's list that match
    somewhere in the lower-cased text. *)
Definition service_hits (t : text) (doc_type : Schemas.DocumentType) : nat :=
  List.length
    (filter (fun p => Re.found p (Py.lower t))
            (OcrService.KEYWORD_PATTERNS doc_type)).

(** The base confidences of the second copy's matchers. *)
Definition service_base_scores : list float := [1.0; 0.8; 0.6; 0.0]%float.

(** The confidence scores a response of the second engine can carry. *)
Definition service_confidence_values : list float :=
  [0.0; 0.36; 0.4; 0.48; 0.6; 0.76; 0.96; 0.99]%float.


(** ** The upload pipeline

    - [src/OCR/app/api/routes/document.py]: the [/verify] route;
    - [src/OCR/app/services/ocr_service.py]: [extract_text];
    - [src/services/ocr-service/app/services/image_processing.py]:
      [load_image_file] and the exception handling of [preprocess_image];
    - [src/services/ocr-service/app/core/exceptions.py]:
      [DocumentProcessingError].

    The calls into pdf2image, PIL, OpenCV and Tesseract are parameters: a
    call returns a value or raises. *)

Module Pipeline.

Import Schemas.

Inductive outcome (E A : Type) : Type :=
| Returns (a : A)
| Raises (e : E).

Arguments Returns {E A} a.
Arguments Raises {E A} e.

(** What can be raised inside the pipeline and caught by
    [except Exception]: the application's own exception ([exceptions.py],
    lines 21-24) or any other one, of which the code only ever takes
    [str(e)].  Interrupts, which are not instances of [Exception], are
    outside the model. *)
Inductive exn : Type :=
| DocumentProcessingError (message : text)
| Exception (what : text).

(** [str(e)]: [DocumentProcessingError] does not override [__str__], so
    it prints the argument it was built with. *)
Definition str (e : exn) : text :=
  match e with
  | DocumentProcessingError message => message
  | Exception what => what
  end.

Definition bind {E A B : Type} (x : outcome E A) (k : A -> outcome E B)
  : outcome E B :=
  match x with
  | Returns a => k a
  | Raises e => Raises e
  end.

(** [try: body except Exception as e: raise handler(e)] *)
Definition try_except {A : Type} (body : outcome exn A) (handler : exn -> exn)
  : outcome exn A :=
  match body with
  | Returns a => Returns a
  | Raises e => Raises (handler e)
  end.

Definition bytes := list Byte.byte.

(** [==] on [str] *)
Fixpoint text_eqb (a b : text) : bool :=
  match a, b with
  | [], [] => true
  | c :: a', d :: b' => Ascii.eqb c d && text_eqb a' b'
  | _, _ => false
  end.

(** [str.strip()]: white space is what [str.isspace] accepts. *)
Fixpoint lstrip (t : text) : text :=
  match t with
  | c :: t' => if Re.space c then lstrip t' else t
  | [] => []
  end.

Definition rstrip (t : text) : text := rev (lstrip (rev t)).

Definition strip (t : text) : text := rstrip (lstrip t).

Section Services.

Variable Image : Type.

(** [pdf2image.convert_from_bytes(file_content, dpi=...)] *)
Variable convert_from_bytes : bytes -> Z -> outcome exn (list Image).

(** [Image.open(io.BytesIO(file_content))] *)
Variable Image_open : bytes -> outcome exn Image.

(** Lines 38-97 of [image_processing.py]: the image operations of
    [preprocess_image]. *)
Variable preprocess_steps : Image -> outcome exn Image.

(** [pytesseract.image_to_string(image, config=..., lang=...)] *)
Variable image_to_string : Image -> text -> text -> outcome exn text.

(** *** [image_processing.py] *)

Definition password_protected : text :=
  "This PDF is password protected. Please upload an unlocked PDF.".

(** Lines 10-28. *)
Definition load_image_file (file_content : bytes) (content_type : text)
  : outcome exn Image :=
  try_except
    (if text_eqb content_type "application/pdf" then
       bind (convert_from_bytes file_content 300) (fun images =>
       match images with
       | [] => Raises (DocumentProcessingError "Empty PDF file")
       | image :: _ => Returns image
       end)
     else
       bind (Image_open file_content) (fun image => Returns image))
    (fun e =>
       let error_msg := str e in
       if Py.contains "Incorrect password" error_msg
          || Py.contains "password" (Py.lower error_msg)
       then DocumentProcessingError password_protected
       else DocumentProcessingError
              (("Failed to load image: " : text) ++ error_msg)).

(** Lines 30-99: whatever the image operations raise is wrapped. *)
Definition preprocess_image (image : Image) : outcome exn Image :=
  try_except (preprocess_steps image)
    (fun e =>
       DocumentProcessingError
         (("Image preprocessing failed: " : text) ++ str e)).

(** *** [ocr_service.py] *)

(** Lines 14-19. *)
Definition configs : list text :=
  [ "--oem 1 --psm 3" : text; "--oem 1 --psm 6" : text;
    "--oem 1 --psm 4" : text; "--oem 1 --psm 11" : text ].

(** Lines 22-27: the loop over the configurations, left at the first text
    of more than ten characters. *)
Fixpoint try_configs (image : Image) (configs : list text) (text0 : text)
  : outcome exn text :=
  match configs with
  | [] => Returns text0
  | config :: configs' =>
      bind (image_to_string image config "eng") (fun text1 =>
      let text1 := strip text1 in
      if (10 <? List.length text1)%nat then Returns text1
      else try_configs image configs' text1)
  end.

(** Lines 8-33. *)
Definition extract_text (image : Image) : outcome exn text :=
  try_except (try_configs image configs [])
    (fun e =>
       DocumentProcessingError
         (("Text extraction failed: " : text) ++ str e)).


End Services.

(** *** [routes/document.py] *)

(** What leaves the route: FastAPI's [HTTPException], or an exception of
    the pipeline raised again. *)
Inductive raised : Type :=
| HTTPException (status_code : Z) (detail : text)
| Raise (e : exn).

(** The part of an [UploadFile] the route reads. *)
Record UploadFile : Type := {
  content_type : option text;
  content : bytes               (* [await file.read()] *)
}.

Definition MAX_FILE_SIZE : Z := 5 * 1024 * 1024.

Definition ALLOWED_MIME_TYPES : list text :=
  [ "image/jpeg" : text; "image/png" : text; "application/pdf" : text ].

(** [file.content_type in ALLOWED_MIME_TYPES] *)
Definition allowed (content_type : option text) : bool :=
  match content_type with
  | Some ct => existsb (text_eqb ct) ALLOWED_MIME_TYPES
  | None => false
  end.

(** The f-string of line 30, with the list printed by [repr]. *)
Definition unsupported_file_type : text :=
  "Unsupported file type. Allowed: ['image/jpeg', 'image/png', 'application/pdf']".

(** The response model rejects a response by raising a validation error,
    which the route never looks into. *)
Definition validated {A : Type} (response : option A) : outcome exn A :=
  match response with
  | Some r => Returns r
  | None => Raises (Exception "ValidationError")
  end.

Section Route.

Variable Image : Type.

(** The collaborators of the route. *)
Variable load_image_file : bytes -> text -> outcome exn Image.
Variable preprocess_image : Image -> outcome exn Image.
Variable extract_text : Image -> outcome exn text.
Variable classify_and_verify : text -> option VerificationResponse.

(** Lines 51-71: the body of the [try]. *)
Definition pipeline (file_content : bytes) (content_type : text)
  : outcome exn VerificationResponse :=
  bind (load_image_file file_content content_type) (fun image =>
  bind (preprocess_image image) (fun processed_image =>
  bind (extract_text processed_image) (fun text0 =>
  validated (classify_and_verify text0)))).

(** Lines 17-78. *)
Definition verify_document
    (file : UploadFile) (declared_document_type : option text)
  : outcome raised VerificationResponse :=
  match content_type file with
  | Some ct =>
      if negb (allowed (Some ct)) then
        Raises (HTTPException 400 unsupported_file_type)
      else
        let file_content := content file in
        if (MAX_FILE_SIZE <? Z.of_nat (List.length file_content))%Z then
          Raises (HTTPException 400 "File size exceeds 5 MB limit")
        else if (Z.of_nat (List.length file_content) =? 0)%Z then
          Raises (HTTPException 400 "Empty file")
        else
          match pipeline file_content ct with
          | Returns result => Returns result
          | Raises (DocumentProcessingError message) =>
              Raises (Raise (DocumentProcessingError message))
          | Raises (Exception _) =>
              Raises (HTTPException 500 "Internal processing error")
          end
  | None => Raises (HTTPException 400 unsupported_file_type)
  end.

End Route.

(** The route of the first engine over the services above. *)
Definition verify
    (Image : Type)
    (convert_from_bytes : bytes -> Z -> outcome exn (list Image))
    (Image_open : bytes -> outcome exn Image)
    (preprocess_steps : Image -> outcome exn Image)
    (image_to_string : Image -> text -> text -> outcome exn text)
  : UploadFile -> option text -> outcome raised VerificationResponse :=
  verify_document
    (load_image_file convert_from_bytes Image_open)
    (preprocess_image preprocess_steps)
    (extract_text image_to_string)
    OCR.classify_and_verify.

(** *** [core/exceptions.py] and their registration in [main.py] *)

Record JSONResponse : Type := {
  status_code : Z;
  json : list (string * text)
}.

(** Lines 7-12. *)
Definition global_exception_handler (exc : exn) : JSONResponse :=
  {| status_code := 500; json := [("detail", "Internal Server Error" : text)] |}.

(** Lines 14-19. *)
Definition http_exception_handler (exc_status_code : Z) (exc_detail : text)
  : JSONResponse :=
  {| status_code := exc_status_code; json := [("detail", exc_detail)] |}.

(** Lines 26-31. *)
Definition document_processing_exception_handler (exc_message : text)
  : JSONResponse :=
  {| status_code := 400;
     json := [("status", "rejected" : text); ("reason", exc_message)] |}.

(** [main.py], lines 45-47: an exception goes to the handler registered
    for its class, [Exception] being the class of last resort. *)
Definition handle (exc : raised) : JSONResponse :=
  match exc with
  | HTTPException status_code detail => http_exception_handler status_code detail
  | Raise (DocumentProcessingError message) =>
      document_processing_exception_handler message
  | Raise (Exception what) => global_exception_handler (Exception what)
  end.

End Pipeline.

(** * Properties *)

Section ListFacts.

Variable A : Type.
Variable f : A -> bool.

Lemma count_loop_filter (l : list A) (n : nat) :
  fold_left (fun k x => if f x then S k else k) l n
  = (n + List.length (filter f l))%nat.
Proof.
  revert n; induction l as [|x l IH]; intro n; simpl.
  - lia.
  - rewrite IH. destruct (f x); simpl; lia.
Qed.

Lemma existsb_filter_length (l : list A) :
  existsb f l = (1 <=? List.length (filter f l))%nat.
Proof.
  induction l as [|x l IH]; simpl; [reflexivity|].
  destruct (f x); simpl; [reflexivity | exact IH].
Qed.

End ListFacts.

(** ** The matcher against the words of a pattern *)

Section Regex.

Import Re.

Lemma in_down (n hi lo : nat) : In n (down hi lo) <-> lo <= n <= hi.
Proof.
  unfold down. rewrite <- in_rev, in_seq. lia.
Qed.

Lemma run_bound (p : ascii -> bool) (b : nat) (s : text) :
  run p b s <= b /\ run p b s <= List.length s.
Proof.
  revert s; induction b as [|b IH]; intros [|c s]; simpl; try lia.
  destruct (p c); simpl; [|lia].
  destruct (IH s). lia.
Qed.

Lemma run_forall (p : ascii -> bool) (b : nat) (s : text) (n : nat) :
  n <= run p b s -> Forall (fun c => p c = true) (firstn n s).
Proof.
  revert s n; induction b as [|b IH]; intros s n H.
  - simpl in H. replace n with 0 by lia. constructor.
  - destruct s as [|c s]; simpl in H.
    + replace n with 0 by lia. constructor.
    + destruct (p c) eqn:E.
      * destruct n as [|n]; simpl; constructor; [exact E|].
        apply IH. lia.
      * replace n with 0 by lia. constructor.
Qed.

Lemma run_app (p : ascii -> bool) (b : nat) (w rest : text) :
  Forall (fun c => p c = true) w -> List.length w <= b ->
  List.length w <= run p b (w ++ rest).
Proof.
  intro Hw. revert b; induction Hw as [|c w Hc Hw IH]; intros b Hb; simpl.
  - lia.
  - destruct b as [|b]; simpl in *; [lia|].
    rewrite Hc. specialize (IH b). lia.
Qed.

Lemma firstn_plus (A : Type) (a b : nat) (l : list A) :
  firstn (a + b) l = firstn a l ++ firstn b (skipn a l).
Proof.
  revert l; induction a as [|a IH]; intros [|x l]; simpl;
    try reflexivity.
  - now rewrite firstn_nil.
  - now rewrite IH.
Qed.

(** Every length the matcher lists is the length of a prefix that is a
    word of the pattern. *)
Lemma mlens_sound (r : regex) (s : text) (n : nat) :
  In n (mlens r s) -> n <= List.length s /\ matches r (firstn n s).
Proof.
  revert s n; induction r as [|c|p|p lo hi|p|r1 IH1 r2 IH2|r1 IH1 r2 IH2];
    intros s n H; simpl in H.
  - destruct H as [<-|[]]. split; [lia | constructor].
  - destruct s as [|d s]; [destruct H|].
    destruct (Ascii.eqb c d) eqn:E; [|destruct H].
    apply Ascii.eqb_eq in E. subst d.
    destruct H as [<-|[]]. simpl. split; [lia | constructor].
  - destruct s as [|d s]; [destruct H|].
    destruct (p d) eqn:E; [|destruct H].
    destruct H as [<-|[]]. simpl. split; [lia | now constructor].
  - destruct (Nat.ltb (run p hi s) lo); [destruct H|].
    apply in_down in H. destruct (run_bound p hi s) as [Hhi Hlen].
    split; [lia|].
    apply M_Rep.
    + apply (run_forall p hi). lia.
    + rewrite firstn_length_le; lia.
    + rewrite firstn_length_le; lia.
  - apply in_down in H.
    destruct (run_bound p (List.length s) s) as [_ Hlen].
    split; [lia|].
    apply M_Star. apply (run_forall p (List.length s)). lia.
  - apply in_flat_map in H. destruct H as (n1 & H1 & H).
    apply in_map_iff in H. destruct H as (n2 & <- & H2).
    apply IH1 in H1. apply IH2 in H2.
    destruct H1 as [L1 M1], H2 as [L2 M2].
    rewrite length_skipn in L2.
    split; [lia|].
    rewrite firstn_plus. now constructor.
  - apply in_app_or in H. destruct H as [H|H].
    + apply IH1 in H. destruct H. split; [assumption | now apply M_AltL].
    + apply IH2 in H. destruct H. split; [assumption | now apply M_AltR].
Qed.

(** Every word of the pattern at the head of the text is found. *)
Lemma mlens_complete (r : regex) (w : text) :
  matches r w -> forall rest, In (List.length w) (mlens r (w ++ rest)).
Proof.
  induction 1 as [|c|p c Hc|p lo hi w Hw Hlo Hhi|p w Hw
                  |r1 r2 w1 w2 _ IH1 _ IH2|r1 r2 w _ IH|r1 r2 w _ IH];
    intro rest; simpl.
  - now left.
  - rewrite Ascii.eqb_refl. now left.
  - rewrite Hc. now left.
  - pose proof (run_app p rest Hw Hhi) as Hrun.
    destruct (run_bound p hi (w ++ rest)) as [Hb _].
    destruct (Nat.ltb (run p hi (w ++ rest)) lo) eqn:E.
    + apply Nat.ltb_lt in E. lia.
    + apply in_down. lia.
  - apply in_down. split; [lia|].
    apply run_app; [assumption|]. rewrite length_app. lia.
  - apply in_flat_map. exists (List.length w1). split.
    + rewrite <- app_assoc. apply IH1.
    + rewrite length_app. apply in_map.
      rewrite <- app_assoc, skipn_app, skipn_all, Nat.sub_diag. simpl.
      apply IH2.
  - apply in_or_app. left. apply IH.
  - apply in_or_app. right. apply IH.
Qed.

(** [search] fails exactly when no substring is a word of the pattern. *)
Lemma search_none (r : regex) (s : text) :
  search r s = None <-> ~ occurs r s.
Proof.
  split.
  - induction s as [|c s IH]; simpl; unfold match_here;
      destruct (mlens r _) as [|n l] eqn:E; try discriminate;
      intros H (pre & w & post & Hs & Hm).
    + destruct pre; [|discriminate]. simpl in Hs.
      pose proof (mlens_complete Hm post) as Hin.
      rewrite <- Hs, E in Hin. destruct Hin.
    + destruct pre as [|d pre]; simpl in Hs.
      * pose proof (mlens_complete Hm post) as Hin.
        rewrite <- Hs, E in Hin. destruct Hin.
      * injection Hs as _ Hs. apply (IH H). now exists pre, w, post.
  - intro H. destruct (search r s) as [m|] eqn:E; [|reflexivity].
    exfalso. apply H. clear H.
    induction s as [|c s IH]; simpl in E; unfold match_here in E;
      destruct (mlens r _) as [|n l] eqn:En.
    + discriminate.
    + exists [], (firstn n []), (skipn n []). split.
      * simpl. now rewrite firstn_skipn.
      * apply (mlens_sound r []). rewrite En. now left.
    + destruct (IH E) as (pre & w & post & -> & Hm).
      now exists (c :: pre), w, post.
    + exists [], (firstn n (c :: s)), (skipn n (c :: s)). split.
      * simpl app. now rewrite firstn_skipn.
      * apply (mlens_sound r (c :: s)). rewrite En. now left.
Qed.

(** What [search] returns is a substring of the text and a word of the
    pattern, and no word of the pattern starts further left. *)
Lemma search_some (r : regex) (s m : text) :
  search r s = Some m ->
  exists pre post,
    s = pre ++ m ++ post /\ matches r m /\
    forall pre' w post',
      s = pre' ++ w ++ post' -> matches r w ->
      List.length pre <= List.length pre'.
Proof.
  revert m; induction s as [|c s IH]; intros m E; simpl in E;
    unfold match_here in E; destruct (mlens r _) as [|n l] eqn:En.
  - discriminate.
  - injection E as <-. exists [], (skipn n []). split; [|split].
    + simpl. now rewrite firstn_skipn.
    + apply (mlens_sound r []). rewrite En. now left.
    + intros. simpl. lia.
  - destruct (IH m E) as (pre & post & -> & Hm & Hleft).
    exists (c :: pre), post. split; [reflexivity | split; [exact Hm|]].
    intros [|d pre'] w post' Hs Hw; simpl in Hs.
    + pose proof (mlens_complete Hw post') as Hin.
      rewrite <- Hs, En in Hin. destruct Hin.
    + injection Hs as _ Hs. simpl.
      specialize (Hleft pre' w post' Hs Hw). lia.
  - injection E as <-. exists [], (skipn n (c :: s)). split; [|split].
    + simpl app. now rewrite firstn_skipn.
    + apply (mlens_sound r (c :: s)). rewrite En. now left.
    + intros. simpl. lia.
Qed.

Lemma found_occurs (r : regex) (s : text) :
  found r s = true <-> occurs r s.
Proof.
  unfold found. split.
  - destruct (search r s) as [m|] eqn:E; [|discriminate].
    intros _. apply search_some in E.
    destruct E as (pre & post & Hs & Hm & _). now exists pre, m, post.
  - intro H. destruct (search r s) as [m|] eqn:E; [reflexivity|].
    apply search_none in E. contradiction.
Qed.

End Regex.

(** ** The keyword scorer *)

Lemma count_keywords_hits (ps : list Re.regex) (tl : text) :
  OCR.count_keywords ps tl
  = List.length (filter (fun p => Re.found p tl) ps).
Proof. unfold OCR.count_keywords. now rewrite count_loop_filter. Qed.

Lemma calculate_scoring_sum (t : text) (ty : Schemas.DocumentType) :
  OCR.calculate_scoring t ty = Spec.keyword_sum (Spec.hits t ty).
Proof.
  unfold OCR.calculate_scoring, Spec.hits.
  rewrite count_keywords_hits.
  destruct (List.length _) as [|[|n]]; reflexivity.
Qed.

Lemma calculate_scoring_cases (t : text) (ty : Schemas.DocumentType) :
  OCR.calculate_scoring t ty = 0.0%float \/
  OCR.calculate_scoring t ty = 0.4%float \/
  OCR.calculate_scoring t ty = (0.4 + 0.2)%float.
Proof.
  rewrite calculate_scoring_sum.
  destruct (Spec.hits t ty) as [|[|n]]; simpl; auto.
Qed.

Lemma keyword_sum_monotone (n m : nat) :
  (Spec.keyword_sum n <=? Spec.keyword_sum (n + m))%float = true.
Proof. destruct n as [|[|n]], m as [|[|m]]; reflexivity. Qed.

Lemma keyword_sum_saturates (n : nat) :
  Spec.keyword_sum (2 + n) = Spec.keyword_sum 2.
Proof. reflexivity. Qed.

(** Two floats that a test tells apart are different. *)
Lemma float_neq (f : float -> bool) (x y : float) :
  f x = true -> f y = false -> x <> y.
Proof. intros Hx Hy E. rewrite E in Hx. congruence. Qed.

(** C7 (as stated): at the text of the repository's own scoring test two
    Aadhaar keywords match, and the score is not the double 0.6 but the
    next one above it.  The difference shows in the engine: next to an
    Aadhaar number, two DL indicator phrases give the DL candidate the
    total 0.6 * 0.6 + (0.4 + 0.2) * 0.4, which beats the Aadhaar total
    1.0 * 0.6 + 0.0 * 0.4 and DL is selected; with the score 0.6 the two
    totals would tie and Aadhaar, the first candidate, would win. *)
Lemma calculate_scoring_two_hits_not_0_6 :
  Spec.hits scoring_test_text Schemas.AADHAAR = 2%nat /\
  OCR.calculate_scoring scoring_test_text Schemas.AADHAAR <> Spec.keyword_step 2 /\
  (Spec.keyword_step 2 <? OCR.calculate_scoring scoring_test_text Schemas.AADHAAR)%float
  = true /\
  OCR.candidates aadhaar_and_dl_phrases_text
  = [(Schemas.AADHAAR, Some ("1234 5678 9012" : text), 1.0%float);
     (Schemas.DRIVING_LICENCE, None, 0.6%float)] /\
  Spec.hits aadhaar_and_dl_phrases_text Schemas.AADHAAR = 0%nat /\
  (2 <=? Spec.hits aadhaar_and_dl_phrases_text Schemas.DRIVING_LICENCE)%nat = true /\
  OCR.disambiguate aadhaar_and_dl_phrases_text
  = Some (Schemas.DRIVING_LICENCE, None, 0.6%float) /\
  ((1.0 * 0.6) + (0.0 * 0.4) <? (0.6 * 0.6) + (Spec.keyword_step 2 * 0.4))%float
  = false.
Proof.
  split; [vm_compute; reflexivity|].
  split.
  - apply (float_neq (fun x => 0.6 <? x)%float); vm_compute; reflexivity.
  - repeat split; vm_compute; reflexivity.
Qed.

(** C7 (amended): the scorer lower-cases the text, counts the patterns of
    the type's list that match by search (a pattern matches when one of
    its words occurs in the text), and returns 0.0 for no hit, 0.4
    for one hit and the binary64 sum 0.4 + 0.2 for two or more hits; that
    sum is 0.6 once rounded to two decimals; the score is monotone in the
    number of hits and constant from two hits on. *)
Theorem calculate_scoring_step (t : text) (ty : Schemas.DocumentType) :
  (forall p, Re.found p (Py.lower t) = true <-> Re.occurs p (Py.lower t)) /\
  OCR.calculate_scoring t ty = Spec.keyword_sum (Spec.hits t ty) /\
  Py.round2 (OCR.calculate_scoring t ty) = Spec.keyword_step (Spec.hits t ty) /\
  (forall n m, (Spec.keyword_sum n <=? Spec.keyword_sum (n + m))%float = true) /\
  (forall n, Spec.keyword_sum (2 + n) = Spec.keyword_sum 2) /\
  (Spec.keyword_step 2 <? Spec.keyword_sum 2)%float = true.
Proof.
  split; [intro p; apply found_occurs|].
  split; [apply calculate_scoring_sum|].
  split.
  - rewrite calculate_scoring_sum.
    destruct (Spec.hits t ty) as [|[|n]]; vm_compute; reflexivity.
  - split; [exact keyword_sum_monotone|].
    split; [exact keyword_sum_saturates | reflexivity].
Qed.

(** ** The identifier matchers *)

Lemma validate_aadhaar_cases (t : text) :
  OCR.validate_aadhaar t = (false, None, 0.0%float) \/
  exists m, OCR.validate_aadhaar t = (true, Some m, 1.0%float).
Proof.
  unfold OCR.validate_aadhaar.
  destruct (Re.search OCR.AADHAAR_PATTERN t) as [m|]; eauto.
Qed.

Lemma validate_pan_cases (t : text) :
  OCR.validate_pan t = (false, None, 0.0%float) \/
  exists m, OCR.validate_pan t = (true, Some m, 1.0%float).
Proof.
  unfold OCR.validate_pan.
  destruct (Re.search OCR.PAN_PATTERN t) as [m|]; eauto.
Qed.

Lemma validate_aadhaar_spec (t : text) :
  (Re.occurs OCR.AADHAAR_PATTERN t ->
   exists pre m post,
     t = pre ++ m ++ post /\ Re.matches OCR.AADHAAR_PATTERN m /\
     OCR.validate_aadhaar t = (true, Some m, 1.0%float) /\
     forall pre' w post',
       t = pre' ++ w ++ post' -> Re.matches OCR.AADHAAR_PATTERN w ->
       List.length pre <= List.length pre') /\
  (~ Re.occurs OCR.AADHAAR_PATTERN t ->
   OCR.validate_aadhaar t = (false, None, 0.0%float)).
Proof.
  unfold OCR.validate_aadhaar. split; intro H.
  - destruct (Re.search OCR.AADHAAR_PATTERN t) as [m|] eqn:E.
    + apply search_some in E. destruct E as (pre & post & Ht & Hm & Hleft).
      exists pre, m, post. auto.
    + apply search_none in E. contradiction.
  - apply search_none in H. now rewrite H.
Qed.

Lemma aadhaar_pattern_words :
  Re.matches OCR.AADHAAR_PATTERN "1234 5678 9012" /\
  Re.matches OCR.AADHAAR_PATTERN "123456789012" /\
  Re.matches OCR.AADHAAR_PATTERN "12345678 9012".
Proof.
  repeat split.
  - apply (mlens_sound OCR.AADHAAR_PATTERN "1234 5678 9012" 14).
    vm_compute. now left.
  - apply (mlens_sound OCR.AADHAAR_PATTERN "123456789012" 12).
    vm_compute. now left.
  - apply (mlens_sound OCR.AADHAAR_PATTERN "12345678 9012" 13).
    vm_compute. now left.
Qed.

(** C5: the Aadhaar matcher returns the leftmost substring of the form
    DDDD[ ]?DDDD[ ]?DDDD verbatim with base confidence 1.0, and
    (false, null, 0.0) when there is none; the spaced form is such a
    substring, but so are twelve digits with no space at all, which the
    claim and the repository's [test_validate_aadhaar] require not to
    match; a joined run even hides a spaced number that follows it.  Both
    copies of the matcher behave alike. *)
Theorem validate_aadhaar_accepts_joined_digits :
  (forall t : text,
      (Re.occurs OCR.AADHAAR_PATTERN t ->
       exists pre m post,
         t = pre ++ m ++ post /\ Re.matches OCR.AADHAAR_PATTERN m /\
         OCR.validate_aadhaar t = (true, Some m, 1.0%float) /\
         forall pre' w post',
           t = pre' ++ w ++ post' -> Re.matches OCR.AADHAAR_PATTERN w ->
           List.length pre <= List.length pre') /\
      (~ Re.occurs OCR.AADHAAR_PATTERN t ->
       OCR.validate_aadhaar t = (false, None, 0.0%float))) /\
  Re.matches OCR.AADHAAR_PATTERN "1234 5678 9012" /\
  Re.matches OCR.AADHAAR_PATTERN "123456789012" /\
  OCR.validate_aadhaar "My Aadhaar is 1234 5678 9012"
    = (true, Some ("1234 5678 9012" : text), 1.0%float) /\
  OCR.validate_aadhaar "My Aadhaar is 123456789012"
    = (true, Some ("123456789012" : text), 1.0%float) /\
  OcrService.validate_aadhaar "My Aadhaar is 123456789012"
    = (true, Some ("123456789012" : text), 1.0%float) /\
  OCR.validate_aadhaar "999900001111 1234 5678 9012"
    = (true, Some ("999900001111" : text), 1.0%float) /\
  OCR.validate_aadhaar "no digits here" = (false, None, 0.0%float).
Proof.
  split; [exact validate_aadhaar_spec|].
  destruct aadhaar_pattern_words as (H1 & H2 & _).
  split; [exact H1|]. split; [exact H2|].
  repeat split; vm_compute; reflexivity.
Qed.

(** The lists and the pattern the matcher is written with are those of
    the decision table. *)
Lemma dl_table_data :
  OCR.dl_keyword_indicators = Spec.indicator_phrases /\
  OCR.dl_context_words = Spec.context_words /\
  OCR.DL_PATTERN = Spec.licence_number.
Proof. repeat split. Qed.

(** C6: the driving-licence matcher is the decision table of the
    specification, read top to bottom: a licence-number-like token with at
    least one of the nine indicator phrases gives 0.95; without any, but
    with one of the six context words driving, license, licence,
    transport, vehicle, dl as a substring of the lower-cased text, 0.85;
    the token alone 0.70; no token but at least two indicator phrases
    (true, null, 0.60); and otherwise (false, null, 0.0).  The token, the
    phrases and the words are written out in [Spec.licence_number],
    [Spec.indicator_phrases] and [Spec.context_words].  The matcher is
    also run: on one text for each row of the table, on a licence number
    next to each of the six context words, and on a licence number next
    to a text for each of the nine indicator phrases. *)
Theorem validate_dl_decision_table :
  (forall t : text,
      OCR.validate_dl t
      = Spec.dl_table (Spec.numeric_match t)
          (Spec.indicator_hits t) (Spec.context_word t)) /\
  (OCR.validate_dl "DL-0420110149646 Driving Licence"
     = (true, Some ("DL-0420110149646" : text), 0.95%float) /\
   OCR.validate_dl "ka 01 20110149646 vehicle"
     = (true, Some ("ka 01 20110149646" : text), 0.85%float) /\
   OCR.validate_dl "ka0120110149646"
     = (true, Some ("ka0120110149646" : text), 0.7%float) /\
   OCR.validate_dl "regional transport, motor driving" = (true, None, 0.6%float) /\
   OCR.validate_dl "motor driving" = (false, None, 0.0%float)) /\
  map (fun w : text => OCR.validate_dl (("KA-01-2011014964 " : text) ++ w))
    [ "Driving" : text; "License" : text; "Licence" : text;
      "Transport" : text; "Vehicle" : text; "DL" : text ]
  = repeat (true, Some ("KA-01-2011014964" : text), 0.85%float) 6 /\
  map (fun w : text => OCR.validate_dl (("KA-01-2011014964 " : text) ++ w))
    [ "Driving Licence" : text; "Driving Licens" : text; "Motor Vehicle" : text;
      "License to Drive" : text; "Transport Department" : text; "DL No" : text;
      "Regional Transport" : text; "Motor Driving" : text;
      "Vehicle Class" : text ]
  = repeat (true, Some ("KA-01-2011014964" : text), 0.95%float) 9.
Proof.
  split; [|split; [repeat split; vm_compute; reflexivity
                  |split; vm_compute; reflexivity]].
  intro t.
  unfold OCR.validate_dl, Spec.dl_table, Spec.numeric_match,
    Spec.indicator_hits, Spec.context_word, Py.any.
  change Spec.indicator_phrases with OCR.dl_keyword_indicators.
  change Spec.context_words with OCR.dl_context_words.
  change Spec.licence_number with OCR.DL_PATTERN.
  rewrite existsb_filter_length.
  destruct (Re.search (Re.ignorecase OCR.DL_PATTERN) t) as [m|].
  - destruct (1 <=? _)%nat; [reflexivity|].
    destruct (existsb _ OCR.dl_context_words); reflexivity.
  - destruct (List.length _) as [|[|n]]; reflexivity.
Qed.

(** The numeric shape and the indicator phrases of the decision table,
    in terms of the words of the patterns. *)
Lemma validate_dl_numeric_shape (t : text) :
  (Re.search (Re.ignorecase OCR.DL_PATTERN) t = None
   <-> ~ Re.occurs (Re.ignorecase OCR.DL_PATTERN) t) /\
  (forall m,
      Re.search (Re.ignorecase OCR.DL_PATTERN) t = Some m ->
      exists pre post,
        t = pre ++ m ++ post /\ Re.matches (Re.ignorecase OCR.DL_PATTERN) m) /\
  ((1 <= Spec.indicator_hits t)%nat
   <-> exists p, In p OCR.dl_keyword_indicators /\ Re.occurs p (Py.lower t)).
Proof.
  split; [apply search_none|]. split.
  - intros m E. apply search_some in E.
    destruct E as (pre & post & Ht & Hm & _). eauto.
  - unfold Spec.indicator_hits.
    change Spec.indicator_phrases with OCR.dl_keyword_indicators. split.
    + intro H.
      destruct (filter _ OCR.dl_keyword_indicators) as [|p l] eqn:E;
        [simpl in H; lia|].
      assert (Hin : In p (filter (fun p => Re.found p (Py.lower t))
                            OCR.dl_keyword_indicators))
        by (rewrite E; now left).
      apply filter_In in Hin. destruct Hin as [Hin Hf].
      exists p. split; [exact Hin | now apply found_occurs].
    + intros (p & Hin & Hocc).
      assert (Hf : In p (filter (fun p => Re.found p (Py.lower t))
                           OCR.dl_keyword_indicators))
        by (apply filter_In; split; [exact Hin | now apply found_occurs]).
      destruct (filter _ OCR.dl_keyword_indicators); [destruct Hf | simpl; lia].
Qed.

Lemma validate_dl_cases (t : text) :
  OCR.validate_dl t = (false, None, 0.0%float) \/
  OCR.validate_dl t = (true, None, 0.6%float) \/
  exists m,
    OCR.validate_dl t = (true, Some m, 0.95%float) \/
    OCR.validate_dl t = (true, Some m, 0.85%float) \/
    OCR.validate_dl t = (true, Some m, 0.7%float).
Proof.
  unfold OCR.validate_dl.
  destruct (Re.search _ t) as [m|].
  - right; right; exists m.
    destruct (Py.any _ OCR.dl_keyword_indicators); [auto|].
    destruct (Py.any _ OCR.dl_context_words); auto.
  - destruct (_ && _); auto.
Qed.

(** ** [max] with a key

    The binary64 comparison is a primitive; on a finite set of keys its
    order laws are checked by evaluation, and the properties of [max]
    follow for every list whose keys are in the set. *)

Section MaxWithKey.

Variable A : Type.
Variable key : A -> float.
Variable K : list float.
Hypothesis laws : order_laws K = true.

Lemma lt_asym x y :
  In x K -> In y K -> (x <? y)%float = true -> (y <? x)%float = false.
Proof.
  intros Hx Hy Hlt. unfold order_laws in laws.
  rewrite forallb_forall in laws. specialize (laws x Hx).
  rewrite forallb_forall in laws. specialize (laws y Hy).
  apply andb_true_iff in laws. destruct laws as [Has _].
  rewrite Hlt in Has. simpl in Has.
  destruct (y <? x)%float; [discriminate | reflexivity].
Qed.

Lemma lt_negtrans x y z :
  In x K -> In y K -> In z K ->
  (x <? y)%float = false -> (y <? z)%float = false -> (x <? z)%float = false.
Proof.
  intros Hx Hy Hz Hxy Hyz. unfold order_laws in laws.
  rewrite forallb_forall in laws. specialize (laws x Hx).
  rewrite forallb_forall in laws. specialize (laws y Hy).
  apply andb_true_iff in laws. destruct laws as [_ Hnt].
  rewrite forallb_forall in Hnt. specialize (Hnt z Hz).
  rewrite Hxy, Hyz in Hnt. simpl in Hnt.
  destruct (x <? z)%float; [discriminate | reflexivity].
Qed.

Lemma max_from_in (best : A) (l : list A) :
  In (Py.max_from key best l) (best :: l).
Proof.
  revert best; induction l as [|x l IH]; intro best; simpl.
  - now left.
  - destruct (IH (if (key best <? key x)%float then x else best)) as [E|H].
    + rewrite <- E. destruct (key best <? key x)%float; auto.
    + auto.
Qed.

(** The result is a maximum, and everything before its first position
    is strictly smaller: the first maximal item wins. *)
Lemma max_from_first (best : A) (l : list A) :
  (forall x, In x (best :: l) -> In (key x) K) ->
  let m := Py.max_from key best l in
  (forall x, In x (best :: l) -> (key m <? key x)%float = false) /\
  exists l1 l2,
    best :: l = l1 ++ m :: l2 /\
    forall x, In x l1 -> (key x <? key m)%float = true.
Proof.
  revert best; induction l as [|x l IH]; intros best HK; cbv zeta in *; simpl.
  - split.
    + intros y [<-|[]].
      destruct (key best <? key best)%float eqn:E; [|reflexivity].
      rewrite (lt_asym (HK best (or_introl eq_refl)) (HK best (or_introl eq_refl)) E) in E.
      discriminate.
    + exists [], []. split; [reflexivity | intros y []].
  - assert (Hb : In (key best) K) by (apply HK; now left).
    assert (Hx : In (key x) K) by (apply HK; right; now left).
    assert (Hl : forall y, In y l -> In (key y) K)
      by (intros y Hy; apply HK; right; now right).
    destruct (key best <? key x)%float eqn:E.
    + destruct (IH x) as [Hmax (l1 & l2 & Hdec & Hfirst)].
      { intros y [<-|Hy]; auto. }
      remember (Py.max_from key x l) as m eqn:Em.
      assert (Hm : In (key m) K).
      { pose proof (max_from_in x l) as Hin. rewrite <- Em in Hin.
        destruct Hin as [<-|Hin]; auto. }
      assert (Hxm : (key m <? key x)%float = false) by (apply Hmax; now left).
      assert (Hbm : (key best <? key m)%float = true).
      { destruct (key best <? key m)%float eqn:E'; [reflexivity|].
        rewrite (lt_negtrans Hb Hm Hx E' Hxm) in E. discriminate. }
      split.
      * intros y [<-|Hy]; [|now apply Hmax].
        now apply lt_asym.
      * exists (best :: l1), l2. split.
        -- simpl. now rewrite Hdec.
        -- intros y [<-|Hy]; auto.
    + destruct (IH best) as [Hmax (l1 & l2 & Hdec & Hfirst)].
      { intros y [<-|Hy]; auto. }
      remember (Py.max_from key best l) as m eqn:Em.
      assert (Hm : In (key m) K).
      { pose proof (max_from_in best l) as Hin. rewrite <- Em in Hin.
        destruct Hin as [<-|Hin]; auto. }
      assert (Hmb : (key m <? key best)%float = false) by (apply Hmax; now left).
      split.
      * intros y [<-|[<-|Hy]].
        -- exact Hmb.
        -- exact (lt_negtrans Hm Hb Hx Hmb E).
        -- apply Hmax. now right.
      * destruct l1 as [|b l1]; simpl in Hdec; injection Hdec as Hb' Hl'.
        -- exists [], (x :: l2). split; [simpl; now rewrite <- Hb', Hl'|].
           intros y [].
        -- subst b. exists (best :: x :: l1), l2. split.
           ++ simpl. now rewrite Hl'.
           ++ intros y [<-|[<-|Hy]].
              ** apply Hfirst. now left.
              ** destruct (key x <? key m)%float eqn:E'; [reflexivity|].
                 assert (Hc := lt_negtrans Hb Hx Hm E E').
                 rewrite (Hfirst best (or_introl eq_refl)) in Hc. discriminate.
              ** apply Hfirst. now right.
Qed.

End MaxWithKey.

Lemma keyword_scores_laws : order_laws keyword_scores = true.
Proof. vm_compute. reflexivity. Qed.

Lemma totals_laws : order_laws totals = true.
Proof. vm_compute. reflexivity. Qed.

Lemma calculate_scoring_in (t : text) (ty : Schemas.DocumentType) :
  In (OCR.calculate_scoring t ty) keyword_scores.
Proof.
  unfold keyword_scores.
  destruct (calculate_scoring_cases t ty) as [-> | [-> | ->]]; simpl; auto.
Qed.

(** ** The candidate set *)

Lemma candidates_order (t : text) :
  map (fun c : Candidate => fst (fst c)) (OCR.candidates t)
  = filter (Spec.fires t) Spec.evaluation_order.
Proof.
  unfold OCR.candidates, Spec.fires, Spec.evaluation_order. simpl.
  destruct (OCR.validate_aadhaar t) as [[[] na] sa];
  destruct (OCR.validate_pan t) as [[[] np] sp];
  destruct (OCR.validate_dl t) as [[[] nd] sd]; reflexivity.
Qed.

Lemma in_candidates (t : text) (c : Candidate) :
  In c (OCR.candidates t) ->
  fst (fst c) <> Schemas.UNKNOWN /\
  Spec.matcher (fst (fst c)) t = (true, snd (fst c), snd c).
Proof.
  unfold OCR.candidates.
  destruct (OCR.validate_aadhaar t) as [[ia na] sa] eqn:Ea;
  destruct (OCR.validate_pan t) as [[ip np] sp] eqn:Ep;
  destruct (OCR.validate_dl t) as [[id nd] sd] eqn:Ed.
  intro H. repeat (apply in_app_or in H; destruct H as [H|H]).
  - destruct ia; [|destruct H]. destruct H as [<-|[]]; simpl.
    split; [discriminate | exact Ea].
  - destruct ip; [|destruct H]. destruct H as [<-|[]]; simpl.
    split; [discriminate | exact Ep].
  - destruct id; [|destruct H]. destruct H as [<-|[]]; simpl.
    split; [discriminate | exact Ed].
Qed.

Lemma candidates_nil_fired (t : text) :
  OCR.candidates t = [] <-> Spec.fired t = false.
Proof.
  unfold Spec.fired.
  pose proof (candidates_order t) as H.
  split; intro E.
  - rewrite E in H.
    destruct (existsb _ _) eqn:Ex; [|reflexivity].
    apply existsb_exists in Ex. destruct Ex as (ty & Hin & Hf).
    assert (Hty : In ty (filter (Spec.fires t) Spec.evaluation_order))
      by (apply filter_In; auto).
    rewrite <- H in Hty. destruct Hty.
  - destruct (OCR.candidates t) as [|c l]; [reflexivity|].
    assert (Hc : In (fst (fst c)) (filter (Spec.fires t) Spec.evaluation_order))
      by (rewrite <- H; left; reflexivity).
    apply filter_In in Hc. destruct Hc as [Hin Hf].
    assert (Ex : existsb (Spec.fires t) Spec.evaluation_order = true)
      by (apply existsb_exists; eauto).
    congruence.
Qed.

Lemma matcher_base (t : text) (ty : Schemas.DocumentType) (id : option text) (b : float) :
  Spec.matcher ty t = (true, id, b) -> In b [1.0; 0.95; 0.85; 0.7; 0.6]%float.
Proof.
  destruct ty; simpl.
  - destruct (validate_aadhaar_cases t) as [-> | [m ->]]; intro E; inversion E; auto.
  - destruct (validate_pan_cases t) as [-> | [m ->]]; intro E; inversion E; auto.
  - destruct (validate_dl_cases t) as [-> | [-> | [m [-> | [-> | ->]]]]];
      intro E; inversion E; auto 6.
  - discriminate.
Qed.

Lemma candidate_base (t : text) (c : Candidate) :
  In c (OCR.candidates t) -> In (snd c) base_scores.
Proof.
  intro H. apply in_candidates in H. destruct H as [_ H].
  apply matcher_base in H. unfold base_scores.
  simpl in *. intuition.
Qed.

Lemma scored_fst (t : text) (c : Candidate) : fst (OCR.scored t c) = c.
Proof. destruct c as [[ty id] b]. reflexivity. Qed.

Lemma scored_snd (t : text) (c : Candidate) : snd (OCR.scored t c) = Spec.total t c.
Proof. destruct c as [[ty id] b]. reflexivity. Qed.

Lemma total_in (t : text) (c : Candidate) :
  In (snd c) base_scores -> In (Spec.total t c) totals.
Proof.
  destruct c as [[ty id] b].
  change (In b base_scores ->
          In ((b * 0.6) + (OCR.calculate_scoring t ty * 0.4))%float totals).
  intro Hb. unfold totals. apply in_flat_map. exists b. split; [exact Hb|].
  apply in_map_iff. exists (OCR.calculate_scoring t ty).
  split; [reflexivity | apply calculate_scoring_in].
Qed.

(** ** Disambiguation *)

Lemma total_irrefl (t : text) (c : Candidate) :
  In c (OCR.candidates t) -> (Spec.total t c <? Spec.total t c)%float = false.
Proof.
  intro H. apply candidate_base, (total_in t) in H.
  destruct (Spec.total t c <? Spec.total t c)%float eqn:E; [|reflexivity].
  rewrite (lt_asym totals totals_laws H H E) in E. discriminate.
Qed.

(** Nothing fired and nothing is adopted yet, or the adopted candidate is
    the first one of the candidate list with a maximal total. *)
Lemma disambiguate_cases (t : text) :
  (OCR.candidates t = [] /\
   OCR.disambiguate t = Some (Schemas.UNKNOWN, None, 0.0%float)) \/
  (exists c before after,
     OCR.candidates t = before ++ c :: after /\
     OCR.disambiguate t = Some c /\
     (forall c', In c' (OCR.candidates t) ->
                 (Spec.total t c <? Spec.total t c')%float = false) /\
     (forall c', In c' before ->
                 (Spec.total t c' <? Spec.total t c)%float = true)).
Proof.
  unfold OCR.disambiguate.
  pose proof (@total_irrefl t) as Hirr.
  pose proof (@candidate_base t) as Hbase.
  destruct (OCR.candidates t) as [|c1 [|c2 l]].
  - left. split; reflexivity.
  - right. exists c1, [], []. simpl. repeat split.
    + intros c' [<-|[]]. apply Hirr. now left.
    + intros c' [].
  - right.
    change ((1 <? List.length (c1 :: c2 :: l))%nat) with true. cbv iota.
    change (Py.max snd (map (OCR.scored t) (c1 :: c2 :: l)))
      with (Some (Py.max_from snd (OCR.scored t c1)
                    (map (OCR.scored t) (c2 :: l)))).
    cbv beta iota.
    destruct (@max_from_first _ (@snd Candidate float) totals totals_laws
                (OCR.scored t c1) (map (OCR.scored t) (c2 :: l)))
      as [Hmax (l1 & l2 & Hdec & Hfirst)].
    { change (OCR.scored t c1 :: map (OCR.scored t) (c2 :: l))
        with (map (OCR.scored t) (c1 :: c2 :: l)).
      intros x Hx. apply in_map_iff in Hx. destruct Hx as (c & <- & Hc).
      rewrite scored_snd. apply total_in, Hbase, Hc. }
    remember (Py.max_from snd (OCR.scored t c1) (map (OCR.scored t) (c2 :: l)))
      as m eqn:Em.
    change (OCR.scored t c1 :: map (OCR.scored t) (c2 :: l))
      with (map (OCR.scored t) (c1 :: c2 :: l)) in Hdec, Hmax.
    apply map_eq_app in Hdec. destruct Hdec as (before & rest & Hc & Hb & Hr).
    apply map_eq_cons in Hr. destruct Hr as (c & after & -> & Hm & Ha).
    exists c, before, after. repeat split.
    + exact Hc.
    + rewrite <- Hm, scored_fst. reflexivity.
    + intros c' Hc'. rewrite <- !scored_snd, Hm.
      apply Hmax. now apply in_map.
    + intros c' Hc'. rewrite <- !scored_snd, Hm.
      apply Hfirst. rewrite <- Hb. now apply in_map.
Qed.

(** ** The keyword fallback *)

Lemma calculate_scoring_unknown (t : text) :
  OCR.calculate_scoring t Schemas.UNKNOWN = 0.0%float.
Proof. reflexivity. Qed.

Lemma fallback_detected (t : text) (c : Candidate) :
  fst (fst c) <> Schemas.UNKNOWN -> OCR.fallback t c = Some c.
Proof.
  destruct c as [[ty id] b]. simpl.
  destruct ty; intro H; try reflexivity. now elim H.
Qed.

Lemma fallback_unknown (t : text) (id : option text) (b : float) :
  OCR.fallback t (Schemas.UNKNOWN, id, b)
  = if (0 <? OCR.calculate_scoring t (Spec.best_type t))%float
    then Some (Spec.best_type t, id, 0.0%float)
    else Some (Schemas.UNKNOWN, id, b).
Proof.
  unfold OCR.fallback, Spec.best_type.
  cbn [Schemas.DocumentType_eqb map Py.max Py.max_from snd fst].
  destruct (OCR.calculate_scoring t Schemas.AADHAAR
            <? OCR.calculate_scoring t Schemas.PAN)%float; cbn [snd].
  - destruct (OCR.calculate_scoring t Schemas.PAN
              <? OCR.calculate_scoring t Schemas.DRIVING_LICENCE)%float;
      cbv beta iota; reflexivity.
  - destruct (OCR.calculate_scoring t Schemas.AADHAAR
              <? OCR.calculate_scoring t Schemas.DRIVING_LICENCE)%float;
      cbv beta iota; reflexivity.
Qed.

Ltac score_cases t :=
  destruct (calculate_scoring_cases t Schemas.AADHAAR) as [Ea | [Ea | Ea]];
  destruct (calculate_scoring_cases t Schemas.PAN) as [Ep | [Ep | Ep]];
  destruct (calculate_scoring_cases t Schemas.DRIVING_LICENCE) as [Ed | [Ed | Ed]];
  rewrite ?Ea, ?Ep, ?Ed.

(** The best type has a maximal score, and every type before it in the
    evaluation order has a strictly smaller one. *)
Lemma best_type_first_maximum (t : text) :
  let score := OCR.calculate_scoring t in
  let best := Spec.best_type t in
  best <> Schemas.UNKNOWN /\
  (forall ty, (score best <? score ty)%float = false) /\
  (best = Schemas.PAN -> (score Schemas.AADHAAR <? score Schemas.PAN)%float = true) /\
  (best = Schemas.DRIVING_LICENCE ->
     (score Schemas.AADHAAR <? score Schemas.DRIVING_LICENCE)%float = true /\
     (score Schemas.PAN <? score Schemas.DRIVING_LICENCE)%float = true).
Proof.
  cbv zeta.
  assert (Hu := calculate_scoring_unknown t).
  unfold Spec.best_type.
  score_cases t; cbv -[OCR.calculate_scoring];
    (split; [discriminate|]);
    (split; [intros []; rewrite ?Ea, ?Ep, ?Ed, ?Hu; reflexivity|]);
    (split; [intro H; try discriminate H; rewrite ?Ea, ?Ep, ?Ed; reflexivity|]);
    (intro H; try discriminate H; rewrite ?Ea, ?Ep, ?Ed; split; reflexivity).
Qed.

(** ** The final confidence and the response *)

Lemma final_confidence_blend (t : text) (ty : Schemas.DocumentType) (b : float) :
  OCR.final_confidence t ty b
  = if Schemas.DocumentType_eqb ty Schemas.UNKNOWN then 0.0%float
    else Spec.blend b (OCR.calculate_scoring t ty).
Proof. destruct ty; reflexivity. Qed.

Lemma blend_range (b k : float) :
  In b base_scores -> In k keyword_scores ->
  (0.0 <=? Py.round2 (Spec.blend b k))%float = true /\
  (Py.round2 (Spec.blend b k) <=? 0.99)%float = true.
Proof.
  unfold base_scores, keyword_scores. simpl In.
  intros Hb Hk.
  repeat (destruct Hb as [<- | Hb]); try contradiction;
  repeat (destruct Hk as [<- | Hk]); try contradiction;
  split; vm_compute; reflexivity.
Qed.

Lemma blend_valid (b k : float) :
  In b base_scores -> In k keyword_scores ->
  ((0.0 <=? Py.round2 (Spec.blend b k)) && (Py.round2 (Spec.blend b k) <=? 1.0))%float
  = true.
Proof.
  unfold base_scores, keyword_scores. simpl In.
  intros Hb Hk.
  repeat (destruct Hb as [<- | Hb]); try contradiction;
  repeat (destruct Hk as [<- | Hk]); try contradiction;
  vm_compute; reflexivity.
Qed.

Lemma final_confidence_valid (t : text) (ty : Schemas.DocumentType) (b : float) :
  In b base_scores ->
  ((0.0 <=? Py.round2 (OCR.final_confidence t ty b))
   && (Py.round2 (OCR.final_confidence t ty b) <=? 1.0))%float = true.
Proof.
  intro Hb. rewrite final_confidence_blend.
  destruct (Schemas.DocumentType_eqb ty Schemas.UNKNOWN).
  - vm_compute. reflexivity.
  - apply blend_valid; [exact Hb | apply calculate_scoring_in].
Qed.

Lemma extracted_fields_spec (id : option text) :
  match id with
  | Some n => if Py.truthy id then [("id_number", n)] else []
  | None => []
  end = Spec.fields id.
Proof. destruct id as [[|c n]|]; reflexivity. Qed.

(** The response, once the adopted candidate is known. *)
Lemma respond (s : Config.Settings) (t : text)
      (ty : Schemas.DocumentType) (id : option text) (b : float) :
  Spec.adopts t (ty, id, b) -> In b base_scores ->
  OCR.classify_and_verify_with s t
  = Some (Schemas.Build_VerificationResponse
            (fst (OCR.decide s ty (OCR.final_confidence t ty b)))
            ty
            (Py.round2 (OCR.final_confidence t ty b))
            (snd (OCR.decide s ty (OCR.final_confidence t ty b)))
            (Spec.fields id)
            (Some t)).
Proof.
  intros (c0 & Hd & Hf) Hb.
  unfold OCR.classify_and_verify_with.
  rewrite Hd, Hf. cbv beta iota zeta.
  rewrite extracted_fields_spec.
  destruct (OCR.decide s ty (OCR.final_confidence t ty b)) as [st rs].
  unfold Schemas.VerificationResponse_new.
  rewrite (@final_confidence_valid t ty b Hb). reflexivity.
Qed.

(** What is adopted: a candidate when some matcher fired, and otherwise
    the best keyword type if it has a positive score. *)
Lemma adopts_cases (t : text) :
  (exists c before after,
     OCR.candidates t = before ++ c :: after /\
     OCR.disambiguate t = Some c /\
     Spec.adopts t c /\
     (forall c', In c' (OCR.candidates t) ->
                 (Spec.total t c <? Spec.total t c')%float = false) /\
     (forall c', In c' before ->
                 (Spec.total t c' <? Spec.total t c)%float = true)) \/
  (OCR.candidates t = [] /\
   OCR.disambiguate t = Some (Schemas.UNKNOWN, None, 0.0%float) /\
   (0 <? OCR.calculate_scoring t (Spec.best_type t))%float = true /\
   Spec.adopts t (Spec.best_type t, None, 0.0%float)) \/
  (OCR.candidates t = [] /\
   OCR.disambiguate t = Some (Schemas.UNKNOWN, None, 0.0%float) /\
   (0 <? OCR.calculate_scoring t (Spec.best_type t))%float = false /\
   Spec.adopts t (Schemas.UNKNOWN, None, 0.0%float)).
Proof.
  destruct (disambiguate_cases t) as [[Hnil Hd] | (c & before & after & Hc & Hd & Hmax & Hfirst)].
  - right.
    pose proof (fallback_unknown t None 0.0%float) as Hf.
    destruct (0 <? OCR.calculate_scoring t (Spec.best_type t))%float.
    + left. repeat split; auto. eexists; split; eauto.
    + right. repeat split; auto. eexists; split; eauto.
  - left. exists c, before, after. repeat split; auto.
    exists c. split; [exact Hd|].
    apply fallback_detected.
    assert (Hin : In c (OCR.candidates t)) by (rewrite Hc; apply in_elt).
    apply in_candidates in Hin. tauto.
Qed.

Lemma adopts_base (t : text) (ty : Schemas.DocumentType) (id : option text) (b : float) :
  Spec.adopts t (ty, id, b) -> In b base_scores.
Proof.
  intros (c0 & Hd & Hf).
  destruct (disambiguate_cases t)
    as [[Hnil Hd'] | (c & before & after & Hc & Hd' & _)].
  - assert (E : c0 = (Schemas.UNKNOWN, None, 0.0%float)) by congruence.
    subst c0. rewrite fallback_unknown in Hf.
    destruct (0 <? _)%float; injection Hf as _ _ <-;
      unfold base_scores; simpl; auto 7.
  - assert (E : c0 = c) by congruence. subst c0.
    assert (Hin : In c (OCR.candidates t)) by (rewrite Hc; apply in_elt).
    rewrite fallback_detected in Hf by (apply in_candidates in Hin; tauto).
    assert (E : c = (ty, id, b)) by congruence. subst c.
    apply (@candidate_base t (ty, id, b) Hin).
Qed.

Lemma adopts_functional (t : text) (c c' : Candidate) :
  Spec.adopts t c -> Spec.adopts t c' -> c = c'.
Proof.
  intros (c0 & Hd & Hf) (c1 & Hd' & Hf'). congruence.
Qed.

(** The base confidence of whatever is adopted with a detected type is
    the base score of that type's matcher, or 0.0 after the fallback. *)
Lemma adopts_base_confidence (t : text)
      (ty : Schemas.DocumentType) (id : option text) (b : float) :
  Spec.adopts t (ty, id, b) -> ty <> Schemas.UNKNOWN ->
  b = Spec.base_confidence t ty.
Proof.
  intros Had Hty. unfold Spec.base_confidence.
  destruct (adopts_cases t)
    as [(c & before & after & Hc & _ & Hc' & _) | [(Hnil & _ & _ & Hc') | (Hnil & _ & _ & Hc')]];
    pose proof (adopts_functional Had Hc') as E.
  - assert (Hin : In c (OCR.candidates t)) by (rewrite Hc; apply in_elt).
    destruct (Spec.fired t) eqn:Hf.
    + apply in_candidates in Hin. rewrite <- E in Hin. simpl in Hin.
      destruct Hin as [_ ->]. reflexivity.
    + apply candidates_nil_fired in Hf. rewrite Hf in Hin. destruct Hin.
  - apply candidates_nil_fired in Hnil. rewrite Hnil. congruence.
  - congruence.
Qed.

(** C1: whenever a type is detected, the final confidence is
    base_confidence * 0.6 plus the whole keyword score of the detected
    type, raised by 0.2 (capped at 0.99) when base_confidence >= 0.8 and
    the keyword score is positive, then capped at 0.99; the reported
    score is that value rounded to two decimals.  On the PAN card text the
    result is verified, pan, id_number ABCDE1234F, confidence 0.99. *)
Theorem final_confidence_is_the_blend :
  (forall t : text,
      exists r id,
        OCR.classify_and_verify t = Some r /\
        let ty := Schemas.detected_document_type r in
        let base := Spec.base_confidence t ty in
        let kw := OCR.calculate_scoring t ty in
        ty = Schemas.UNKNOWN \/
        (Spec.adopts t (ty, id, base) /\
         OCR.final_confidence t ty base = Spec.blend base kw /\
         Schemas.confidence_score r = Py.round2 (Spec.blend base kw))) /\
  OCR.classify_and_verify pan_card_text
  = Some {| Schemas.status := Schemas.VERIFIED;
            Schemas.detected_document_type := Schemas.PAN;
            Schemas.confidence_score := 0.99%float;
            Schemas.failure_reason := None;
            Schemas.extracted_fields := [("id_number", "ABCDE1234F" : text)];
            Schemas.raw_ocr_text := Some pan_card_text |}.
Proof.
  split; [|vm_compute; reflexivity].
  intro t.
  assert (Had : exists ty id b, Spec.adopts t (ty, id, b)).
  { destruct (adopts_cases t)
      as [(c & _ & _ & _ & _ & Hc & _) | [(_ & _ & _ & Hc) | (_ & _ & _ & Hc)]];
      [destruct c as [[ty id] b] | |]; eauto. }
  destruct Had as (ty & id & b & Had).
  pose proof (adopts_base Had) as Hb.
  eexists; exists id.
  split; [exact (respond Config.settings Had Hb)|].
  cbn [Schemas.detected_document_type Schemas.confidence_score].
  destruct ty; [right | right | right | left; reflexivity];
    rewrite <- (adopts_base_confidence Had) by discriminate;
    (split; [exact Had | split; reflexivity]).
Qed.

Lemma detected_range (t : text) (ty : Schemas.DocumentType) (b : float) :
  ty <> Schemas.UNKNOWN -> In b base_scores ->
  (0.0 <=? Py.round2 (OCR.final_confidence t ty b))%float = true /\
  (Py.round2 (OCR.final_confidence t ty b) <=? 0.99)%float = true /\
  Py.round2 (OCR.final_confidence t ty b) <> 1.0%float.
Proof.
  intros Hty Hb. rewrite final_confidence_blend.
  assert (E : Schemas.DocumentType_eqb ty Schemas.UNKNOWN = false)
    by (destruct ty; try reflexivity; now elim Hty).
  rewrite E.
  destruct (blend_range Hb (calculate_scoring_in t ty)) as [H0 H1].
  repeat split; [exact H0 | exact H1 |].
  apply (float_neq (fun x => x <=? 0.99)%float); [exact H1 | reflexivity].
Qed.

(** C2: a response always exists; with a detected type its confidence
    lies in [0.0, 0.99] and is not 1.00; with UNKNOWN it is exactly 0.0,
    there is no id_number among the extracted fields, the document is
    rejected and the failure reason is populated: it is the message
    "Could not identify document type. No supported ID keywords or
    patterns found."  This holds for every threshold configuration. *)
Theorem confidence_score_invariants (s : Config.Settings) (t : text) :
  exists r,
    OCR.classify_and_verify_with s t = Some r /\
    (Schemas.detected_document_type r <> Schemas.UNKNOWN ->
       (0.0 <=? Schemas.confidence_score r)%float = true /\
       (Schemas.confidence_score r <=? 0.99)%float = true /\
       Schemas.confidence_score r <> 1.0%float) /\
    (Schemas.detected_document_type r = Schemas.UNKNOWN ->
       Schemas.confidence_score r = 0.0%float /\
       Schemas.get "id_number" (Schemas.extracted_fields r) = None /\
       Schemas.extracted_fields r = [] /\
       Schemas.status r = Schemas.REJECTED /\
       Schemas.failure_reason r
       = Some [Schemas.Lit
               "Could not identify document type. No supported ID keywords or patterns found."]).
Proof.
  destruct (adopts_cases t)
    as [(c & before & after & Hc & _ & Had & _) | [(_ & _ & _ & Had) | (_ & _ & _ & Had)]].
  - destruct c as [[ty id] b].
    assert (Hty : ty <> Schemas.UNKNOWN).
    { assert (Hin : In (ty, id, b) (OCR.candidates t)) by (rewrite Hc; apply in_elt).
      apply in_candidates in Hin. tauto. }
    pose proof (adopts_base Had) as Hb.
    eexists. split; [exact (respond s Had Hb)|].
    cbn [Schemas.detected_document_type Schemas.confidence_score].
    split; [intros _ | intro E; contradiction].
    exact (detected_range t Hty Hb).
  - pose proof (adopts_base Had) as Hb.
    destruct (best_type_first_maximum t) as [Hty _].
    eexists. split; [exact (respond s Had Hb)|].
    cbn [Schemas.detected_document_type Schemas.confidence_score].
    split; [intros _ | intro E; contradiction].
    exact (detected_range t Hty Hb).
  - pose proof (adopts_base Had) as Hb.
    eexists. split; [exact (respond s Had Hb)|].
    cbn [Schemas.detected_document_type Schemas.confidence_score
         Schemas.extracted_fields Schemas.failure_reason].
    split; [intro E; now elim E | intros _].
    repeat split.
Qed.

Lemma confidence_score_invariants_witness :
  exists r,
    OCR.classify_and_verify_with Config.settings pan_card_text = Some r /\
    (Schemas.confidence_score r <=? 0.99)%float = true /\
    Schemas.confidence_score r <> 1.0%float.
Proof.
  destruct (confidence_score_invariants Config.settings pan_card_text)
    as (r & Hr & Hdet & _).
  exists r. split; [exact Hr|].
  assert (Hty : Schemas.detected_document_type r <> Schemas.UNKNOWN).
  { pose proof Hr as Hr'. vm_compute in Hr'. injection Hr' as <-. discriminate. }
  destruct (Hdet Hty) as (_ & H1 & H2).
  split; assumption.
Defined.

(** ** The threshold decision *)

(** C3 (as stated): the comparison is not made on the rounded score that
    is reported.  Two Aadhaar keywords and no identifier give the final
    score 0.4 + 0.2; the reported score is 0.6, a different double; and
    under [tight_settings] the document is verified although the reported
    score is below the low threshold. *)
Lemma threshold_compares_unrounded_score :
  exists r r',
    OCR.classify_and_verify aadhaar_keywords_text = Some r /\
    Spec.adopts aadhaar_keywords_text (Schemas.AADHAAR, None, 0.0%float) /\
    OCR.final_confidence aadhaar_keywords_text Schemas.AADHAAR 0.0
      <> Schemas.confidence_score r /\
    OCR.classify_and_verify_with tight_settings aadhaar_keywords_text = Some r' /\
    Schemas.status r' = Schemas.VERIFIED /\
    (Config.CONFIDENCE_THRESHOLD_LOW tight_settings
       <=? Schemas.confidence_score r')%float = false /\
    (Config.CONFIDENCE_THRESHOLD_HIGH tight_settings
       <=? Schemas.confidence_score r')%float = false.
Proof.
  eexists. eexists.
  split; [vm_compute; reflexivity|].
  split; [eexists; split; vm_compute; reflexivity|].
  split.
  - apply (float_neq (fun x => 0.6 <? x)%float); vm_compute; reflexivity.
  - split; [vm_compute; reflexivity|].
    repeat split.
Qed.

Lemma decide_unknown (s : Config.Settings) (f : float) :
  OCR.decide s Schemas.UNKNOWN f = (Schemas.REJECTED, Some OCR.unknown_reason).
Proof. reflexivity. Qed.

Lemma decide_detected (s : Config.Settings) (ty : Schemas.DocumentType) (f : float) :
  ty <> Schemas.UNKNOWN ->
  OCR.decide s ty f
  = if ((Config.CONFIDENCE_THRESHOLD_HIGH s <=? f)
        || (Config.CONFIDENCE_THRESHOLD_LOW s <=? f))%float
    then (Schemas.VERIFIED, None)
    else (Schemas.REJECTED, Some (OCR.too_low_reason f ty)).
Proof.
  intro Hty. unfold OCR.decide.
  destruct ty; try (now elim Hty); cbn [Schemas.DocumentType_eqb];
    destruct (Config.CONFIDENCE_THRESHOLD_HIGH s <=? f)%float;
    destruct (Config.CONFIDENCE_THRESHOLD_LOW s <=? f)%float; reflexivity.
Qed.

(** Under the default thresholds, comparing the final score and comparing
    its two-decimal rounding give the same answers. *)
Lemma default_thresholds_rounding (b k : float) :
  In b base_scores -> In k keyword_scores ->
  let f := Spec.blend b k in
  (0.60 <=? f)%float = (0.60 <=? Py.round2 f)%float /\
  (0.85 <=? f)%float = (0.85 <=? Py.round2 f)%float /\
  ((0.85 <=? f) || (0.60 <=? f))%float = (0.60 <=? f)%float.
Proof.
  unfold base_scores, keyword_scores. simpl In.
  intros Hb Hk.
  repeat (destruct Hb as [<- | Hb]); try contradiction;
  repeat (destruct Hk as [<- | Hk]); try contradiction;
  vm_compute; repeat split.
Qed.

(** C3 (amended): UNKNOWN is rejected with the could-not-identify reason;
    a detected type is verified when the unrounded final score reaches
    the high or the low threshold and is rejected otherwise, with the
    too-low reason naming the rounded score and the type; the reported
    score and the score in the reason are the final score rounded to two
    decimals after that comparison.  Under the default thresholds (low
    0.60, high 0.85) the outcome is the one the reported score gives:
    verified exactly when the reported score is at least 0.60. *)
Theorem threshold_decision (s : Config.Settings) (t : text) :
  exists r ty id b,
    Spec.adopts t (ty, id, b) /\
    OCR.classify_and_verify_with s t = Some r /\
    Schemas.detected_document_type r = ty /\
    let f := OCR.final_confidence t ty b in
    let high := Config.CONFIDENCE_THRESHOLD_HIGH s in
    let low := Config.CONFIDENCE_THRESHOLD_LOW s in
    Schemas.confidence_score r = Py.round2 f /\
    (ty = Schemas.UNKNOWN ->
       Schemas.status r = Schemas.REJECTED /\
       Schemas.failure_reason r
       = Some [Schemas.Lit
               "Could not identify document type. No supported ID keywords or patterns found."]) /\
    (ty <> Schemas.UNKNOWN ->
       ((high <=? f) || (low <=? f))%float = true ->
       Schemas.status r = Schemas.VERIFIED /\ Schemas.failure_reason r = None) /\
    (ty <> Schemas.UNKNOWN ->
       ((high <=? f) || (low <=? f))%float = false ->
       Schemas.status r = Schemas.REJECTED /\
       Schemas.failure_reason r
       = Some [Schemas.Lit "Confidence score (";
               Schemas.Num (Schemas.confidence_score r);
               Schemas.Lit ") too low for "; Schemas.Lit (Schemas.value ty);
               Schemas.Lit ". Validation failed."]) /\
    (s = Config.settings -> ty <> Schemas.UNKNOWN ->
       ((high <=? f) || (low <=? f))%float
       = (0.60 <=? Schemas.confidence_score r)%float).
Proof.
  assert (Had : exists ty id b, Spec.adopts t (ty, id, b)).
  { destruct (adopts_cases t)
      as [(c & _ & _ & _ & _ & Hc & _) | [(_ & _ & _ & Hc) | (_ & _ & _ & Hc)]];
      [destruct c as [[ty id] b] | |]; eauto. }
  destruct Had as (ty & id & b & Had).
  pose proof (adopts_base Had) as Hb.
  eexists; exists ty, id, b.
  split; [exact Had|].
  split; [exact (respond s Had Hb)|].
  cbn [Schemas.detected_document_type Schemas.confidence_score
       Schemas.status Schemas.failure_reason].
  split; [reflexivity|].
  split; [reflexivity|].
  split; [intros ->; rewrite decide_unknown; split; reflexivity|].
  split; [intros Hty Hcmp; rewrite (decide_detected s _ Hty), Hcmp; split; reflexivity|].
  split; [intros Hty Hcmp; rewrite (decide_detected s _ Hty), Hcmp; split; reflexivity|].
  intros -> Hty.
  rewrite final_confidence_blend.
  assert (E : Schemas.DocumentType_eqb ty Schemas.UNKNOWN = false)
    by (destruct ty; try reflexivity; now elim Hty).
  rewrite E.
  destruct (default_thresholds_rounding Hb (calculate_scoring_in t ty)) as (H1 & H2 & H3).
  change (Config.CONFIDENCE_THRESHOLD_HIGH Config.settings) with 0.85%float.
  change (Config.CONFIDENCE_THRESHOLD_LOW Config.settings) with 0.60%float.
  rewrite H3. exact H1.
Qed.

(** Two Aadhaar keywords and no identifier, under the default thresholds. *)
Lemma threshold_decision_witness :
  exists r,
    OCR.classify_and_verify_with Config.settings aadhaar_keywords_text = Some r /\
    Schemas.status r = Schemas.VERIFIED /\
    (0.60 <=? Schemas.confidence_score r)%float = true.
Proof.
  destruct (threshold_decision Config.settings aadhaar_keywords_text)
    as (r & ty & id & b & Had & Hr & Hty & Hconf & _ & Hver & _ & Hdef).
  assert (Had' : Spec.adopts aadhaar_keywords_text (Schemas.AADHAAR, None, 0.0%float))
    by (eexists; split; vm_compute; reflexivity).
  pose proof (adopts_functional Had Had') as E'.
  injection E' as -> -> ->.
  assert (Hne : Schemas.AADHAAR <> Schemas.UNKNOWN) by discriminate.
  exists r. split; [exact Hr|]. split.
  - apply (Hver Hne). vm_compute. reflexivity.
  - rewrite <- (Hdef eq_refl Hne). vm_compute. reflexivity.
Defined.

(** ** Disambiguation between several candidates *)

(** C4: with two or more candidates the engine adopts a candidate whose
    total base * 0.6 + keyword_score * 0.4 is maximal; every candidate
    before it in the evaluation order Aadhaar, PAN, DL has a strictly
    smaller total, so the first one wins a tie; its own base score, not the
    total, enters the final blend.  On [pan_and_aadhaar_text] both the
    Aadhaar and the PAN matcher report 1.0 and PAN is selected. *)
Theorem disambiguation_first_maximum :
  (forall t : text,
      (1 < List.length (OCR.candidates t))%nat ->
      exists c before after r,
        OCR.candidates t = before ++ c :: after /\
        map (fun c : Candidate => fst (fst c)) (OCR.candidates t)
        = filter (Spec.fires t) Spec.evaluation_order /\
        OCR.disambiguate t = Some c /\
        (forall c', In c' (OCR.candidates t) ->
                    (Spec.total t c <? Spec.total t c')%float = false) /\
        (forall c', In c' before ->
                    (Spec.total t c' <? Spec.total t c)%float = true) /\
        Spec.adopts t c /\
        Spec.matcher (fst (fst c)) t = (true, snd (fst c), snd c) /\
        OCR.classify_and_verify t = Some r /\
        Schemas.detected_document_type r = fst (fst c) /\
        Schemas.extracted_fields r = Spec.fields (snd (fst c)) /\
        Schemas.confidence_score r
        = Py.round2 (Spec.blend (snd c) (OCR.calculate_scoring t (fst (fst c))))) /\
  (OCR.validate_aadhaar pan_and_aadhaar_text
     = (true, Some ("1234 5678 9012" : text), 1.0%float) /\
   OCR.validate_pan pan_and_aadhaar_text
     = (true, Some ("ABCDE1234F" : text), 1.0%float) /\
   Spec.hits pan_and_aadhaar_text Schemas.AADHAAR = 0%nat /\
   Spec.hits pan_and_aadhaar_text Schemas.PAN = 2%nat /\
   OCR.disambiguate pan_and_aadhaar_text
     = Some (Schemas.PAN, Some ("ABCDE1234F" : text), 1.0%float) /\
   option_map Schemas.detected_document_type
     (OCR.classify_and_verify pan_and_aadhaar_text) = Some Schemas.PAN).
Proof.
  split; [|repeat split; vm_compute; reflexivity].
  intros t Hlen.
  destruct (adopts_cases t)
    as [(c & before & after & Hc & Hd & Had & Hmax & Hfirst)
       | [(Hnil & _) | (Hnil & _)]];
    [| rewrite Hnil in Hlen; simpl in Hlen; lia
     | rewrite Hnil in Hlen; simpl in Hlen; lia].
  assert (Hin : In c (OCR.candidates t)) by (rewrite Hc; apply in_elt).
  destruct (in_candidates _ _ Hin) as [Hty Hm].
  destruct c as [[ty id] b].
  pose proof (adopts_base Had) as Hb.
  exists (ty, id, b), before, after. eexists.
  split; [exact Hc|].
  split; [apply candidates_order|].
  split; [exact Hd|].
  split; [exact Hmax|].
  split; [exact Hfirst|].
  split; [exact Had|].
  split; [exact Hm|].
  split; [exact (respond Config.settings Had Hb)|].
  cbn [Schemas.detected_document_type Schemas.extracted_fields
       Schemas.confidence_score fst snd].
  split; [reflexivity|]. split; [reflexivity|].
  rewrite final_confidence_blend.
  simpl in Hty.
  destruct ty; try reflexivity. now elim Hty.
Qed.

Lemma disambiguation_first_maximum_witness :
  exists c before after r,
    OCR.candidates pan_and_aadhaar_text = before ++ c :: after /\
    map (fun c : Candidate => fst (fst c)) (OCR.candidates pan_and_aadhaar_text)
    = filter (Spec.fires pan_and_aadhaar_text) Spec.evaluation_order /\
    OCR.disambiguate pan_and_aadhaar_text = Some c /\
    (forall c', In c' (OCR.candidates pan_and_aadhaar_text) ->
                (Spec.total pan_and_aadhaar_text c
                 <? Spec.total pan_and_aadhaar_text c')%float = false) /\
    (forall c', In c' before ->
                (Spec.total pan_and_aadhaar_text c'
                 <? Spec.total pan_and_aadhaar_text c)%float = true) /\
    Spec.adopts pan_and_aadhaar_text c /\
    Spec.matcher (fst (fst c)) pan_and_aadhaar_text = (true, snd (fst c), snd c) /\
    OCR.classify_and_verify pan_and_aadhaar_text = Some r /\
    Schemas.detected_document_type r = fst (fst c) /\
    Schemas.extracted_fields r = Spec.fields (snd (fst c)) /\
    Schemas.confidence_score r
    = Py.round2 (Spec.blend (snd c)
                   (OCR.calculate_scoring pan_and_aadhaar_text (fst (fst c)))).
Proof.
  apply (proj1 disambiguation_first_maximum pan_and_aadhaar_text).
  vm_compute. apply le_n.
Defined.

(** ** Classification by keywords alone *)

Lemma best_score_zero (t : text) :
  (0 <? OCR.calculate_scoring t (Spec.best_type t))%float = false ->
  forall ty, OCR.calculate_scoring t ty = 0.0%float.
Proof.
  assert (Hu := calculate_scoring_unknown t).
  unfold Spec.best_type.
  score_cases t; cbv -[OCR.calculate_scoring]; rewrite ?Ea, ?Ep, ?Ed;
    intro H; try discriminate H;
    vm_compute in H; try discriminate H;
    intros []; assumption.
Qed.

Lemma keyword_sum_positive (n : nat) :
  (0 <? Spec.keyword_sum (S n))%float = true.
Proof. destruct n; reflexivity. Qed.

Lemma best_score_positive (t : text) (ty : Schemas.DocumentType) :
  (1 <= Spec.hits t ty)%nat ->
  (0 <? OCR.calculate_scoring t (Spec.best_type t))%float = true.
Proof.
  intro Hh.
  destruct (0 <? OCR.calculate_scoring t (Spec.best_type t))%float eqn:E;
    [reflexivity|].
  pose proof (best_score_zero t E ty) as Hz.
  rewrite calculate_scoring_sum in Hz.
  destruct (Spec.hits t ty) as [|n]; [lia|].
  pose proof (keyword_sum_positive n) as Hp.
  rewrite Hz in Hp. discriminate Hp.
Qed.

(** C8: when no identifier matcher fires, nothing is adopted by
    disambiguation and the fallback looks at the keyword scores of the
    three types: the best type has a maximal score and every type before
    it in the order Aadhaar, PAN, DL has a strictly smaller one; if its
    score is positive it is adopted with base confidence 0.0 and no
    identifier; if it is not, all three scores are 0.0 and the type stays
    UNKNOWN.  The empty string is such a text and stays UNKNOWN. *)
Theorem keyword_fallback :
  (forall t : text,
      OCR.candidates t = [] ->
      let score := OCR.calculate_scoring t in
      let best := Spec.best_type t in
      exists r,
        OCR.disambiguate t = Some (Schemas.UNKNOWN, None, 0.0%float) /\
        OCR.classify_and_verify t = Some r /\
        Schemas.extracted_fields r = [] /\
        (forall ty, (score best <? score ty)%float = false) /\
        (best = Schemas.PAN ->
           (score Schemas.AADHAAR <? score Schemas.PAN)%float = true) /\
        (best = Schemas.DRIVING_LICENCE ->
           (score Schemas.AADHAAR <? score Schemas.DRIVING_LICENCE)%float = true /\
           (score Schemas.PAN <? score Schemas.DRIVING_LICENCE)%float = true) /\
        ((0 <? score best)%float = true ->
           Spec.adopts t (best, None, 0.0%float) /\
           best <> Schemas.UNKNOWN /\
           Schemas.detected_document_type r = best) /\
        ((0 <? score best)%float = false ->
           (forall ty, score ty = 0.0%float) /\
           Spec.adopts t (Schemas.UNKNOWN, None, 0.0%float) /\
           Schemas.detected_document_type r = Schemas.UNKNOWN)) /\
  (OCR.candidates "" = [] /\
   OCR.classify_and_verify ""
   = Some {| Schemas.status := Schemas.REJECTED;
             Schemas.detected_document_type := Schemas.UNKNOWN;
             Schemas.confidence_score := 0.0%float;
             Schemas.failure_reason :=
               Some [Schemas.Lit
                       "Could not identify document type. No supported ID keywords or patterns found."];
             Schemas.extracted_fields := [];
             Schemas.raw_ocr_text := Some ("" : text) |}).
Proof.
  split; [|split; vm_compute; reflexivity].
  intros t Hnil score best.
  destruct (best_type_first_maximum t) as (Hty & Hmax & Hpan & Hdl).
  destruct (adopts_cases t)
    as [(c & before & after & Hc & _) | [(_ & Hd & Hpos & Had) | (_ & Hd & Hpos & Had)]].
  - rewrite Hnil in Hc. destruct before; discriminate Hc.
  - pose proof (adopts_base Had) as Hb.
    eexists. split; [exact Hd|].
    split; [exact (respond Config.settings Had Hb)|].
    cbn [Schemas.detected_document_type Schemas.extracted_fields Spec.fields].
    split; [reflexivity|]. split; [exact Hmax|].
    split; [exact Hpan|]. split; [exact Hdl|].
    split.
    + intros _. repeat split; assumption.
    + unfold score, best. rewrite Hpos. discriminate.
  - pose proof (adopts_base Had) as Hb.
    eexists. split; [exact Hd|].
    split; [exact (respond Config.settings Had Hb)|].
    cbn [Schemas.detected_document_type Schemas.extracted_fields Spec.fields].
    split; [reflexivity|]. split; [exact Hmax|].
    split; [exact Hpan|]. split; [exact Hdl|].
    split.
    + unfold score, best. rewrite Hpos. discriminate.
    + intros _. repeat split; try assumption.
      apply best_score_zero. exact Hpos.
Qed.

Lemma keyword_fallback_witness :
  exists r,
    OCR.disambiguate aadhaar_keywords_text = Some (Schemas.UNKNOWN, None, 0.0%float) /\
    OCR.classify_and_verify aadhaar_keywords_text = Some r /\
    Schemas.detected_document_type r = Schemas.AADHAAR.
Proof.
  destruct (proj1 keyword_fallback aadhaar_keywords_text)
    as (r & Hd & Hr & _ & _ & _ & _ & Hpos & _).
  - vm_compute. reflexivity.
  - exists r. split; [exact Hd|]. split; [exact Hr|].
    destruct Hpos as (_ & _ & Hty).
    + vm_compute. reflexivity.
    + rewrite Hty. vm_compute. reflexivity.
Defined.

Lemma blend_zero_base (k : float) :
  In k keyword_scores -> Spec.blend 0.0 k = k.
Proof.
  unfold keyword_scores. simpl In.
  intro Hk. repeat (destruct Hk as [<- | Hk]); try contradiction; reflexivity.
Qed.

Lemma decide_fallback (ty : Schemas.DocumentType) (n : nat) :
  ty <> Schemas.UNKNOWN ->
  OCR.decide Config.settings ty (Spec.keyword_sum (S n))
  = match n with
    | 0 => (Schemas.REJECTED, Some (OCR.too_low_reason 0.4 ty))
    | _ => (Schemas.VERIFIED, None)
    end%nat.
Proof.
  intro Hty. rewrite (decide_detected _ _ Hty).
  destruct n; reflexivity.
Qed.

(** C10: a text on which no identifier matcher fires but some keyword of
    some type matches is classified as the best keyword type; its final
    confidence is that type's keyword score, reported as 0.4 for one hit
    and 0.6 for two or more; under the default thresholds it is verified
    exactly when the best type has at least two hits; when it has one it
    is rejected with the reason "Confidence score (0.4) too low for
    <type>. Validation failed.", the type being aadhaar, pan or
    driving_license; and it never reaches the high threshold. *)
Theorem fallback_only_confidence (t : text) (ty0 : Schemas.DocumentType) :
  OCR.candidates t = [] ->
  (1 <= Spec.hits t ty0)%nat ->
  exists r,
    let best := Spec.best_type t in
    let hits := Spec.hits t best in
    OCR.classify_and_verify t = Some r /\
    Schemas.detected_document_type r = best /\
    best <> Schemas.UNKNOWN /\
    Spec.adopts t (best, None, 0.0%float) /\
    (1 <= hits)%nat /\
    OCR.final_confidence t best 0.0 = OCR.calculate_scoring t best /\
    Schemas.confidence_score r = Py.round2 (OCR.calculate_scoring t best) /\
    Schemas.confidence_score r = Spec.keyword_step hits /\
    ((2 <= hits)%nat ->
       Schemas.status r = Schemas.VERIFIED /\ Schemas.failure_reason r = None) /\
    (hits = 1%nat ->
       Schemas.status r = Schemas.REJECTED /\
       Schemas.failure_reason r
       = Some [Schemas.Lit "Confidence score ("; Schemas.Num 0.4;
               Schemas.Lit ") too low for ";
               Schemas.Lit match best with
                           | Schemas.AADHAAR => "aadhaar"
                           | Schemas.PAN => "pan"
                           | Schemas.DRIVING_LICENCE => "driving_license"
                           | Schemas.UNKNOWN => "unknown"
                           end;
               Schemas.Lit ". Validation failed."]) /\
    (OCR.final_confidence t best 0.0
       <? Config.CONFIDENCE_THRESHOLD_HIGH Config.settings)%float = true /\
    (Schemas.confidence_score r
       <? Config.CONFIDENCE_THRESHOLD_HIGH Config.settings)%float = true.
Proof.
  intros Hnil Hh.
  pose proof (best_score_positive t ty0 Hh) as Hpos.
  destruct (best_type_first_maximum t) as (Hty & _).
  destruct (adopts_cases t)
    as [(c & before & after & Hc & _) | [(_ & _ & _ & Had) | (_ & _ & Hneg & _)]].
  - rewrite Hnil in Hc. destruct before; discriminate Hc.
  - pose proof (adopts_base Had) as Hb.
    eexists. cbv zeta.
    split; [exact (respond Config.settings Had Hb)|].
    cbn [Schemas.detected_document_type Schemas.confidence_score
         Schemas.status Schemas.failure_reason].
    rewrite final_confidence_blend.
    assert (E : Schemas.DocumentType_eqb (Spec.best_type t) Schemas.UNKNOWN = false)
      by (destruct (Spec.best_type t); try reflexivity; now elim Hty).
    rewrite E, (blend_zero_base (calculate_scoring_in t _)).
    rewrite calculate_scoring_sum in Hpos |- *.
    destruct (Spec.hits t (Spec.best_type t)) as [|[|n]].
    + discriminate Hpos.
    + rewrite (decide_fallback 0 Hty).
      repeat split; try assumption; try lia;
        try (intro H; exfalso; lia).
    + rewrite (decide_fallback (S n) Hty).
      repeat split; try assumption; try lia;
        try (intro H; exfalso; lia).
  - congruence.
Qed.

Lemma fallback_only_confidence_witness :
  exists r,
    OCR.classify_and_verify aadhaar_keywords_text = Some r /\
    Schemas.detected_document_type r = Schemas.AADHAAR /\
    Schemas.status r = Schemas.VERIFIED /\
    Schemas.confidence_score r = 0.6%float.
Proof.
  destruct (@fallback_only_confidence aadhaar_keywords_text Schemas.AADHAAR)
    as (r & Hr & Hty & _ & _ & _ & _ & _ & Hconf & Hver & _).
  - vm_compute. reflexivity.
  - vm_compute. apply le_S, le_n.
  - exists r. split; [exact Hr|].
    split; [rewrite Hty; vm_compute; reflexivity|].
    split.
    + apply Hver. vm_compute. apply le_n.
    + rewrite Hconf. vm_compute. reflexivity.
Defined.

(** ** The two copies of the engine *)

(** C9: the two engines disagree.  On [pan_and_aadhaar_text] the first
    builds the candidate set and selects PAN with confidence 0.99, while
    the second stops at the Aadhaar matcher and reports Aadhaar with 0.6,
    whatever its thresholds are; their keyword lists differ (motor
    vehicle is a DL keyword of the first only) and so do their DL
    matchers (case, and the confidence given to a number with context). *)
Theorem engines_diverge :
  (exists r,
      OCR.classify_and_verify pan_and_aadhaar_text = Some r /\
      Schemas.detected_document_type r = Schemas.PAN /\
      Schemas.confidence_score r = 0.99%float /\
      Schemas.status r = Schemas.VERIFIED) /\
  (forall s' : Config.Settings,
      exists r',
        OcrService.classify_and_verify s' pan_and_aadhaar_text = Some r' /\
        Schemas.detected_document_type r' = Schemas.AADHAAR /\
        Schemas.confidence_score r' = 0.6%float) /\
  (forall s' : Config.Settings,
      OCR.classify_and_verify pan_and_aadhaar_text
      <> OcrService.classify_and_verify s' pan_and_aadhaar_text) /\
  (OCR.calculate_scoring "Motor Vehicle" Schemas.DRIVING_LICENCE = 0.4%float /\
   OcrService.calculate_scoring "Motor Vehicle" Schemas.DRIVING_LICENCE = 0.0%float) /\
  (OCR.validate_dl "ka0120110149646"
     = (true, Some ("ka0120110149646" : text), 0.7%float) /\
   OcrService.validate_dl "ka0120110149646" = (false, None, 0.0%float) /\
   OCR.validate_dl "DL KA0120110149646"
     = (true, Some ("KA0120110149646" : text), 0.85%float) /\
   OcrService.validate_dl "DL KA0120110149646"
     = (true, Some ("KA0120110149646" : text), 0.8%float)).
Proof.
  assert (Hsvc : forall s' : Config.Settings,
             exists r',
               OcrService.classify_and_verify s' pan_and_aadhaar_text = Some r' /\
               Schemas.detected_document_type r' = Schemas.AADHAAR /\
               Schemas.confidence_score r' = 0.6%float).
  { intro s'. unfold OcrService.classify_and_verify.
    replace (OcrService.fallback pan_and_aadhaar_text
               (OcrService.regex_validation pan_and_aadhaar_text))
      with (Some (Schemas.AADHAAR, Some ("1234 5678 9012" : text), 1.0%float))
      by (vm_compute; reflexivity).
    cbv beta iota zeta.
    replace (OcrService.final_confidence pan_and_aadhaar_text Schemas.AADHAAR 1.0)
      with 0.6%float by (vm_compute; reflexivity).
    destruct (OcrService.decide s' Schemas.AADHAAR 0.6) as [st rs].
    eexists. split; [vm_compute; reflexivity|].
    split; reflexivity. }
  split; [eexists; split; [vm_compute; reflexivity | repeat split]|].
  split; [exact Hsvc|].
  split.
  - intros s' E.
    destruct (Hsvc s') as (r' & Hr' & Hty & _).
    rewrite Hr' in E. vm_compute in E.
    injection E as <-. discriminate Hty.
  - repeat split; vm_compute; reflexivity.
Qed.

(** ** Rounding to two decimals

    The values Python's documentation and interpreter give for [round(x, 2)]:
    the binary value decides, then ties go to the even digit. *)
Example round2_values :
  Py.round2 2.675 = 2.67%float /\
  Py.round2 0.125 = 0.12%float /\
  Py.round2 0.375 = 0.38%float /\
  Py.round2 1.005 = 1.0%float /\
  Py.round2 (0.4 + 0.2) = 0.6%float /\
  Py.round2 (0.7 * 0.6 + 0.4) = 0.82%float /\
  Py.round2 (-0.015) = (-0.01)%float /\
  Py.round2 0.0 = 0.0%float.
Proof. repeat split; vm_compute; reflexivity. Qed.

(** ** The repository's tests and the scenarios of the specification *)

(** [tests/test_validation.py::test_validate_pan] *)
Example test_validate_pan :
  OCR.validate_pan "My PAN is ABCDE1234F"
    = (true, Some ("ABCDE1234F" : text), 1.0%float) /\
  OCR.validate_pan "My PAN is ABCDE12345" = (false, None, 0.0%float).
Proof. split; vm_compute; reflexivity. Qed.

(** [tests/test_validation.py::test_scoring]: [score >= 0.4]. *)
Example test_scoring :
  (0.4 <=? OCR.calculate_scoring scoring_test_text Schemas.AADHAAR)%float = true.
Proof. vm_compute. reflexivity. Qed.

(** [tests/test_api.py::test_verify_unknown_document] *)
Example test_verify_unknown_document :
  option_map (fun r => (Schemas.status r, Schemas.detected_document_type r))
    (OCR.classify_and_verify "Random text with no IDs")
  = Some (Schemas.REJECTED, Schemas.UNKNOWN).
Proof. vm_compute. reflexivity. Qed.

(** Section 8, the DL scenario with two indicator phrases and no number. *)
Example dl_keywords_only :
  OCR.validate_dl "Regional Transport Motor Driving" = (true, None, 0.6%float) /\
  option_map
    (fun r => (Schemas.status r, Schemas.detected_document_type r,
               Schemas.confidence_score r, Schemas.extracted_fields r))
    (OCR.classify_and_verify "Regional Transport Motor Driving")
  = Some (Schemas.VERIFIED, Schemas.DRIVING_LICENCE, 0.96%float, []).
Proof. split; vm_compute; reflexivity. Qed.


(** * Further properties *)

(** ** Text: substrings and case *)

Lemma starts_with_spec (w t : text) :
  Py.starts_with w t = true <-> exists post, t = w ++ post.
Proof.
  revert t; induction w as [|a w IH]; intro t; simpl.
  - split; [intros _; now exists t | reflexivity].
  - destruct t as [|b t].
    + split; [discriminate | intros (post & H); discriminate H].
    + rewrite andb_true_iff, Ascii.eqb_eq, IH. split.
      * intros [-> (post & ->)]. now exists post.
      * intros (post & H). injection H as -> ->. split; [reflexivity | now exists post].
Qed.

Lemma contains_spec (w t : text) :
  Py.contains w t = true <-> exists pre post, t = pre ++ w ++ post.
Proof.
  induction t as [|c t IH]; simpl.
  - rewrite orb_false_r, starts_with_spec. split.
    + intros (post & H). now exists [], post.
    + intros ([|d pre] & post & H); [now exists post | discriminate H].
  - rewrite orb_true_iff, starts_with_spec, IH. split.
    + intros [(post & H) | (pre & post & ->)].
      * now exists [], post.
      * now exists (c :: pre), post.
    + intros ([|d pre] & post & H).
      * left. now exists post.
      * right. injection H as _ ->. now exists pre, post.
Qed.

Lemma lower_app (a b : text) : Py.lower (a ++ b) = Py.lower a ++ Py.lower b.
Proof. apply map_app. Qed.

Ltac each_char c := destruct c as [[] [] [] [] [] [] [] []].

Lemma lower_char_idempotent (c : ascii) :
  Py.lower_char (Py.lower_char c) = Py.lower_char c.
Proof. each_char c; reflexivity. Qed.

Lemma lower_idempotent (t : text) : Py.lower (Py.lower t) = Py.lower t.
Proof.
  unfold Py.lower. rewrite map_map. apply map_ext. apply lower_char_idempotent.
Qed.

Lemma lower_char_not_upper (c : ascii) : Re.upper (Py.lower_char c) = false.
Proof. each_char c; reflexivity. Qed.

Lemma space_not_digit (c : ascii) : Re.space c = true -> Re.digit c = false.
Proof. each_char c; intro H; try reflexivity; discriminate H. Qed.

(** ** The words of the patterns in use *)

Lemma matches_Eps (w : text) : Re.matches Re.Eps w -> w = [].
Proof. intro H. inversion H. reflexivity. Qed.

Lemma matches_Chr (c : ascii) (w : text) : Re.matches (Re.Chr c) w -> w = [c].
Proof. intro H. inversion H. reflexivity. Qed.

Lemma matches_Cls (p : ascii -> bool) (w : text) :
  Re.matches (Re.Cls p) w -> exists c, w = [c] /\ p c = true.
Proof. intro H. inversion H. eauto. Qed.

Lemma matches_Rep (p : ascii -> bool) (lo hi : nat) (w : text) :
  Re.matches (Re.Rep p lo hi) w ->
  Forall (fun c => p c = true) w /\ lo <= List.length w <= hi.
Proof. intro H. inversion H. auto. Qed.

Lemma matches_Star (p : ascii -> bool) (w : text) :
  Re.matches (Re.Star p) w -> Forall (fun c => p c = true) w.
Proof. intro H. inversion H. auto. Qed.

Lemma matches_Cat (r1 r2 : Re.regex) (w : text) :
  Re.matches (Re.Cat r1 r2) w ->
  exists w1 w2, w = w1 ++ w2 /\ Re.matches r1 w1 /\ Re.matches r2 w2.
Proof. intro H. inversion H. eauto. Qed.

Lemma matches_Alt (r1 r2 : Re.regex) (w : text) :
  Re.matches (Re.Alt r1 r2) w -> Re.matches r1 w \/ Re.matches r2 w.
Proof. intro H. inversion H; auto. Qed.

(** A literal denotes itself and nothing else. *)
Lemma matches_lit (u w : text) : Re.matches (Re.lit u) w <-> w = u.
Proof.
  unfold Re.lit. revert w; induction u as [|c u IH]; intro w; simpl.
  - split; [apply matches_Eps | intros ->; constructor].
  - split.
    + intro H. apply matches_Cat in H. destruct H as (w1 & w2 & -> & H1 & H2).
      apply matches_Chr in H1. apply IH in H2. now subst.
    + intros ->. change (c :: u) with ([c] ++ u).
      constructor; [constructor | now apply IH].
Qed.

(** A literal is found exactly in the texts that contain it. *)
Lemma found_lit (u t : text) : Re.found (Re.lit u) t = Py.contains u t.
Proof.
  destruct (Py.contains u t) eqn:E.
  - apply found_occurs. apply contains_spec in E.
    destruct E as (pre & post & ->). exists pre, u, post.
    split; [reflexivity | now apply matches_lit].
  - destruct (Re.found (Re.lit u) t) eqn:F; [|reflexivity].
    apply found_occurs in F. destruct F as (pre & w & post & -> & Hw).
    apply matches_lit in Hw. subst w.
    assert (H : Py.contains u (pre ++ u ++ post) = true)
      by (apply contains_spec; eauto).
    congruence.
Qed.

(** Splitting the words of a sequence of patterns. *)
Lemma matches_seq_cons (r : Re.regex) (rs : list Re.regex) (w : text) :
  Re.matches (Re.seq (r :: rs)) w <->
  exists w1 w2, w = w1 ++ w2 /\ Re.matches r w1 /\ Re.matches (Re.seq rs) w2.
Proof.
  split.
  - apply matches_Cat.
  - intros (w1 & w2 & -> & H1 & H2). now constructor.
Qed.

Lemma matches_seq_nil (w : text) : Re.matches (Re.seq []) w <-> w = [].
Proof. split; [apply matches_Eps | intros ->; constructor]. Qed.

(** A word that contains a word of [r'] inside every word of [r]: if [r]
    occurs, so does [r']. *)
Lemma occurs_inside (r r' : Re.regex) (t : text) :
  (forall w, Re.matches r w -> Re.occurs r' w) ->
  Re.occurs r t -> Re.occurs r' t.
Proof.
  intros H (pre & w & post & -> & Hw).
  destruct (H w Hw) as (pre' & w' & post' & -> & Hw').
  exists (pre ++ pre'), w', (post' ++ post).
  split; [now rewrite <- !app_assoc | exact Hw'].
Qed.

(** ** The identifier matchers: what an identifier looks like *)

Lemma pan_words (w : text) :
  Re.matches OCR.PAN_PATTERN w ->
  exists letters digits last,
    w = letters ++ digits ++ [last] /\
    List.length letters = 5 /\ Forall (fun c => Re.upper c = true) letters /\
    List.length digits = 4 /\ Forall (fun c => Re.digit c = true) digits /\
    Re.upper last = true.
Proof.
  unfold OCR.PAN_PATTERN, Re.times. intro H.
  apply matches_seq_cons in H. destruct H as (w1 & r1 & -> & H1 & H).
  apply matches_seq_cons in H. destruct H as (w2 & r2 & -> & H2 & H).
  apply matches_seq_cons in H. destruct H as (w3 & r3 & -> & H3 & H).
  apply matches_seq_nil in H. subst r3.
  apply matches_Rep in H1. apply matches_Rep in H2. apply matches_Cls in H3.
  destruct H1 as [F1 L1], H2 as [F2 L2], H3 as (c & -> & Hc).
  exists w1, w2, c. rewrite app_nil_r. repeat split; auto; lia.
Qed.

Lemma search_result (r : Re.regex) (t : text) :
  match Re.search r t with
  | Some m =>
      Re.matches r m /\
      exists pre post,
        t = pre ++ m ++ post /\
        forall pre' w post',
          t = pre' ++ w ++ post' -> Re.matches r w ->
          List.length pre <= List.length pre'
  | None => ~ Re.occurs r t
  end.
Proof.
  destruct (Re.search r t) as [m|] eqn:E.
  - apply search_some in E. destruct E as (pre & post & Ht & Hm & Hleft).
    split; [exact Hm | now exists pre, post].
  - now apply search_none.
Qed.

(** X1: when the PAN matcher reports a match, the identifier is ten
    characters long, five capitals, four digits and a capital, it stands
    verbatim in the text, no such substring starts further left, and the
    base confidence is 1.0. *)
Theorem validate_pan_identifier (t m : text) (matched : bool) (b : float) :
  OCR.validate_pan t = (matched, Some m, b) ->
  matched = true /\ b = 1.0%float /\
  List.length m = 10 /\
  (exists letters digits last,
      m = letters ++ digits ++ [last] /\
      List.length letters = 5 /\ Forall (fun c => Re.upper c = true) letters /\
      List.length digits = 4 /\ Forall (fun c => Re.digit c = true) digits /\
      Re.upper last = true) /\
  (exists pre post,
      t = pre ++ m ++ post /\
      forall pre' w post',
        t = pre' ++ w ++ post' -> Re.matches OCR.PAN_PATTERN w ->
        List.length pre <= List.length pre').
Proof.
  unfold OCR.validate_pan.
  pose proof (search_result OCR.PAN_PATTERN t) as H.
  destruct (Re.search OCR.PAN_PATTERN t) as [m'|]; [|discriminate].
  intro E. injection E as <- <- <-.
  destruct H as [Hm Hsub].
  pose proof (pan_words Hm) as Hshape.
  repeat split; auto.
  destruct Hshape as (l & d & c & -> & Ll & _ & Ld & _).
  rewrite !length_app. simpl. lia.
Qed.

Lemma validate_pan_identifier_witness :
  List.length ("ABCDE1234F" : text) = 10.
Proof.
  apply (@validate_pan_identifier "My PAN is ABCDE1234F" "ABCDE1234F" true 1.0%float).
  vm_compute. reflexivity.
Defined.

(** X2: the PAN matcher is case-sensitive: it never fires on a
    lower-cased text, in either copy. *)
Theorem validate_pan_lower_case (t : text) :
  OCR.validate_pan (Py.lower t) = (false, None, 0.0%float) /\
  OcrService.validate_pan (Py.lower t) = (false, None, 0.0%float).
Proof.
  assert (H : Re.search OCR.PAN_PATTERN (Py.lower t) = None).
  { apply search_none. intros (pre & w & post & Ht & Hw).
    apply pan_words in Hw.
    destruct Hw as ([|c l] & d & last & -> & Ll & Fl & _); [discriminate Ll|].
    inversion Fl as [|? ? Hc _]; subst.
    assert (Hin : In c (Py.lower t)).
    { rewrite Ht. apply in_or_app. right. now left. }
    unfold Py.lower in Hin. apply in_map_iff in Hin.
    destruct Hin as (c0 & <- & _).
    rewrite lower_char_not_upper in Hc. discriminate Hc. }
  split.
  - unfold OCR.validate_pan. now rewrite H.
  - unfold OcrService.validate_pan.
    change OcrService.PAN_PATTERN with OCR.PAN_PATTERN. now rewrite H.
Qed.

Lemma aadhaar_words (w : text) :
  Re.matches OCR.AADHAAR_PATTERN w ->
  exists g1 s1 g2 s2 g3,
    w = g1 ++ s1 ++ g2 ++ s2 ++ g3 /\
    List.length g1 = 4 /\ List.length g2 = 4 /\ List.length g3 = 4 /\
    Forall (fun c => Re.digit c = true) (g1 ++ g2 ++ g3) /\
    List.length s1 <= 1 /\ List.length s2 <= 1 /\
    Forall (fun c => Re.space c = true) (s1 ++ s2).
Proof.
  unfold OCR.AADHAAR_PATTERN, Re.times, Re.opt. intro H.
  apply matches_seq_cons in H. destruct H as (g1 & r1 & -> & H1 & H).
  apply matches_seq_cons in H. destruct H as (s1 & r2 & -> & H2 & H).
  apply matches_seq_cons in H. destruct H as (g2 & r3 & -> & H3 & H).
  apply matches_seq_cons in H. destruct H as (s2 & r4 & -> & H4 & H).
  apply matches_seq_cons in H. destruct H as (g3 & r5 & -> & H5 & H).
  apply matches_seq_nil in H. subst r5.
  apply matches_Rep in H1, H2, H3, H4, H5.
  destruct H1 as [F1 L1], H2 as [F2 L2], H3 as [F3 L3], H4 as [F4 L4], H5 as [F5 L5].
  exists g1, s1, g2, s2, g3. rewrite app_nil_r.
  repeat split; try lia.
  - apply Forall_app; split; [exact F1 | apply Forall_app; split; assumption].
  - apply Forall_app; split; assumption.
Qed.

(** X3: when the Aadhaar matcher reports a match, the identifier stands
    verbatim in the text and is three groups of four digits with at most
    one white-space character between groups: twelve digits in twelve to
    fourteen characters, separators included. *)
Theorem validate_aadhaar_identifier (t m : text) (matched : bool) (b : float) :
  OCR.validate_aadhaar t = (matched, Some m, b) ->
  matched = true /\ b = 1.0%float /\
  (exists pre post, t = pre ++ m ++ post) /\
  (exists g1 s1 g2 s2 g3,
      m = g1 ++ s1 ++ g2 ++ s2 ++ g3 /\
      List.length g1 = 4 /\ List.length g2 = 4 /\ List.length g3 = 4 /\
      Forall (fun c => Re.digit c = true) (g1 ++ g2 ++ g3) /\
      List.length s1 <= 1 /\ List.length s2 <= 1 /\
      Forall (fun c => Re.space c = true) (s1 ++ s2)) /\
  12 <= List.length m <= 14 /\
  List.length (filter Re.digit m) = 12.
Proof.
  unfold OCR.validate_aadhaar.
  pose proof (search_result OCR.AADHAAR_PATTERN t) as H.
  destruct (Re.search OCR.AADHAAR_PATTERN t) as [m'|]; [|discriminate].
  intro E. injection E as <- <- <-.
  destruct H as [Hm (pre & post & Ht & _)].
  pose proof (aadhaar_words Hm) as Hshape.
  split; [reflexivity|]. split; [reflexivity|].
  split; [now exists pre, post|]. split; [exact Hshape|].
  destruct Hshape as (g1 & s1 & g2 & s2 & g3 & -> & L1 & L2 & L3 & Fd & Ls1 & Ls2 & Fs).
  split; [rewrite !length_app; lia|].
  apply Forall_app in Fd. destruct Fd as [Fd1 Fd].
  apply Forall_app in Fd. destruct Fd as [Fd2 Fd3].
  apply Forall_app in Fs. destruct Fs as [Fs1 Fs2].
  assert (Hd : forall g, Forall (fun c => Re.digit c = true) g ->
                         filter Re.digit g = g).
  { intros g Fg. induction Fg as [|c g Hc _ IH]; simpl; [reflexivity|].
    now rewrite Hc, IH. }
  assert (Hs : forall s, Forall (fun c => Re.space c = true) s ->
                         filter Re.digit s = []).
  { intros s Fsp. induction Fsp as [|c s Hc _ IH]; simpl; [reflexivity|].
    now rewrite (space_not_digit c Hc). }
  rewrite !filter_app.
  rewrite (Hd g1 Fd1), (Hd g2 Fd2), (Hd g3 Fd3), (Hs s1 Fs1), (Hs s2 Fs2).
  rewrite !length_app. simpl. lia.
Qed.

Lemma validate_aadhaar_identifier_witness :
  12 <= List.length ("1234 5678 9012" : text) <= 14.
Proof.
  apply (@validate_aadhaar_identifier
           "My Aadhaar is 1234 5678 9012" "1234 5678 9012" true 1.0%float).
  vm_compute. reflexivity.
Defined.

(** ** Lower-casing and the matchers *)

Section StablePatterns.

Variable f : ascii -> ascii.

Lemma run_map (p : ascii -> bool) (b : nat) (s : text) :
  (forall d, p (f d) = p d) -> Re.run p b (map f s) = Re.run p b s.
Proof.
  intro Hp. revert s; induction b as [|b IH]; intros [|c s]; simpl;
    try reflexivity.
  rewrite Hp, IH. reflexivity.
Qed.

Lemma mlens_map (r : Re.regex) (s : text) :
  stable f r -> Re.mlens r (map f s) = Re.mlens r s.
Proof.
  revert s; induction r as [|c|p|p lo hi|p|r1 IH1 r2 IH2|r1 IH1 r2 IH2];
    intros s H; simpl in *.
  - reflexivity.
  - destruct s as [|d s]; simpl; [reflexivity | now rewrite H].
  - destruct s as [|d s]; simpl; [reflexivity | now rewrite H].
  - now rewrite run_map.
  - now rewrite length_map, run_map.
  - destruct H as [H1 H2]. rewrite IH1 by assumption.
    apply flat_map_ext. intro n.
    now rewrite skipn_map, IH2.
  - destruct H as [H1 H2]. now rewrite IH1, IH2.
Qed.

(** Searching the mapped text finds the image of what is found in the
    text itself. *)
Lemma search_map (r : Re.regex) (s : text) :
  stable f r -> Re.search r (map f s) = option_map (map f) (Re.search r s).
Proof.
  intro H. induction s as [|c s IH]; simpl; unfold Re.match_here.
  - change (@nil ascii) with (map f []) at 1. rewrite mlens_map by assumption.
    destruct (Re.mlens r []) as [|n l]; simpl; [reflexivity|].
    now rewrite firstn_nil.
  - change (f c :: map f s) with (map f (c :: s)).
    rewrite mlens_map by assumption.
    destruct (Re.mlens r (c :: s)) as [|n l].
    + exact IH.
    + cbn [option_map]. now rewrite firstn_map.
Qed.

End StablePatterns.

Lemma digit_lower (c : ascii) : Re.digit (Py.lower_char c) = Re.digit c.
Proof. each_char c; reflexivity. Qed.

Lemma space_lower (c : ascii) : Re.space (Py.lower_char c) = Re.space c.
Proof. each_char c; reflexivity. Qed.

Lemma lower_fixes (s : text) :
  Forall (fun c => Re.digit c = true \/ Re.space c = true) s -> Py.lower s = s.
Proof.
  induction 1 as [|c s Hc _ IH]; simpl; [reflexivity|].
  rewrite IH. f_equal.
  revert Hc. each_char c; intros [H|H]; try reflexivity; discriminate H.
Qed.

(** X6: lower-casing a text changes neither its keyword scores nor what
    the Aadhaar matcher returns. *)
Theorem lower_casing_is_harmless (t : text) :
  (forall ty, OCR.calculate_scoring (Py.lower t) ty = OCR.calculate_scoring t ty) /\
  OCR.validate_aadhaar (Py.lower t) = OCR.validate_aadhaar t.
Proof.
  split.
  - intro ty. unfold OCR.calculate_scoring. now rewrite lower_idempotent.
  - unfold OCR.validate_aadhaar, Py.lower.
    rewrite search_map.
    + pose proof (search_result OCR.AADHAAR_PATTERN t) as H.
      destruct (Re.search OCR.AADHAAR_PATTERN t) as [m|]; simpl; [|reflexivity].
      destruct H as [Hm _]. apply aadhaar_words in Hm.
      destruct Hm as (g1 & s1 & g2 & s2 & g3 & -> & _ & _ & _ & Fd & _ & _ & Fs).
      apply Forall_app in Fd. destruct Fd as [Fd1 Fd].
      apply Forall_app in Fd. destruct Fd as [Fd2 Fd3].
      apply Forall_app in Fs. destruct Fs as [Fs1 Fs2].
      change (map Py.lower_char (g1 ++ s1 ++ g2 ++ s2 ++ g3))
        with (Py.lower (g1 ++ s1 ++ g2 ++ s2 ++ g3)).
      rewrite lower_fixes; [reflexivity|].
      repeat (apply Forall_app; split);
        (eapply Forall_impl; [|eassumption]); simpl; auto.
    + unfold OCR.AADHAAR_PATTERN, Re.times, Re.opt. simpl.
      repeat split; auto using digit_lower, space_lower.
Qed.

(** ** Keyword lists that overlap *)

Lemma found_seq_first (u : text) (rs : list Re.regex) (s : text) :
  Re.found (Re.seq (Re.lit u :: rs)) s = true -> Py.contains u s = true.
Proof.
  intro H. apply found_occurs in H. rewrite <- found_lit. apply found_occurs.
  revert H. apply occurs_inside. intros w Hw.
  apply matches_seq_cons in Hw. destruct Hw as (w1 & w2 & -> & H1 & _).
  exists [], w1, w2. split; [reflexivity | exact H1].
Qed.

Lemma found_seq_last (a u : text) (s : text) :
  Re.found (Re.seq [Re.lit a; Re.ws; Re.lit u]) s = true ->
  Py.contains u s = true.
Proof.
  intro H. apply found_occurs in H. rewrite <- found_lit. apply found_occurs.
  revert H. apply occurs_inside. intros w Hw.
  apply matches_seq_cons in Hw. destruct Hw as (w1 & r1 & -> & _ & Hw).
  apply matches_seq_cons in Hw. destruct Hw as (w2 & r2 & -> & _ & Hw).
  apply matches_seq_cons in Hw. destruct Hw as (w3 & r3 & -> & H3 & Hw).
  apply matches_seq_nil in Hw. subst r3.
  exists (w1 ++ w2), w3, []. split; [now rewrite <- app_assoc | exact H3].
Qed.

(** X5: whenever one of the strong DL indicator phrases is found, one of
    the six context words is in the text as well: every indicator phrase
    contains a context word. *)
Theorem indicator_implies_context_word (t : text) :
  let text_lower := Py.lower t in
  Py.any (fun pattern => Re.found pattern text_lower) OCR.dl_keyword_indicators
  = true ->
  Py.any (fun word => Py.contains word text_lower) OCR.dl_context_words = true.
Proof.
  cbv zeta. unfold Py.any. intro H.
  apply existsb_exists in H. destruct H as (p & Hin & Hf).
  apply existsb_exists.
  unfold OCR.dl_keyword_indicators in Hin.
  repeat (destruct Hin as [<- | Hin]); [..|destruct Hin].
  - exists ("driving" : text). split; [vm_compute; tauto|].
    exact (found_seq_first _ _ _ Hf).
  - exists ("driving" : text). split; [vm_compute; tauto|].
    exact (found_seq_first _ _ _ Hf).
  - exists ("vehicle" : text). split; [vm_compute; tauto|].
    exact (found_seq_last _ _ _ Hf).
  - exists ("license" : text). split; [vm_compute; tauto|].
    exact (found_seq_first _ _ _ Hf).
  - exists ("transport" : text). split; [vm_compute; tauto|].
    exact (found_seq_first _ _ _ Hf).
  - exists ("dl" : text). split; [vm_compute; tauto|].
    exact (found_seq_first _ _ _ Hf).
  - exists ("transport" : text). split; [vm_compute; tauto|].
    exact (found_seq_last _ _ _ Hf).
  - exists ("driving" : text). split; [vm_compute; tauto|].
    exact (found_seq_last _ _ _ Hf).
  - exists ("vehicle" : text). split; [vm_compute; tauto|].
    exact (found_seq_first _ _ _ Hf).
Qed.

Lemma indicator_implies_context_word_witness :
  Py.any (fun word => Py.contains word (Py.lower "Motor Vehicle Dept"))
    OCR.dl_context_words = true.
Proof.
  apply (indicator_implies_context_word "Motor Vehicle Dept").
  vm_compute. reflexivity.
Defined.

Lemma filter_two_hits (A : Type) (f : A -> bool) (l l1 l2 l3 : list A) (a b : A) :
  l = l1 ++ a :: l2 ++ b :: l3 -> f a = true -> f b = true ->
  2 <= List.length (filter f l).
Proof.
  intros -> Ha Hb.
  rewrite filter_app. simpl. rewrite Ha. rewrite filter_app. simpl. rewrite Hb.
  rewrite !length_app. simpl. rewrite !length_app. simpl. lia.
Qed.

Lemma calculate_scoring_two_hits (t : text) (ty : Schemas.DocumentType) :
  2 <= Spec.hits t ty -> OCR.calculate_scoring t ty = (0.4 + 0.2)%float.
Proof.
  intro H. rewrite calculate_scoring_sum.
  destruct (Spec.hits t ty) as [|[|n]]; [lia | lia | reflexivity].
Qed.

Lemma female_two_hits (t : text) :
  Py.contains "female" (Py.lower t) = true -> 2 <= Spec.hits t Schemas.AADHAAR.
Proof.
  intro H. unfold Spec.hits.
  assert (Hf : Re.found (Re.lit "female") (Py.lower t) = true)
    by now rewrite found_lit.
  assert (Hm : Re.found (Re.lit "male") (Py.lower t) = true).
  { rewrite found_lit. apply contains_spec.
    apply contains_spec in H. destruct H as (pre & post & ->).
    exists (pre ++ ("fe" : text)), post.
    rewrite <- app_assoc. reflexivity. }
  apply filter_two_hits
    with (l1 := firstn 10 (OCR.KEYWORD_PATTERNS Schemas.AADHAAR))
         (a := Re.lit "female") (l2 := []) (b := Re.lit "male") (l3 := []);
    [reflexivity | exact Hf | exact Hm].
Qed.

(** ** The engine: what a response can look like *)

Lemma length_filter_sum (A : Type) (f : A -> bool) (l : list A) :
  List.length (filter f l) = list_sum (map (fun x => if f x then 1 else 0) l).
Proof.
  induction l as [|x l IH]; simpl; [reflexivity|].
  destruct (f x); simpl; now rewrite IH.
Qed.

(** Every indicator phrase of the DL matcher is one of the DL keywords. *)
Lemma indicator_hits_le_hits (t : text) :
  Spec.indicator_hits t <= Spec.hits t Schemas.DRIVING_LICENCE.
Proof.
  unfold Spec.indicator_hits, Spec.hits.
  change Spec.indicator_phrases with OCR.dl_keyword_indicators.
  rewrite !length_filter_sum.
  cbv [OCR.dl_keyword_indicators OCR.KEYWORD_PATTERNS map list_sum fold_right].
  repeat match goal with
         | |- context [if ?b then 1 else 0] =>
             generalize (if b then 1 else 0); intro
         end.
  lia.
Qed.

Lemma validate_dl_evidence (t : text) :
  OCR.validate_dl t = (false, None, 0.0%float) \/
  (OCR.validate_dl t = (true, None, 0.6%float) /\ 2 <= Spec.indicator_hits t) \/
  exists m,
    (OCR.validate_dl t = (true, Some m, 0.95%float) /\ 1 <= Spec.indicator_hits t) \/
    OCR.validate_dl t = (true, Some m, 0.85%float) \/
    OCR.validate_dl t = (true, Some m, 0.7%float).
Proof.
  unfold OCR.validate_dl, Spec.indicator_hits, Py.any.
  change Spec.indicator_phrases with OCR.dl_keyword_indicators.
  rewrite existsb_filter_length.
  destruct (Re.search _ t) as [m|].
  - right; right; exists m.
    destruct (1 <=? _)%nat eqn:E.
    + left. split; [reflexivity | now apply Nat.leb_le].
    + destruct (existsb _ OCR.dl_context_words); auto.
  - destruct (1 <=? _)%nat; cbn [andb]; [|auto].
    destruct (2 <=? _)%nat eqn:E; [|auto].
    right; left. split; [reflexivity | now apply Nat.leb_le].
Qed.

Lemma hits_positive_score (t : text) (ty : Schemas.DocumentType) :
  1 <= Spec.hits t ty ->
  OCR.calculate_scoring t ty = 0.4%float \/
  OCR.calculate_scoring t ty = (0.4 + 0.2)%float.
Proof.
  intro H. rewrite calculate_scoring_sum.
  destruct (Spec.hits t ty) as [|[|n]]; [lia | now left | now right].
Qed.

(** The base confidence of an adopted candidate and the keyword score of
    its type are one of the reachable pairs. *)
Lemma adopted_pair (t : text) (ty : Schemas.DocumentType) (id : option text) (b : float) :
  Spec.adopts t (ty, id, b) -> ty <> Schemas.UNKNOWN ->
  In (b, OCR.calculate_scoring t ty) reachable_pairs.
Proof.
  intros Had Hty.
  destruct (adopts_cases t)
    as [(c & before & after & Hc & _ & Hc' & _) | [(Hnil & _ & Hpos & Hc') | (_ & _ & _ & Hc')]];
    pose proof (adopts_functional Had Hc') as E.
  - assert (Hin : In c (OCR.candidates t)) by (rewrite Hc; apply in_elt).
    apply in_candidates in Hin. rewrite <- E in Hin. simpl in Hin.
    destruct Hin as [_ Hm].
    destruct ty; simpl in Hm.
    + destruct (validate_aadhaar_cases t) as [Hv | [m Hv]]; rewrite Hv in Hm;
        [discriminate Hm|]. injection Hm as _ <-.
      destruct (calculate_scoring_cases t Schemas.AADHAAR) as [-> | [-> | ->]];
        vm_compute; tauto.
    + destruct (validate_pan_cases t) as [Hv | [m Hv]]; rewrite Hv in Hm;
        [discriminate Hm|]. injection Hm as _ <-.
      destruct (calculate_scoring_cases t Schemas.PAN) as [-> | [-> | ->]];
        vm_compute; tauto.
    + pose proof (indicator_hits_le_hits t) as Hle.
      destruct (validate_dl_evidence t)
        as [Hv | [[Hv Hi] | (m & [[Hv Hi] | [Hv | Hv]])]];
        rewrite Hv in Hm; try discriminate Hm; injection Hm as _ <-.
      * rewrite calculate_scoring_two_hits by lia. vm_compute; tauto.
      * destruct (@hits_positive_score t Schemas.DRIVING_LICENCE) as [-> | ->];
          [lia | vm_compute; tauto | vm_compute; tauto].
      * destruct (calculate_scoring_cases t Schemas.DRIVING_LICENCE)
          as [-> | [-> | ->]]; vm_compute; tauto.
      * destruct (calculate_scoring_cases t Schemas.DRIVING_LICENCE)
          as [-> | [-> | ->]]; vm_compute; tauto.
    + discriminate Hm.
  - injection E as -> _ ->.
    destruct (calculate_scoring_cases t (Spec.best_type t)) as [H | [H | H]];
      rewrite H in Hpos |- *; [discriminate Hpos | |]; vm_compute; tauto.
  - injection E as -> _ _. now elim Hty.
Qed.

Lemma reachable_confidence (b k : float) :
  In (b, k) reachable_pairs ->
  In (Py.round2 (Spec.blend b k)) confidence_values.
Proof.
  unfold reachable_pairs. simpl In. intro H.
  repeat (destruct H as [H | H]; [injection H as <- <-; vm_compute; tauto|]).
  destruct H.
Qed.

Lemma adopted_exists (t : text) :
  exists ty id b, Spec.adopts t (ty, id, b).
Proof.
  destruct (adopts_cases t)
    as [(c & _ & _ & _ & _ & Hc & _) | [(_ & _ & _ & Hc) | (_ & _ & _ & Hc)]];
    [destruct c as [[ty id] b] | |]; eauto.
Qed.

(** X9: whatever the text and the thresholds, the reported confidence is
    one of eight values: 0.0, 0.4, 0.42, 0.51, 0.6, 0.82, 0.96 and 0.99;
    each of them is reported for some text. *)
Theorem confidence_score_values :
  (forall (s : Config.Settings) (t : text),
      exists r,
        OCR.classify_and_verify_with s t = Some r /\
        In (Schemas.confidence_score r) confidence_values) /\
  map (fun t : text => option_map Schemas.confidence_score (OCR.classify_and_verify t))
    [ "" : text; "aadhaar" : text; "ka-01-2011014964" : text;
      "ka 01 20110149646 vehicle" : text; "1234 5678 9012" : text;
      "ka-01-2011014964 valid till" : text;
      "Regional Transport Motor Driving" : text; pan_card_text ]
  = map Some confidence_values.
Proof.
  split; [|vm_compute; reflexivity].
  intros s t.
  destruct (adopted_exists t) as (ty & id & b & Had).
  pose proof (adopts_base Had) as Hb.
  eexists. split; [exact (respond s Had Hb)|].
  cbn [Schemas.confidence_score].
  rewrite final_confidence_blend.
  destruct (Schemas.DocumentType_eqb ty Schemas.UNKNOWN) eqn:E.
  - vm_compute; tauto.
  - apply reachable_confidence. apply (adopted_pair Had).
    intros ->. discriminate E.
Qed.

Lemma best_type_saturated_aadhaar (t : text) :
  OCR.calculate_scoring t Schemas.AADHAAR = (0.4 + 0.2)%float ->
  Spec.best_type t = Schemas.AADHAAR.
Proof.
  intro Ha. unfold Spec.best_type. rewrite Ha.
  destruct (calculate_scoring_cases t Schemas.PAN) as [-> | [-> | ->]];
  destruct (calculate_scoring_cases t Schemas.DRIVING_LICENCE) as [-> | [-> | ->]];
  reflexivity.
Qed.

(** X8: the Aadhaar keyword list contains both [female] and [male], so the
    single word female counts as two hits: a text without any identifier
    that contains it is classified as Aadhaar with confidence 0.6 and is
    verified under the default thresholds, whatever else it says. *)
Theorem female_alone_verifies_aadhaar (t : text) :
  OCR.candidates t = [] ->
  Py.contains "female" (Py.lower t) = true ->
  exists r,
    OCR.classify_and_verify t = Some r /\
    Schemas.detected_document_type r = Schemas.AADHAAR /\
    Schemas.status r = Schemas.VERIFIED /\
    Schemas.confidence_score r = 0.6%float /\
    Schemas.failure_reason r = None /\
    Schemas.extracted_fields r = [].
Proof.
  intros Hnil Hf.
  pose proof (calculate_scoring_two_hits t Schemas.AADHAAR (female_two_hits t Hf)) as Hs.
  pose proof (best_type_saturated_aadhaar t Hs) as Hbest.
  destruct (adopts_cases t)
    as [(c & before & after & Hc & _) | [(_ & _ & _ & Had) | (_ & _ & Hneg & _)]].
  - rewrite Hnil in Hc. destruct before; discriminate Hc.
  - rewrite Hbest in Had.
    pose proof (adopts_base Had) as Hb.
    eexists. split; [exact (respond Config.settings Had Hb)|].
    cbn [Schemas.detected_document_type Schemas.status Schemas.confidence_score
         Schemas.failure_reason Schemas.extracted_fields Spec.fields].
    rewrite final_confidence_blend. cbn [Schemas.DocumentType_eqb]. rewrite Hs.
    repeat split.
  - rewrite Hbest, Hs in Hneg. discriminate Hneg.
Qed.

Lemma female_alone_verifies_aadhaar_witness :
  exists r,
    OCR.classify_and_verify "Sex: FEMALE" = Some r /\
    Schemas.detected_document_type r = Schemas.AADHAAR /\
    Schemas.status r = Schemas.VERIFIED /\
    Schemas.confidence_score r = 0.6%float /\
    Schemas.failure_reason r = None /\
    Schemas.extracted_fields r = [].
Proof.
  apply (@female_alone_verifies_aadhaar "Sex: FEMALE"); vm_compute; reflexivity.
Defined.

Lemma matcher_identifier (t : text) (ty : Schemas.DocumentType) (m : text) (b : float) :
  Spec.matcher ty t = (true, Some m, b) -> exists pre post, t = pre ++ m ++ post.
Proof.
  destruct ty; simpl.
  - unfold OCR.validate_aadhaar.
    pose proof (search_result OCR.AADHAAR_PATTERN t) as H.
    destruct (Re.search OCR.AADHAAR_PATTERN t) as [m'|]; [|discriminate].
    intro E. injection E as <- _. destruct H as [_ (pre & post & Ht & _)]. eauto.
  - unfold OCR.validate_pan.
    pose proof (search_result OCR.PAN_PATTERN t) as H.
    destruct (Re.search OCR.PAN_PATTERN t) as [m'|]; [|discriminate].
    intro E. injection E as <- _. destruct H as [_ (pre & post & Ht & _)]. eauto.
  - unfold OCR.validate_dl.
    pose proof (search_result (Re.ignorecase OCR.DL_PATTERN) t) as H.
    destruct (Re.search (Re.ignorecase OCR.DL_PATTERN) t) as [m'|].
    + destruct H as [_ (pre & post & Ht & _)].
      destruct (Py.any _ OCR.dl_keyword_indicators);
        [|destruct (Py.any _ OCR.dl_context_words)];
        intro E; injection E as <- _; eauto.
    + destruct (_ && _); discriminate.
  - discriminate.
Qed.

(** X10: an id_number among the extracted fields is never empty, stands
    verbatim in the input text, and is what the matcher of the detected
    type returned; the response echoes the input text. *)
Theorem extracted_id_number_is_verbatim
        (s : Config.Settings) (t : text) (r : Schemas.VerificationResponse) (m : text) :
  OCR.classify_and_verify_with s t = Some r ->
  Schemas.get "id_number" (Schemas.extracted_fields r) = Some m ->
  m <> [] /\
  (exists pre post, t = pre ++ m ++ post) /\
  (exists b, Spec.matcher (Schemas.detected_document_type r) t = (true, Some m, b)) /\
  Schemas.raw_ocr_text r = Some t.
Proof.
  intros Hr Hget.
  destruct (adopts_cases t)
    as [(c & before & after & Hc & _ & Had & _) | [(_ & _ & _ & Had) | (_ & _ & _ & Had)]].
  - destruct c as [[ty id] b].
    pose proof (adopts_base Had) as Hb.
    rewrite (respond s Had Hb) in Hr. injection Hr as <-.
    cbn [Schemas.extracted_fields Schemas.detected_document_type
         Schemas.raw_ocr_text] in *.
    assert (Hin : In (ty, id, b) (OCR.candidates t)) by (rewrite Hc; apply in_elt).
    apply in_candidates in Hin. simpl in Hin. destruct Hin as [_ Hm].
    destruct id as [[|c0 n]|]; try discriminate Hget.
    injection Hget as <-.
    split; [discriminate|].
    split; [exact (matcher_identifier _ _ Hm)|].
    split; [now exists b | reflexivity].
  - pose proof (adopts_base Had) as Hb.
    rewrite (respond s Had Hb) in Hr. injection Hr as <-. discriminate Hget.
  - pose proof (adopts_base Had) as Hb.
    rewrite (respond s Had Hb) in Hr. injection Hr as <-. discriminate Hget.
Qed.

Lemma extracted_id_number_is_verbatim_witness :
  exists pre post, pan_card_text = pre ++ ("ABCDE1234F" : text) ++ post.
Proof.
  eapply (@extracted_id_number_is_verbatim Config.settings pan_card_text).
  - vm_compute. reflexivity.
  - vm_compute. reflexivity.
Defined.

Lemma matches_min_len (r : Re.regex) (w : text) :
  Re.matches r w -> min_len r <= List.length w.
Proof.
  induction 1; simpl; try lia.
  rewrite length_app. lia.
Qed.

(** The shape of a response: a candidate of a matcher that fired, or the
    best keyword type with base 0.0 and no identifier, or UNKNOWN. *)
Lemma response_cases (s : Config.Settings) (t : text) :
  exists ty id b,
    OCR.classify_and_verify_with s t
    = Some (Schemas.Build_VerificationResponse
              (fst (OCR.decide s ty (OCR.final_confidence t ty b)))
              ty
              (Py.round2 (OCR.final_confidence t ty b))
              (snd (OCR.decide s ty (OCR.final_confidence t ty b)))
              (Spec.fields id)
              (Some t)) /\
    ((ty <> Schemas.UNKNOWN /\ Spec.matcher ty t = (true, id, b)) \/
     (OCR.candidates t = [] /\ id = None /\ b = 0.0%float /\
      ((ty = Spec.best_type t /\ ty <> Schemas.UNKNOWN /\
        (0 <? OCR.calculate_scoring t ty)%float = true) \/
       (ty = Schemas.UNKNOWN /\
        forall ty', OCR.calculate_scoring t ty' = 0.0%float)))).
Proof.
  destruct (adopts_cases t)
    as [(c & before & after & Hc & _ & Had & _) | [(Hnil & _ & Hpos & Had) | (Hnil & _ & Hz & Had)]].
  - destruct c as [[ty id] b]. exists ty, id, b.
    split; [exact (respond s Had (adopts_base Had))|].
    left.
    assert (Hin : In (ty, id, b) (OCR.candidates t)) by (rewrite Hc; apply in_elt).
    apply in_candidates in Hin. exact Hin.
  - exists (Spec.best_type t), None, 0.0%float.
    split; [exact (respond s Had (adopts_base Had))|].
    right. repeat split; auto. left. repeat split; auto.
    apply (best_type_first_maximum t).
  - exists Schemas.UNKNOWN, None, 0.0%float.
    split; [exact (respond s Had (adopts_base Had))|].
    right. repeat split; auto. right. split; [reflexivity|].
    exact (best_score_zero t Hz).
Qed.

Lemma fields_get (id : option text) (m : text) :
  Schemas.get "id_number" (Spec.fields id) = Some m -> id = Some m /\ m <> [].
Proof.
  destruct id as [[|c n]|]; try discriminate.
  intro E. injection E as <-. split; [reflexivity | discriminate].
Qed.

(** X11: under the default thresholds an extracted Aadhaar or PAN number
    is always verified: the confidence is 0.6 when no keyword of the type
    occurs in the text and 0.99 otherwise. *)
Theorem aadhaar_or_pan_number_verifies
        (t : text) (r : Schemas.VerificationResponse) (m : text) :
  OCR.classify_and_verify t = Some r ->
  Schemas.detected_document_type r = Schemas.AADHAAR \/
  Schemas.detected_document_type r = Schemas.PAN ->
  Schemas.get "id_number" (Schemas.extracted_fields r) = Some m ->
  Schemas.status r = Schemas.VERIFIED /\
  Schemas.failure_reason r = None /\
  Schemas.confidence_score r
  = match Spec.hits t (Schemas.detected_document_type r) with
    | 0 => 0.6%float
    | _ => 0.99%float
    end.
Proof.
  intros Hr Hty Hget.
  destruct (response_cases Config.settings t) as (ty & id & b & Hresp & Hcase).
  unfold OCR.classify_and_verify in Hr. rewrite Hresp in Hr. injection Hr as <-.
  cbn [Schemas.detected_document_type Schemas.extracted_fields Schemas.status
       Schemas.failure_reason Schemas.confidence_score] in *.
  apply fields_get in Hget. destruct Hget as [-> Hm].
  destruct Hcase as [[Hne Hmt] | (_ & Hid & _)]; [|discriminate Hid].
  assert (Hb : b = 1.0%float).
  { destruct Hty as [-> | ->]; simpl in Hmt.
    - destruct (validate_aadhaar_cases t) as [Hv | [m' Hv]]; congruence.
    - destruct (validate_pan_cases t) as [Hv | [m' Hv]]; congruence. }
  subst b.
  rewrite (decide_detected _ _ Hne), final_confidence_blend.
  assert (E : Schemas.DocumentType_eqb ty Schemas.UNKNOWN = false)
    by (destruct Hty as [-> | ->]; reflexivity).
  rewrite E, calculate_scoring_sum.
  destruct (Spec.hits t ty) as [|[|n]]; repeat split.
Qed.

Lemma aadhaar_or_pan_number_verifies_witness :
  exists r, OCR.classify_and_verify pan_card_text = Some r /\
            Schemas.status r = Schemas.VERIFIED.
Proof.
  eexists. split; [vm_compute; reflexivity|].
  eapply (@aadhaar_or_pan_number_verifies pan_card_text _ "ABCDE1234F").
  - vm_compute. reflexivity.
  - right. reflexivity.
  - reflexivity.
Defined.

Lemma dl_identifier_nonempty (t m : text) (b : float) :
  OCR.validate_dl t = (true, Some m, b) -> m <> [].
Proof.
  unfold OCR.validate_dl.
  pose proof (search_result (Re.ignorecase OCR.DL_PATTERN) t) as H.
  destruct (Re.search (Re.ignorecase OCR.DL_PATTERN) t) as [m'|].
  - destruct H as [Hm _]. apply matches_min_len in Hm.
    change (min_len (Re.ignorecase OCR.DL_PATTERN)) with 8 in Hm.
    intro E.
    assert (m' = m).
    { destruct (Py.any _ OCR.dl_keyword_indicators);
        [|destruct (Py.any _ OCR.dl_context_words)]; congruence. }
    subst m'. intros ->. simpl in Hm. lia.
  - destruct (_ && _); discriminate.
Qed.

(** X12: a driving-licence number alone is not enough.  Under the default
    thresholds a response of type driving licence is verified exactly
    when two DL keywords occur in the text, or one occurs and a licence
    number was extracted. *)
Theorem driving_licence_needs_a_keyword
        (t : text) (r : Schemas.VerificationResponse) :
  OCR.classify_and_verify t = Some r ->
  Schemas.detected_document_type r = Schemas.DRIVING_LICENCE ->
  (Schemas.status r = Schemas.VERIFIED <->
   2 <= Spec.hits t Schemas.DRIVING_LICENCE \/
   (1 <= Spec.hits t Schemas.DRIVING_LICENCE /\
    exists m, Schemas.get "id_number" (Schemas.extracted_fields r) = Some m)).
Proof.
  intros Hr Hty.
  destruct (response_cases Config.settings t) as (ty & id & b & Hresp & Hcase).
  unfold OCR.classify_and_verify in Hr. rewrite Hresp in Hr. injection Hr as <-.
  cbn [Schemas.detected_document_type Schemas.extracted_fields Schemas.status] in *.
  subst ty.
  rewrite decide_detected by discriminate.
  rewrite final_confidence_blend. cbn [Schemas.DocumentType_eqb].
  pose proof (indicator_hits_le_hits t) as Hle.
  rewrite calculate_scoring_sum.
  destruct Hcase as [[_ Hmt] | (_ & -> & -> & _)].
  - simpl in Hmt.
    destruct (validate_dl_evidence t)
      as [Hv | [[Hv Hi] | (m & [[Hv Hi] | [Hv | Hv]])]];
      rewrite Hv in Hmt; try discriminate Hmt; injection Hmt as <- <-.
    + destruct (Spec.hits t Schemas.DRIVING_LICENCE) as [|[|n]]; [lia | lia |].
      split; [intros _; left; lia | reflexivity].
    + pose proof (dl_identifier_nonempty _ Hv) as Hm.
      destruct m as [|c m]; [now elim Hm|].
      destruct (Spec.hits t Schemas.DRIVING_LICENCE) as [|[|n]]; [lia | |];
        (split; [intros _; right; split; [lia | eexists; reflexivity] | reflexivity]).
    + pose proof (dl_identifier_nonempty _ Hv) as Hm.
      destruct m as [|c m]; [now elim Hm|].
      destruct (Spec.hits t Schemas.DRIVING_LICENCE) as [|[|n]].
      * split; [intro H; discriminate H | intros [H | [H _]]; lia].
      * split; [intros _; right; split; [lia | eexists; reflexivity] | reflexivity].
      * split; [intros _; left; lia | reflexivity].
    + pose proof (dl_identifier_nonempty _ Hv) as Hm.
      destruct m as [|c m]; [now elim Hm|].
      destruct (Spec.hits t Schemas.DRIVING_LICENCE) as [|[|n]].
      * split; [intro H; discriminate H | intros [H | [H _]]; lia].
      * split; [intros _; right; split; [lia | eexists; reflexivity] | reflexivity].
      * split; [intros _; left; lia | reflexivity].
  - destruct (Spec.hits t Schemas.DRIVING_LICENCE) as [|[|n]].
    + split; [intro H; discriminate H | intros [H | [H _]]; lia].
    + split; [intro H; discriminate H | intros [H | [_ [m H]]]; [lia | discriminate H]].
    + split; [intros _; left; lia | reflexivity].
Qed.

Lemma driving_licence_needs_a_keyword_witness :
  exists r,
    OCR.classify_and_verify "KA-01-2011014964" = Some r /\
    Schemas.detected_document_type r = Schemas.DRIVING_LICENCE /\
    (Schemas.status r = Schemas.VERIFIED <->
     2 <= Spec.hits "KA-01-2011014964" Schemas.DRIVING_LICENCE \/
     (1 <= Spec.hits "KA-01-2011014964" Schemas.DRIVING_LICENCE /\
      exists m, Schemas.get "id_number" (Schemas.extracted_fields r) = Some m)).
Proof.
  eexists. split; [vm_compute; reflexivity|]. split; [reflexivity|].
  apply (@driving_licence_needs_a_keyword "KA-01-2011014964");
    vm_compute; reflexivity.
Defined.


(** ** The driving-licence number *)

(** Among the code points below 256, [[A-Z]] accepts the letters A-Z and
    a-z when case is ignored. *)
Lemma fold_case_upper (c : ascii) :
  Re.fold_case Re.upper c = Re.upper (Py.upper_char c).
Proof. each_char c; reflexivity. Qed.

Lemma fold_case_digit (c : ascii) : Re.fold_case Re.digit c = Re.digit c.
Proof. each_char c; reflexivity. Qed.

Lemma fold_case_dash_or_space (c : ascii) :
  Re.fold_case Re.dash_or_space c = Re.dash_or_space c.
Proof. each_char c; reflexivity. Qed.

(** What the literal [DL] accepts when case is ignored, [[A-Z]] accepts
    as well. *)
Lemma fold_case_D (c : ascii) :
  Re.fold_case (Ascii.eqb "D") c = true -> Re.fold_case Re.upper c = true.
Proof. each_char c; intro H; try reflexivity; discriminate H. Qed.

Lemma fold_case_L (c : ascii) :
  Re.fold_case (Ascii.eqb "L") c = true -> Re.fold_case Re.upper c = true.
Proof. each_char c; intro H; try reflexivity; discriminate H. Qed.

Lemma Forall_class (p q : ascii -> bool) (w : text) :
  (forall c, p c = q c) ->
  Forall (fun c => p c = true) w -> Forall (fun c => q c = true) w.
Proof.
  intros E H. induction H as [|c w Hc _ IH]; constructor; [|exact IH].
  now rewrite <- E.
Qed.

Lemma dl_words (w : text) :
  Re.matches (Re.ignorecase OCR.DL_PATTERN) w ->
  exists letters s1 d2 s2 ds,
    w = letters ++ s1 ++ d2 ++ s2 ++ ds /\
    List.length letters = 2 /\
    Forall (fun c => Re.fold_case Re.upper c = true) letters /\
    List.length s1 <= 1 /\ List.length s2 <= 1 /\
    Forall (fun c => Re.dash_or_space c = true) (s1 ++ s2) /\
    List.length d2 = 2 /\ 4 <= List.length ds <= 19 /\
    Forall (fun c => Re.digit c = true) (d2 ++ ds).
Proof.
  cbv [OCR.DL_PATTERN Re.ignorecase Re.seq Re.lit Re.times Re.opt fold_right map
       text_of_string list_ascii_of_string].
  intro H. apply matches_Alt in H. destruct H as [H | H].
  - apply matches_Cat in H. destruct H as (l & r1 & -> & Hl & H).
    apply matches_Cat in H. destruct H as (s1 & r2 & -> & Hs1 & H).
    apply matches_Cat in H. destruct H as (d2 & r3 & -> & Hd2 & H).
    apply matches_Cat in H. destruct H as (s2 & r4 & -> & Hs2 & H).
    apply matches_Cat in H. destruct H as (ds & r5 & -> & Hds & H).
    apply matches_Eps in H. subst r5.
    apply matches_Rep in Hs1, Hd2, Hs2, Hds.
    destruct Hs1 as [Fs1 Ls1], Hd2 as [Fd2 Ld2], Hs2 as [Fs2 Ls2], Hds as [Fds Lds].
    exists l, s1, d2, s2, ds. rewrite app_nil_r.
    assert (Hletters : List.length l = 2 /\
                       Forall (fun c => Re.fold_case Re.upper c = true) l).
    { apply matches_Alt in Hl. destruct Hl as [Hl | Hl].
      - apply matches_Cat in Hl. destruct Hl as (a & r & -> & Ha & Hl).
        apply matches_Cat in Hl. destruct Hl as (b & r' & -> & Hb & Hl).
        apply matches_Eps in Hl. subst r'.
        apply matches_Cls in Ha, Hb.
        destruct Ha as (ca & -> & Ha), Hb as (cb & -> & Hb).
        split; [reflexivity|].
        repeat constructor; [now apply fold_case_D | now apply fold_case_L].
      - apply matches_Rep in Hl. destruct Hl as [Fl Ll].
        split; [lia | exact Fl]. }
    destruct Hletters as [Ll Fl].
    repeat split; try lia; try assumption.
    + apply Forall_app; split;
        [exact (@Forall_class (Re.fold_case Re.dash_or_space) Re.dash_or_space _
                  fold_case_dash_or_space Fs1)
        |exact (@Forall_class (Re.fold_case Re.dash_or_space) Re.dash_or_space _
                  fold_case_dash_or_space Fs2)].
    + apply Forall_app; split;
        [exact (@Forall_class (Re.fold_case Re.digit) Re.digit _ fold_case_digit Fd2)
        |exact (@Forall_class (Re.fold_case Re.digit) Re.digit _ fold_case_digit Fds)].
  - apply matches_Cat in H. destruct H as (l & r1 & -> & Hl & H).
    apply matches_Cat in H. destruct H as (d2 & r3 & -> & Hd2 & H).
    apply matches_Cat in H. destruct H as (ds & r5 & -> & Hds & H).
    apply matches_Eps in H. subst r5.
    apply matches_Rep in Hl, Hd2, Hds.
    destruct Hl as [Fl Ll], Hd2 as [Fd2 Ld2], Hds as [Fds Lds].
    exists l, [], d2, [], ds. rewrite app_nil_r. simpl.
    repeat split; try lia; auto.
    apply Forall_app; split;
        [exact (@Forall_class (Re.fold_case Re.digit) Re.digit _ fold_case_digit Fd2) | exact (@Forall_class (Re.fold_case Re.digit) Re.digit _ fold_case_digit Fds)].
Qed.

(** X4: when the driving-licence matcher reports a number, that number
    stands verbatim in the text and is two characters that [[A-Z]]
    accepts when case is ignored, two digits and four to nineteen more
    digits, with at most one hyphen or white-space character after the
    first two characters and after the first two digits: eight to
    twenty-five characters; the base confidence is 0.95, 0.85 or 0.7. *)
Theorem validate_dl_identifier (t m : text) (matched : bool) (b : float) :
  OCR.validate_dl t = (matched, Some m, b) ->
  matched = true /\
  (b = 0.95 \/ b = 0.85 \/ b = 0.7)%float /\
  (exists pre post, t = pre ++ m ++ post) /\
  (exists letters s1 d2 s2 ds,
      m = letters ++ s1 ++ d2 ++ s2 ++ ds /\
      List.length letters = 2 /\
      Forall (fun c => Re.fold_case Re.upper c = true) letters /\
      List.length s1 <= 1 /\ List.length s2 <= 1 /\
      Forall (fun c => Re.dash_or_space c = true) (s1 ++ s2) /\
      List.length d2 = 2 /\ 4 <= List.length ds <= 19 /\
      Forall (fun c => Re.digit c = true) (d2 ++ ds)) /\
  8 <= List.length m <= 25.
Proof.
  unfold OCR.validate_dl.
  pose proof (search_result (Re.ignorecase OCR.DL_PATTERN) t) as H.
  destruct (Re.search (Re.ignorecase OCR.DL_PATTERN) t) as [m'|].
  - destruct H as [Hm (pre & post & Ht & _)].
    pose proof (dl_words Hm) as Hshape.
    intro E.
    assert (Hres : matched = true /\ m' = m /\ (b = 0.95 \/ b = 0.85 \/ b = 0.7)%float).
    { destruct (Py.any _ OCR.dl_keyword_indicators);
        [|destruct (Py.any _ OCR.dl_context_words)];
        injection E as <- <- <-; auto. }
    destruct Hres as (-> & -> & Hb).
    split; [reflexivity|]. split; [exact Hb|].
    split; [now exists pre, post|]. split; [exact Hshape|].
    destruct Hshape as (l & s1 & d2 & s2 & ds & -> & Ll & _ & L1 & L2 & _ & Ld & Lds & _).
    rewrite !length_app. lia.
  - destruct (_ && _); discriminate.
Qed.

Lemma validate_dl_identifier_witness :
  8 <= List.length ("ka-01 2011014964" : text) <= 25.
Proof.
  apply (@validate_dl_identifier
           "Licence ka-01 2011014964" "ka-01 2011014964" true 0.85%float).
  vm_compute. reflexivity.
Defined.

(** ** The second copy and how it relates to the first *)

Lemma fold_case_incl (p : ascii -> bool) (c : ascii) :
  p c = true -> Re.fold_case p c = true.
Proof. intro H. unfold Re.fold_case. now rewrite H. Qed.

(** Ignoring case only adds words. *)
Lemma matches_ignorecase (r : Re.regex) (w : text) :
  Re.matches r w -> Re.matches (Re.ignorecase r) w.
Proof.
  induction 1; simpl.
  - constructor.
  - constructor. apply fold_case_incl. apply Ascii.eqb_refl.
  - constructor. now apply fold_case_incl.
  - constructor; [|assumption|assumption].
    eapply Forall_impl; [|eassumption]. intros a Ha. now apply fold_case_incl.
  - constructor.
    eapply Forall_impl; [|eassumption]. intros a Ha. now apply fold_case_incl.
  - now constructor.
  - now apply Re.M_AltL.
  - now apply Re.M_AltR.
Qed.

Lemma service_dl_words (w : text) :
  Re.matches OcrService.DL_PATTERN w ->
  Re.matches (Re.ignorecase OCR.DL_PATTERN) w.
Proof.
  intro H. apply matches_ignorecase.
  unfold OcrService.DL_PATTERN in H. unfold OCR.DL_PATTERN.
  apply Re.M_AltL.
  apply matches_seq_cons in H. destruct H as (w1 & w2 & -> & H1 & H2).
  apply matches_seq_cons. exists w1, w2.
  split; [reflexivity|]. split; [now apply Re.M_AltR | exact H2].
Qed.

Lemma service_validate_aadhaar (t : text) :
  OcrService.validate_aadhaar t = OCR.validate_aadhaar t.
Proof. reflexivity. Qed.

Lemma service_validate_pan (t : text) :
  OcrService.validate_pan t = OCR.validate_pan t.
Proof. reflexivity. Qed.

Lemma service_validate_dl_cases (t : text) :
  (OcrService.validate_dl t = (false, None, 0.0%float) /\
   Re.search OcrService.DL_PATTERN t = None) \/
  exists m,
    Re.search OcrService.DL_PATTERN t = Some m /\
    (OcrService.validate_dl t = (true, Some m, 0.8%float) \/
     OcrService.validate_dl t = (true, Some m, 0.6%float)).
Proof.
  unfold OcrService.validate_dl.
  destruct (Re.search OcrService.DL_PATTERN t) as [m|]; [|now left].
  right. exists m. split; [reflexivity|].
  destruct (_ || _); auto.
Qed.

Lemma service_dl_fires (t : text) :
  OCR.validate_dl t = (false, None, 0.0%float) ->
  OcrService.validate_dl t = (false, None, 0.0%float).
Proof.
  intro H.
  destruct (service_validate_dl_cases t) as [[E _] | (m & Hs & _)]; [exact E|].
  exfalso.
  pose proof (search_result OcrService.DL_PATTERN t) as Hr. rewrite Hs in Hr.
  destruct Hr as [Hm (pre & post & Ht & _)].
  assert (Hocc : Re.occurs (Re.ignorecase OCR.DL_PATTERN) t)
    by (exists pre, m, post; split; [exact Ht | now apply service_dl_words]).
  apply found_occurs in Hocc. unfold Re.found in Hocc.
  unfold OCR.validate_dl in H.
  destruct (Re.search (Re.ignorecase OCR.DL_PATTERN) t); [|discriminate Hocc].
  destruct (Py.any _ OCR.dl_keyword_indicators);
    [|destruct (Py.any _ OCR.dl_context_words)]; discriminate H.
Qed.

(** *** Keyword scores *)

Lemma service_scoring_sum (t : text) (ty : Schemas.DocumentType) :
  OcrService.calculate_scoring t ty = Spec.keyword_sum (service_hits t ty).
Proof.
  unfold OcrService.calculate_scoring, service_hits.
  change OcrService.count_keywords with OCR.count_keywords.
  rewrite count_keywords_hits.
  destruct (List.length _) as [|[|n]]; reflexivity.
Qed.

Lemma service_scoring_aadhaar (t : text) :
  OcrService.calculate_scoring t Schemas.AADHAAR
  = OCR.calculate_scoring t Schemas.AADHAAR.
Proof. reflexivity. Qed.

Lemma service_scoring_pan (t : text) :
  OcrService.calculate_scoring t Schemas.PAN = OCR.calculate_scoring t Schemas.PAN.
Proof. reflexivity. Qed.

Lemma found_words (r r' : Re.regex) (s : text) :
  (forall w, Re.matches r w -> Re.occurs r' w) ->
  Re.found r s = true -> Re.found r' s = true.
Proof.
  intros H F. apply found_occurs. apply found_occurs in F.
  exact (occurs_inside H F).
Qed.

Lemma occurs_self (r : Re.regex) (w : text) : Re.matches r w -> Re.occurs r w.
Proof. intro H. exists [], w, []. now rewrite app_nil_r. Qed.

Lemma driving_licenxe_words (x : ascii) (w : text) :
  Re.one_of "cs" x = true ->
  Re.matches (Re.seq [Re.lit "driving"; Re.ws; Re.lit (("licen" : text) ++ [x; "e"%char])]) w ->
  Re.matches (Re.seq [Re.lit "driving"; Re.ws; OCR.licen_cs; Re.lit "e"]) w /\
  Re.occurs (Re.seq [Re.lit "driving"; Re.ws; OCR.licen_cs]) w.
Proof.
  intros Hx H.
  apply matches_seq_cons in H. destruct H as (w1 & r1 & -> & H1 & H).
  apply matches_seq_cons in H. destruct H as (w2 & r2 & -> & H2 & H).
  apply matches_seq_cons in H. destruct H as (w3 & r3 & -> & H3 & H).
  apply matches_seq_nil in H. subst r3.
  apply matches_lit in H3. subst w3.
  assert (Hl : Re.matches OCR.licen_cs (("licen" : text) ++ [x])).
  { unfold OCR.licen_cs.
    apply matches_seq_cons. exists ("licen" : text), [x].
    split; [reflexivity|]. split; [now apply matches_lit|].
    apply matches_seq_cons. exists [x], [].
    split; [reflexivity|]. split; [now constructor | now apply matches_seq_nil]. }
  split.
  - apply matches_seq_cons. exists w1, (w2 ++ (("licen" : text) ++ [x; "e"%char]) ++ []).
    split; [reflexivity|]. split; [exact H1|].
    apply matches_seq_cons. exists w2, ((("licen" : text) ++ [x; "e"%char]) ++ []).
    split; [reflexivity|]. split; [exact H2|].
    apply matches_seq_cons. exists (("licen" : text) ++ [x]), (("e" : text) ++ []).
    split; [reflexivity|]. split; [exact Hl|].
    apply matches_seq_cons. exists ("e" : text), [].
    split; [reflexivity|]. split; [now apply matches_lit | now apply matches_seq_nil].
  - exists [], (w1 ++ w2 ++ (("licen" : text) ++ [x]) ++ []), ["e"%char].
    split.
    + simpl. rewrite <- !app_assoc. simpl. reflexivity.
    + apply matches_seq_cons. exists w1, (w2 ++ (("licen" : text) ++ [x]) ++ []).
      split; [reflexivity|]. split; [exact H1|].
      apply matches_seq_cons. exists w2, ((("licen" : text) ++ [x]) ++ []).
      split; [reflexivity|]. split; [exact H2|].
      apply matches_seq_cons. exists (("licen" : text) ++ [x]), [].
      split; [reflexivity|]. split; [exact Hl | now apply matches_seq_nil].
Qed.

Lemma driving_licenxe_found (x : ascii) (s : text) :
  Re.one_of "cs" x = true ->
  Re.found (Re.seq [Re.lit "driving"; Re.ws; Re.lit (("licen" : text) ++ [x; "e"%char])]) s = true ->
  Re.found (Re.seq [Re.lit "driving"; Re.ws; OCR.licen_cs; Re.lit "e"]) s = true /\
  Re.found (Re.seq [Re.lit "driving"; Re.ws; OCR.licen_cs]) s = true.
Proof.
  intros Hx F. split.
  - revert F. apply found_words. intros w Hw.
    apply occurs_self. now apply (driving_licenxe_words Hx).
  - revert F. apply found_words. intros w Hw.
    now apply (driving_licenxe_words Hx).
Qed.

(** The DL keywords of the second copy are covered by those of the
    first: up to the saturation at two, the first copy counts at least as
    many hits. *)
Lemma service_hits_dl (t : text) :
  Nat.min 2 (service_hits t Schemas.DRIVING_LICENCE)
  <= Spec.hits t Schemas.DRIVING_LICENCE.
Proof.
  unfold service_hits, Spec.hits. rewrite !length_filter_sum.
  cbv [OcrService.KEYWORD_PATTERNS OCR.KEYWORD_PATTERNS map list_sum fold_right].
  pose proof (@driving_licenxe_found "c" (Py.lower t) eq_refl) as Hc.
  pose proof (@driving_licenxe_found "s" (Py.lower t) eq_refl) as Hs.
  change (Re.lit (("licen" : text) ++ ["c"%char; "e"%char])) with (Re.lit "licence") in Hc.
  change (Re.lit (("licen" : text) ++ ["s"%char; "e"%char])) with (Re.lit "license") in Hs.
  destruct (Re.found (Re.seq [Re.lit "driving"; Re.ws; Re.lit "licence"]) (Py.lower t));
  destruct (Re.found (Re.seq [Re.lit "driving"; Re.ws; Re.lit "license"]) (Py.lower t));
    try (destruct (Hc eq_refl) as [-> ->]);
    try (destruct (Hs eq_refl) as [-> ->]);
    repeat match goal with
           | |- context [if ?b then 1 else 0] =>
               let n := fresh "n" in
               assert (if b then 1 else 0 <= 1) by (destruct b; lia);
               generalize dependent (if b then 1 else 0); intros
           end;
    lia.
Qed.

(** *** The second engine *)

Lemma service_scoring_cases (t : text) (ty : Schemas.DocumentType) :
  In (OcrService.calculate_scoring t ty) keyword_scores.
Proof.
  rewrite service_scoring_sum. unfold keyword_scores.
  destruct (service_hits t ty) as [|[|n]]; simpl; auto.
Qed.

Lemma service_final_confidence_blend
      (t : text) (ty : Schemas.DocumentType) (b : float) :
  OcrService.final_confidence t ty b
  = if Schemas.DocumentType_eqb ty Schemas.UNKNOWN then 0.0%float
    else Spec.blend b (OcrService.calculate_scoring t ty).
Proof. destruct ty; reflexivity. Qed.

Lemma service_blend_valid (b k : float) :
  In b service_base_scores -> In k keyword_scores ->
  ((0.0 <=? Py.round2 (Spec.blend b k)) && (Py.round2 (Spec.blend b k) <=? 1.0))%float
  = true.
Proof.
  unfold service_base_scores, keyword_scores. simpl In.
  intros Hb Hk.
  repeat (destruct Hb as [<- | Hb]); try contradiction;
  repeat (destruct Hk as [<- | Hk]); try contradiction;
  vm_compute; reflexivity.
Qed.

Lemma service_decide (s : Config.Settings) (ty : Schemas.DocumentType) (f : float) :
  OcrService.decide s ty f = OCR.decide s ty f.
Proof. reflexivity. Qed.

(** The response of the second engine, once the adopted triple is known. *)
Lemma service_respond (s : Config.Settings) (t : text)
      (ty : Schemas.DocumentType) (id : option text) (b : float) :
  OcrService.fallback t (OcrService.regex_validation t) = Some (ty, id, b) ->
  In b service_base_scores ->
  OcrService.classify_and_verify s t
  = Some (Schemas.Build_VerificationResponse
            (fst (OCR.decide s ty (OcrService.final_confidence t ty b)))
            ty
            (Py.round2 (OcrService.final_confidence t ty b))
            (snd (OCR.decide s ty (OcrService.final_confidence t ty b)))
            (Spec.fields id)
            (Some t)).
Proof.
  intros Hf Hb.
  unfold OcrService.classify_and_verify.
  rewrite Hf. cbv beta iota zeta.
  rewrite extracted_fields_spec, service_decide.
  destruct (OCR.decide s ty (OcrService.final_confidence t ty b)) as [st rs].
  unfold Schemas.VerificationResponse_new.
  assert (Hv : ((0.0 <=? Py.round2 (OcrService.final_confidence t ty b))
                && (Py.round2 (OcrService.final_confidence t ty b) <=? 1.0))%float
               = true).
  { rewrite service_final_confidence_blend.
    destruct (Schemas.DocumentType_eqb ty Schemas.UNKNOWN).
    - vm_compute. reflexivity.
    - apply service_blend_valid; [exact Hb | apply service_scoring_cases]. }
  rewrite Hv. reflexivity.
Qed.

(** The short circuit: the first matcher that fires, in the order Aadhaar,
    PAN, DL, decides. *)
Lemma service_regex_validation (t : text) :
  OcrService.regex_validation t
  = match Re.search OCR.AADHAAR_PATTERN t with
    | Some m => (Schemas.AADHAAR, Some m, 1.0%float)
    | None =>
        match Re.search OCR.PAN_PATTERN t with
        | Some m => (Schemas.PAN, Some m, 1.0%float)
        | None =>
            match Re.search OcrService.DL_PATTERN t with
            | Some m =>
                (Schemas.DRIVING_LICENCE, Some m,
                 if Py.contains "DL" t || Py.contains "Licences" t
                    || Py.contains "Driving" t
                 then 0.8%float else 0.6%float)
            | None => (Schemas.UNKNOWN, None, 0.0%float)
            end
        end
    end.
Proof.
  unfold OcrService.regex_validation, OcrService.validate_aadhaar,
    OcrService.validate_pan, OcrService.validate_dl.
  change OcrService.AADHAAR_PATTERN with OCR.AADHAAR_PATTERN.
  change OcrService.PAN_PATTERN with OCR.PAN_PATTERN.
  destruct (Re.search OCR.AADHAAR_PATTERN t) as [ma|]; [reflexivity|].
  destruct (Re.search OCR.PAN_PATTERN t) as [mp|]; [reflexivity|].
  destruct (Re.search OcrService.DL_PATTERN t) as [md|]; [|reflexivity].
  destruct (_ || _); reflexivity.
Qed.

Lemma service_fallback_detected (t : text) (c : Candidate) :
  fst (fst c) <> Schemas.UNKNOWN -> OcrService.fallback t c = Some c.
Proof.
  destruct c as [[ty id] b]. simpl.
  destruct ty; intro H; try reflexivity. now elim H.
Qed.

Lemma service_fallback_unknown (t : text) (id : option text) (b : float) :
  OcrService.fallback t (Schemas.UNKNOWN, id, b)
  = let a := OcrService.calculate_scoring t Schemas.AADHAAR in
    let p := OcrService.calculate_scoring t Schemas.PAN in
    let d := OcrService.calculate_scoring t Schemas.DRIVING_LICENCE in
    let best :=
      if (a <? p)%float
      then (if (p <? d)%float then Schemas.DRIVING_LICENCE else Schemas.PAN)
      else (if (a <? d)%float then Schemas.DRIVING_LICENCE else Schemas.AADHAAR) in
    if (0 <? OcrService.calculate_scoring t best)%float
    then Some (best, id, 0.0%float)
    else Some (Schemas.UNKNOWN, id, b).
Proof.
  unfold OcrService.fallback.
  cbn [Schemas.DocumentType_eqb map Py.max Py.max_from snd fst].
  cbv zeta.
  destruct (OcrService.calculate_scoring t Schemas.AADHAAR
            <? OcrService.calculate_scoring t Schemas.PAN)%float; cbn [snd].
  - destruct (OcrService.calculate_scoring t Schemas.PAN
              <? OcrService.calculate_scoring t Schemas.DRIVING_LICENCE)%float;
      reflexivity.
  - destruct (OcrService.calculate_scoring t Schemas.AADHAAR
              <? OcrService.calculate_scoring t Schemas.DRIVING_LICENCE)%float;
      reflexivity.
Qed.

(** X15: the second engine always responds, and the first matcher that
    fires in the order Aadhaar, PAN, DL decides alone: the detected type
    and the extracted number are its own, whatever the other matchers
    and the keywords say; without any match no number is extracted. *)
Theorem service_short_circuit (s : Config.Settings) (t : text) :
  exists r,
    OcrService.classify_and_verify s t = Some r /\
    Schemas.raw_ocr_text r = Some t /\
    match Re.search OCR.AADHAAR_PATTERN t,
          Re.search OCR.PAN_PATTERN t,
          Re.search OcrService.DL_PATTERN t with
    | Some m, _, _ =>
        Schemas.detected_document_type r = Schemas.AADHAAR /\
        Schemas.extracted_fields r = [("id_number", m)]
    | None, Some m, _ =>
        Schemas.detected_document_type r = Schemas.PAN /\
        Schemas.extracted_fields r = [("id_number", m)]
    | None, None, Some m =>
        Schemas.detected_document_type r = Schemas.DRIVING_LICENCE /\
        Schemas.extracted_fields r = [("id_number", m)]
    | None, None, None => Schemas.extracted_fields r = []
    end.
Proof.
  pose proof (service_regex_validation t) as Hrv.
  pose proof (search_result OCR.AADHAAR_PATTERN t) as Ha.
  pose proof (search_result OCR.PAN_PATTERN t) as Hp.
  pose proof (search_result OcrService.DL_PATTERN t) as Hd.
  destruct (Re.search OCR.AADHAAR_PATTERN t) as [ma|].
  { destruct Ha as [Ha _]. apply matches_min_len in Ha.
    change (min_len OCR.AADHAAR_PATTERN) with 12 in Ha.
    destruct ma as [|c ma]; [simpl in Ha; lia|].
    eexists. split.
    - apply service_respond.
      + rewrite Hrv. now apply service_fallback_detected.
      + simpl; auto.
    - repeat split. }
  destruct (Re.search OCR.PAN_PATTERN t) as [mp|].
  { destruct Hp as [Hp _]. apply matches_min_len in Hp.
    change (min_len OCR.PAN_PATTERN) with 10 in Hp.
    destruct mp as [|c mp]; [simpl in Hp; lia|].
    eexists. split.
    - apply service_respond.
      + rewrite Hrv. now apply service_fallback_detected.
      + simpl; auto.
    - repeat split. }
  destruct (Re.search OcrService.DL_PATTERN t) as [md|].
  { destruct Hd as [Hd _]. apply matches_min_len in Hd.
    change (min_len OcrService.DL_PATTERN) with 8 in Hd.
    destruct md as [|c md]; [simpl in Hd; lia|].
    eexists. split.
    - apply service_respond.
      + rewrite Hrv. now apply service_fallback_detected.
      + destruct (_ || _); simpl; auto.
    - repeat split. }
  pose proof (service_fallback_unknown t None 0.0%float) as Hf.
  cbv zeta in Hf.
  match type of Hf with
  | _ = (if ?c then _ else _) => destruct c
  end.
  - eexists. split.
    + apply service_respond; [rewrite Hrv; exact Hf | simpl; auto].
    + repeat split.
  - eexists. split.
    + apply service_respond; [rewrite Hrv; exact Hf | simpl; auto].
    + repeat split.
Qed.

(** *** Where the two engines agree *)

Lemma service_final_confidence_aadhaar (t : text) (b : float) :
  OcrService.final_confidence t Schemas.AADHAAR b
  = OCR.final_confidence t Schemas.AADHAAR b.
Proof. reflexivity. Qed.

Lemma service_final_confidence_pan (t : text) (b : float) :
  OcrService.final_confidence t Schemas.PAN b
  = OCR.final_confidence t Schemas.PAN b.
Proof. reflexivity. Qed.

Lemma keyword_sum_covered (n m : nat) :
  Nat.min 2 n <= m ->
  (Spec.keyword_sum n <=? Spec.keyword_sum m)%float = true.
Proof.
  destruct n as [|[|n]], m as [|[|m]]; simpl; intro H; try lia; reflexivity.
Qed.

Lemma service_scoring_le (t : text) (ty : Schemas.DocumentType) :
  (OcrService.calculate_scoring t ty <=? OCR.calculate_scoring t ty)%float = true.
Proof.
  destruct ty.
  - rewrite service_scoring_aadhaar.
    destruct (calculate_scoring_cases t Schemas.AADHAAR) as [-> | [-> | ->]]; reflexivity.
  - rewrite service_scoring_pan.
    destruct (calculate_scoring_cases t Schemas.PAN) as [-> | [-> | ->]]; reflexivity.
  - rewrite service_scoring_sum, calculate_scoring_sum.
    apply keyword_sum_covered, service_hits_dl.
  - reflexivity.
Qed.

(** A smaller DL score cannot turn a best type other than DL into DL. *)
Lemma best_of_three_covered (a p d d' : float) :
  In a keyword_scores -> In p keyword_scores ->
  In d keyword_scores -> In d' keyword_scores ->
  (d' <=? d)%float = true ->
  let best (x : float) :=
    if (a <? p)%float
    then (if (p <? x)%float then Schemas.DRIVING_LICENCE else Schemas.PAN)
    else (if (a <? x)%float then Schemas.DRIVING_LICENCE else Schemas.AADHAAR) in
  best d <> Schemas.DRIVING_LICENCE -> best d' = best d.
Proof.
  unfold keyword_scores. simpl In.
  intros Ha Hp Hd Hd'.
  repeat (destruct Ha as [<- | Ha]); try contradiction;
  repeat (destruct Hp as [<- | Hp]); try contradiction;
  repeat (destruct Hd as [<- | Hd]); try contradiction;
  repeat (destruct Hd' as [<- | Hd']); try contradiction;
  vm_compute; intros Hle Hb; try reflexivity;
    try discriminate Hle; now elim Hb.
Qed.

Lemma not_fired (t : text) :
  OCR.candidates t = [] ->
  Re.search OCR.AADHAAR_PATTERN t = None /\
  Re.search OCR.PAN_PATTERN t = None /\
  Re.search OcrService.DL_PATTERN t = None.
Proof.
  intro Hnil. apply candidates_nil_fired in Hnil.
  unfold Spec.fired, Spec.evaluation_order, Spec.fires in Hnil.
  cbn [existsb Spec.matcher] in Hnil.
  apply orb_false_iff in Hnil. destruct Hnil as [Ha Hnil].
  apply orb_false_iff in Hnil. destruct Hnil as [Hp Hnil].
  apply orb_false_iff in Hnil. destruct Hnil as [Hd _].
  split; [|split].
  - unfold OCR.validate_aadhaar in Ha.
    destruct (Re.search OCR.AADHAAR_PATTERN t); [discriminate Ha | reflexivity].
  - unfold OCR.validate_pan in Hp.
    destruct (Re.search OCR.PAN_PATTERN t); [discriminate Hp | reflexivity].
  - assert (Hv : OCR.validate_dl t = (false, None, 0.0%float)).
    { destruct (validate_dl_cases t) as [E | [E | (m & [E | [E | E]])]];
        rewrite E in Hd; try discriminate Hd; exact E. }
    apply service_dl_fires in Hv.
    destruct (service_validate_dl_cases t) as [[_ E] | (m & _ & [E | E])];
      [exact E | congruence | congruence].
Qed.

(** X16: the two engines return the same response whenever the first
    one detects Aadhaar, detects PAN on a text without an Aadhaar number,
    or detects nothing; they can differ only around driving licences and
    on a PAN card that also carries an Aadhaar number. *)
Theorem engines_agree (s : Config.Settings) (t : text)
        (r : Schemas.VerificationResponse) :
  OCR.classify_and_verify_with s t = Some r ->
  Schemas.detected_document_type r = Schemas.AADHAAR \/
  (Schemas.detected_document_type r = Schemas.PAN /\
   Spec.fires t Schemas.AADHAAR = false) \/
  Schemas.detected_document_type r = Schemas.UNKNOWN ->
  OcrService.classify_and_verify s t = Some r.
Proof.
  intros Hr Hty.
  destruct (response_cases s t) as (ty & id & b & Hresp & Hcase).
  rewrite Hresp in Hr. injection Hr as <-.
  cbn [Schemas.detected_document_type] in Hty.
  pose proof (service_regex_validation t) as Hrv.
  destruct Hcase as [[Hne Hmt] | (Hnil & -> & -> & Hk)].
  - destruct Hty as [-> | [[-> Hna] | ->]]; [ | | now elim Hne].
    + simpl in Hmt. unfold OCR.validate_aadhaar in Hmt.
      destruct (Re.search OCR.AADHAAR_PATTERN t) as [m|]; [|discriminate Hmt].
      injection Hmt as <- <-.
      rewrite (@service_respond s t Schemas.AADHAAR (Some m) 1.0%float).
      * now rewrite service_final_confidence_aadhaar.
      * rewrite Hrv. reflexivity.
      * simpl; auto.
    + unfold Spec.fires in Hna. simpl in Hna, Hmt.
      unfold OCR.validate_aadhaar in Hna. unfold OCR.validate_pan in Hmt.
      destruct (Re.search OCR.AADHAAR_PATTERN t) as [ma|]; [discriminate Hna|].
      destruct (Re.search OCR.PAN_PATTERN t) as [m|]; [|discriminate Hmt].
      injection Hmt as <- <-.
      rewrite (@service_respond s t Schemas.PAN (Some m) 1.0%float).
      * now rewrite service_final_confidence_pan.
      * rewrite Hrv. reflexivity.
      * simpl; auto.
  - destruct (not_fired t Hnil) as (Ea & Ep & Ed).
    rewrite Ea, Ep, Ed in Hrv.
    pose proof (service_fallback_unknown t None 0.0%float) as Hf.
    cbv zeta in Hf.
    rewrite service_scoring_aadhaar, service_scoring_pan in Hf.
    pose proof (@best_of_three_covered
                  (OCR.calculate_scoring t Schemas.AADHAAR)
                  (OCR.calculate_scoring t Schemas.PAN)
                  (OCR.calculate_scoring t Schemas.DRIVING_LICENCE)
                  (OcrService.calculate_scoring t Schemas.DRIVING_LICENCE)
                  (calculate_scoring_in t _) (calculate_scoring_in t _)
                  (calculate_scoring_in t _) (service_scoring_cases t _)
                  (service_scoring_le t _)) as Hbest.
    cbv zeta beta in Hbest. fold (Spec.best_type t) in Hbest.
    destruct Hk as [(Ebest & Hne & Hpos) | (-> & Hz)].
    + assert (Hndl : Spec.best_type t <> Schemas.DRIVING_LICENCE).
      { rewrite <- Ebest. destruct Hty as [-> | [[-> _] | ->]]; discriminate. }
      rewrite (Hbest Hndl), <- Ebest in Hf.
      assert (Esc : OcrService.calculate_scoring t ty = OCR.calculate_scoring t ty).
      { destruct Hty as [-> | [[-> _] | ->]]; reflexivity. }
      rewrite Esc, Hpos in Hf.
      rewrite (@service_respond s t ty None 0.0%float).
      * rewrite service_final_confidence_blend, final_confidence_blend, Esc.
        reflexivity.
      * rewrite Hrv. exact Hf.
      * simpl; auto.
    + assert (Hb0 : Spec.best_type t = Schemas.AADHAAR).
      { unfold Spec.best_type. rewrite !Hz. reflexivity. }
      assert (Hndl : Spec.best_type t <> Schemas.DRIVING_LICENCE)
        by (rewrite Hb0; discriminate).
      rewrite (Hbest Hndl), Hb0, service_scoring_aadhaar, Hz in Hf.
      change (0 <? 0.0)%float with false in Hf.
      rewrite (@service_respond s t Schemas.UNKNOWN None 0.0%float).
      * reflexivity.
      * rewrite Hrv. exact Hf.
      * simpl; auto.
Qed.

Lemma engines_agree_witness :
  exists r,
    OCR.classify_and_verify pan_card_text = Some r /\
    OcrService.classify_and_verify Config.settings pan_card_text = Some r.
Proof.
  eexists. split; [vm_compute; reflexivity|].
  apply (@engines_agree Config.settings pan_card_text).
  - vm_compute. reflexivity.
  - right; left. split; vm_compute; reflexivity.
Defined.

(** X17: the second copy is covered by the first.  Its Aadhaar and PAN
    matchers are the same functions; wherever its DL matcher fires, the
    first copy's fires with a number; its keyword score never exceeds the
    first copy's.  The converse fails: a lower-case licence number fires
    the first DL matcher only, and the single word driving scores for the
    first copy only. *)
Theorem second_copy_is_covered :
  (forall t : text,
      OcrService.validate_aadhaar t = OCR.validate_aadhaar t /\
      OcrService.validate_pan t = OCR.validate_pan t /\
      (fst (fst (OcrService.validate_dl t)) = true ->
       exists m b, OCR.validate_dl t = (true, Some m, b)) /\
      forall ty,
        (OcrService.calculate_scoring t ty <=? OCR.calculate_scoring t ty)%float
        = true) /\
  (OcrService.validate_dl "ka-01-2011014964" = (false, None, 0.0%float) /\
   OCR.validate_dl "ka-01-2011014964"
   = (true, Some ("ka-01-2011014964" : text), 0.7%float)) /\
  (OcrService.calculate_scoring "driving" Schemas.DRIVING_LICENCE = 0.0%float /\
   OCR.calculate_scoring "driving" Schemas.DRIVING_LICENCE = 0.4%float).
Proof.
  split; [|split; split; vm_compute; reflexivity].
  intro t. split; [reflexivity|]. split; [reflexivity|].
  split; [|apply service_scoring_le].
  intro Hf.
  destruct (validate_dl_cases t) as [E | [E | (m & [E | [E | E]])]];
    try (eexists; eexists; exact E); exfalso.
  - apply service_dl_fires in E. rewrite E in Hf. discriminate Hf.
  - destruct (service_validate_dl_cases t) as [[E' _] | (m & Hs & _)];
      [rewrite E' in Hf; discriminate Hf|].
    pose proof (search_result OcrService.DL_PATTERN t) as Hr. rewrite Hs in Hr.
    destruct Hr as [Hm (pre & post & Ht & _)].
    assert (Hocc : Re.occurs (Re.ignorecase OCR.DL_PATTERN) t)
      by (exists pre, m, post; split; [exact Ht | now apply service_dl_words]).
    apply found_occurs in Hocc. unfold Re.found in Hocc.
    unfold OCR.validate_dl in E.
    destruct (Re.search (Re.ignorecase OCR.DL_PATTERN) t); [|discriminate Hocc].
    destruct (Py.any _ OCR.dl_keyword_indicators);
      [|destruct (Py.any _ OCR.dl_context_words)]; discriminate E.
Qed.

(** *** The scores of the second engine *)

(** The shape of a response of the second engine: a matcher's triple, or
    the best keyword type with base 0.0, or UNKNOWN. *)
Lemma service_response_cases (s : Config.Settings) (t : text) :
  exists ty id b,
    OcrService.classify_and_verify s t
    = Some (Schemas.Build_VerificationResponse
              (fst (OCR.decide s ty (OcrService.final_confidence t ty b)))
              ty
              (Py.round2 (OcrService.final_confidence t ty b))
              (snd (OCR.decide s ty (OcrService.final_confidence t ty b)))
              (Spec.fields id)
              (Some t)) /\
    ((ty <> Schemas.UNKNOWN /\ In b [1.0; 0.8; 0.6]%float) \/
     (ty <> Schemas.UNKNOWN /\ b = 0.0%float /\
      (0 <? OcrService.calculate_scoring t ty)%float = true) \/
     ty = Schemas.UNKNOWN).
Proof.
  pose proof (service_regex_validation t) as Hrv.
  destruct (Re.search OCR.AADHAAR_PATTERN t) as [ma|].
  { exists Schemas.AADHAAR, (Some ma), 1.0%float. split.
    - apply service_respond; [rewrite Hrv; reflexivity | simpl; auto].
    - left. split; [discriminate | simpl; auto]. }
  destruct (Re.search OCR.PAN_PATTERN t) as [mp|].
  { exists Schemas.PAN, (Some mp), 1.0%float. split.
    - apply service_respond; [rewrite Hrv; reflexivity | simpl; auto].
    - left. split; [discriminate | simpl; auto]. }
  destruct (Re.search OcrService.DL_PATTERN t) as [md|].
  { eexists Schemas.DRIVING_LICENCE, (Some md), _. split.
    - apply service_respond; [rewrite Hrv; reflexivity|].
      destruct (_ || _); simpl; auto.
    - left. split; [discriminate|]. destruct (_ || _); simpl; auto. }
  pose proof (service_fallback_unknown t None 0.0%float) as Hf.
  cbv zeta in Hf.
  match type of Hf with
  | _ = (if (0 <? OcrService.calculate_scoring t ?best)%float then _ else _) =>
      remember best as ty eqn:Ety;
      destruct (0 <? OcrService.calculate_scoring t ty)%float eqn:Epos
  end.
  - exists ty, None, 0.0%float. split.
    + apply service_respond; [rewrite Hrv; exact Hf | simpl; auto].
    + right; left. repeat split; auto.
      intros ->. discriminate Epos.
  - exists Schemas.UNKNOWN, None, 0.0%float. split.
    + apply service_respond; [rewrite Hrv; exact Hf | simpl; auto].
    + right; right. reflexivity.
Qed.

Lemma service_reachable_confidence (b k : float) :
  In b service_base_scores -> In k keyword_scores ->
  (b = 0.0%float -> (0 <? k)%float = true) ->
  In (Py.round2 (Spec.blend b k)) service_confidence_values /\
  (((0.85 <=? Spec.blend b k) || (0.60 <=? Spec.blend b k))%float
   = (0.6 <=? Py.round2 (Spec.blend b k))%float).
Proof.
  unfold service_base_scores, keyword_scores. simpl In.
  intros Hb Hk.
  repeat (destruct Hb as [<- | Hb]); try contradiction;
  repeat (destruct Hk as [<- | Hk]); try contradiction;
  intro H0; try (specialize (H0 eq_refl); vm_compute in H0; discriminate H0);
  vm_compute; intuition.
Qed.

(** X24: whatever the text and the thresholds, the confidence_score of a
    response of the second engine is one of eight values: 0.0, 0.36, 0.4,
    0.48, 0.6, 0.76, 0.96 and 0.99, each of them reported for some text.
    Under the default thresholds the response is verified exactly when a
    type is detected and the reported score is at least 0.6. *)
Theorem service_confidence_score_values :
  (forall (s : Config.Settings) (t : text),
      exists r,
        OcrService.classify_and_verify s t = Some r /\
        In (Schemas.confidence_score r) service_confidence_values) /\
  (forall t : text,
      exists r,
        OcrService.classify_and_verify Config.settings t = Some r /\
        (Schemas.status r = Schemas.VERIFIED <->
         Schemas.detected_document_type r <> Schemas.UNKNOWN /\
         (0.6 <=? Schemas.confidence_score r)%float = true)) /\
  map (fun t : text =>
         option_map Schemas.confidence_score
           (OcrService.classify_and_verify Config.settings t))
    [ "" : text; "KA-01-2011014964" : text; "aadhaar" : text;
      "DL KA-01-2011014964" : text; "1234 5678 9012" : text;
      "KA-01-2011014964 valid till" : text;
      "KA-01-2011014964 valid till, issued on" : text; pan_card_text ]
  = map Some service_confidence_values.
Proof.
  split; [|split; [|vm_compute; reflexivity]].
  - intros s t.
    destruct (service_response_cases s t) as (ty & id & b & Hr & Hcase).
    eexists. split; [exact Hr|].
    cbn [Schemas.confidence_score].
    rewrite service_final_confidence_blend.
    destruct Hcase as [[Hne Hb] | [(Hne & -> & Hpos) | ->]].
    + destruct ty; try (now elim Hne); cbn [Schemas.DocumentType_eqb];
        apply service_reachable_confidence;
        try apply service_scoring_cases;
        try (simpl In in *; unfold service_base_scores; simpl; tauto);
        intros ->; exfalso;
        simpl in Hb; destruct Hb as [Hb | [Hb | [Hb | []]]];
        revert Hb; apply (float_neq (fun x => (0 <? x)%float)); reflexivity.
    + destruct ty; try (now elim Hne); cbn [Schemas.DocumentType_eqb];
        apply service_reachable_confidence;
        try apply service_scoring_cases;
        try (unfold service_base_scores; simpl; tauto);
        intros _; exact Hpos.
    + vm_compute. tauto.
  - intro t.
    destruct (service_response_cases Config.settings t) as (ty & id & b & Hr & Hcase).
    eexists. split; [exact Hr|].
    cbn [Schemas.confidence_score Schemas.status Schemas.detected_document_type].
    assert (Hu : ty = Schemas.UNKNOWN \/ ty <> Schemas.UNKNOWN)
      by (destruct ty; auto; right; discriminate).
    destruct Hu as [-> | Hne].
    { rewrite decide_unknown. cbn [fst].
      split; [discriminate | intros [H _]; now elim H]. }
    rewrite (decide_detected _ _ Hne), service_final_confidence_blend.
    assert (E : Schemas.DocumentType_eqb ty Schemas.UNKNOWN = false)
      by (destruct ty; try reflexivity; now elim Hne).
    rewrite E.
    assert (Hreach :
              ((0.85 <=? Spec.blend b (OcrService.calculate_scoring t ty))
               || (0.60 <=? Spec.blend b (OcrService.calculate_scoring t ty)))%float
              = (0.6 <=? Py.round2 (Spec.blend b (OcrService.calculate_scoring t ty)))%float).
    { apply service_reachable_confidence; [|apply service_scoring_cases|].
      - destruct Hcase as [[_ Hb] | [(_ & -> & _) | ->]];
          [|unfold service_base_scores; simpl; tauto | now elim Hne].
        unfold service_base_scores. simpl in *. tauto.
      - intros ->.
        destruct Hcase as [[_ Hb] | [(_ & _ & Hpos) | ->]];
          [|exact Hpos | now elim Hne].
        exfalso. simpl in Hb. destruct Hb as [Hb | [Hb | [Hb | []]]];
          revert Hb; apply (float_neq (fun x => (0 <? x)%float)); reflexivity. }
    change (Config.CONFIDENCE_THRESHOLD_HIGH Config.settings) with 0.85%float.
    change (Config.CONFIDENCE_THRESHOLD_LOW Config.settings) with 0.60%float.
    rewrite Hreach.
    destruct (0.6 <=? Py.round2 _)%float; cbn [fst].
    + split; [intros _; split; [exact Hne | reflexivity] | reflexivity].
    + split; [discriminate | intros [_ H]; discriminate H].
Qed.

(** ** Evidence under noise *)

Lemma occurs_extend (r : Re.regex) (pre t post : text) :
  Re.occurs r t -> Re.occurs r (pre ++ t ++ post).
Proof.
  intros (a & w & b & -> & Hw).
  exists (pre ++ a), w, (b ++ post). split; [|exact Hw].
  now rewrite <- !app_assoc.
Qed.

Lemma found_extend (r : Re.regex) (pre t post : text) :
  Re.found r t = true -> Re.found r (pre ++ t ++ post) = true.
Proof.
  intro H. apply found_occurs. apply found_occurs in H. now apply occurs_extend.
Qed.

Lemma filter_length_le (A : Type) (f g : A -> bool) (l : list A) :
  (forall x, f x = true -> g x = true) ->
  List.length (filter f l) <= List.length (filter g l).
Proof.
  intro H. induction l as [|x l IH]; simpl; [lia|].
  destruct (f x) eqn:Ef.
  - rewrite (H x Ef). simpl. lia.
  - destruct (g x); simpl; lia.
Qed.

Lemma hits_extend (pre t post : text) (ty : Schemas.DocumentType) :
  Spec.hits t ty <= Spec.hits (pre ++ t ++ post) ty.
Proof.
  unfold Spec.hits. rewrite !lower_app.
  apply filter_length_le. intros p. apply found_extend.
Qed.

Lemma indicator_hits_extend (pre t post : text) :
  Spec.indicator_hits t <= Spec.indicator_hits (pre ++ t ++ post).
Proof.
  unfold Spec.indicator_hits. rewrite !lower_app.
  apply filter_length_le. intros p. apply found_extend.
Qed.

Lemma search_occurs (r : Re.regex) (t : text) :
  Re.occurs r t -> exists m, Re.search r t = Some m.
Proof.
  intro H. apply found_occurs in H. unfold Re.found in H.
  destruct (Re.search r t) as [m|]; [now exists m | discriminate H].
Qed.

Lemma search_extend (r : Re.regex) (pre t post m : text) :
  Re.search r t = Some m -> exists m', Re.search r (pre ++ t ++ post) = Some m'.
Proof.
  intro H. apply search_occurs, occurs_extend.
  pose proof (search_result r t) as Hr. rewrite H in Hr.
  destruct Hr as [Hm (a & b & Ht & _)]. now exists a, m, b.
Qed.

(** When the driving-licence matcher fires. *)
Lemma validate_dl_fires (t : text) :
  Spec.fires t Schemas.DRIVING_LICENCE = true <->
  (exists m, Re.search (Re.ignorecase OCR.DL_PATTERN) t = Some m) \/
  2 <= Spec.indicator_hits t.
Proof.
  unfold Spec.fires, Spec.matcher, OCR.validate_dl, Spec.indicator_hits, Py.any.
  change Spec.indicator_phrases with OCR.dl_keyword_indicators.
  rewrite existsb_filter_length.
  destruct (Re.search (Re.ignorecase OCR.DL_PATTERN) t) as [m|].
  - split; [intros _; left; now exists m|]. intros _.
    destruct (1 <=? _)%nat; [reflexivity|].
    destruct (existsb _ OCR.dl_context_words); reflexivity.
  - destruct (1 <=? _)%nat eqn:E1; cbn [andb].
    + destruct (2 <=? _)%nat eqn:E2; cbn [fst].
      * split; [intros _; right; now apply Nat.leb_le | reflexivity].
      * apply Nat.leb_gt in E2.
        split; [discriminate | intros [[m H] | H]; [discriminate H | lia]].
    + apply Nat.leb_gt in E1. cbn [fst].
      split; [discriminate | intros [[m H] | H]; [discriminate H | lia]].
Qed.

(** X7: evidence survives noise.  Putting any text before and after a
    text never lowers a keyword score and never makes an identifier
    matcher stop firing. *)
Theorem evidence_is_monotone (pre t post : text) (ty : Schemas.DocumentType) :
  (OCR.calculate_scoring t ty <=? OCR.calculate_scoring (pre ++ t ++ post) ty)%float
  = true /\
  (Spec.fires t ty = true -> Spec.fires (pre ++ t ++ post) ty = true).
Proof.
  split.
  - rewrite !calculate_scoring_sum.
    pose proof (hits_extend pre t post ty) as H.
    replace (Spec.hits (pre ++ t ++ post) ty)
      with (Spec.hits t ty + (Spec.hits (pre ++ t ++ post) ty - Spec.hits t ty))
      by lia.
    apply keyword_sum_monotone.
  - destruct ty.
    + unfold Spec.fires, Spec.matcher, OCR.validate_aadhaar.
      destruct (Re.search OCR.AADHAAR_PATTERN t) as [m|] eqn:E; [|discriminate].
      intros _. destruct (@search_extend _ pre _ post _ E) as (m' & ->). reflexivity.
    + unfold Spec.fires, Spec.matcher, OCR.validate_pan.
      destruct (Re.search OCR.PAN_PATTERN t) as [m|] eqn:E; [|discriminate].
      intros _. destruct (@search_extend _ pre _ post _ E) as (m' & ->). reflexivity.
    + rewrite !validate_dl_fires.
      intros [[m E] | H].
      * left. exact (@search_extend _ pre _ post _ E).
      * right. pose proof (indicator_hits_extend pre t post). lia.
    + discriminate.
Qed.

(** ** Licence numbers written without separators *)

Lemma Forall_firstn (A : Type) (P : A -> Prop) (n : nat) (l : list A) :
  Forall P l -> Forall P (firstn n l).
Proof.
  intro H. revert n. induction H as [|x l Hx _ IH]; intros [|n]; simpl;
    constructor; auto.
Qed.

Lemma Forall_skipn (A : Type) (P : A -> Prop) (n : nat) (l : list A) :
  Forall P l -> Forall P (skipn n l).
Proof.
  intro H. revert n. induction H as [|x l Hx Hl IH]; intros [|n]; simpl;
    auto.
Qed.

Lemma twelve_digits_word (ds : text) :
  Forall (fun c => Re.digit c = true) ds -> List.length ds = 12 ->
  Re.matches OCR.AADHAAR_PATTERN ds.
Proof.
  intros F L. unfold OCR.AADHAAR_PATTERN, Re.times, Re.opt.
  rewrite <- (firstn_skipn 4 ds).
  rewrite <- (firstn_skipn 4 (skipn 4 ds)).
  assert (L1 : List.length (firstn 4 ds) = 4) by (rewrite length_firstn; lia).
  assert (L2 : List.length (firstn 4 (skipn 4 ds)) = 4)
    by (rewrite length_firstn, length_skipn; lia).
  assert (L3 : List.length (skipn 4 (skipn 4 ds)) = 4)
    by (rewrite !length_skipn; lia).
  apply matches_seq_cons. eexists; eexists. split; [reflexivity|]. split.
  { constructor; [now apply Forall_firstn | lia | lia]. }
  apply matches_seq_cons. exists [].
  eexists. split; [reflexivity|]. split.
  { constructor; [constructor | simpl; lia | simpl; lia]. }
  apply matches_seq_cons. eexists; eexists. split; [reflexivity|]. split.
  { constructor; [now apply Forall_firstn, Forall_skipn | lia | lia]. }
  apply matches_seq_cons. exists [], (skipn 4 (skipn 4 ds) ++ []).
  split; [now rewrite app_nil_r|]. split.
  { constructor; [constructor | simpl; lia | simpl; lia]. }
  apply matches_seq_cons. eexists; eexists. split; [reflexivity|]. split.
  { constructor; [now apply Forall_skipn, Forall_skipn | lia | lia]. }
  now apply matches_seq_nil.
Qed.

Lemma digit_run_aadhaar (pre ds post : text) :
  Forall (fun c => Re.digit c = true) ds -> 12 <= List.length ds ->
  exists m, Re.search OCR.AADHAAR_PATTERN (pre ++ ds ++ post) = Some m.
Proof.
  intros F L. apply search_occurs.
  exists pre, (firstn 12 ds), (skipn 12 ds ++ post). split.
  - now rewrite (app_assoc (firstn 12 ds)), firstn_skipn.
  - apply twelve_digits_word; [now apply Forall_firstn|].
    rewrite length_firstn. lia.
Qed.

Lemma aadhaar_candidate (t m : text) :
  Re.search OCR.AADHAAR_PATTERN t = Some m ->
  In (Schemas.AADHAAR, Some m, 1.0%float) (OCR.candidates t).
Proof.
  intro H. unfold OCR.candidates, OCR.validate_aadhaar. rewrite H.
  apply in_or_app. left. left. reflexivity.
Qed.

(** X14: a run of twelve or more digits anywhere in the text, as in a
    licence number written without separators, fires the Aadhaar matcher.
    The second engine then reports Aadhaar whatever else the text says.
    The first engine reports a driving licence for such a text only if a
    DL keyword occurs in it. *)
Theorem unbroken_digits_read_as_aadhaar
        (s : Config.Settings) (pre ds post : text) :
  Forall (fun c => Re.digit c = true) ds -> 12 <= List.length ds ->
  (exists r,
      OcrService.classify_and_verify s (pre ++ ds ++ post) = Some r /\
      Schemas.detected_document_type r = Schemas.AADHAAR) /\
  (exists r,
      OCR.classify_and_verify_with s (pre ++ ds ++ post) = Some r /\
      (Schemas.detected_document_type r = Schemas.DRIVING_LICENCE ->
       1 <= Spec.hits (pre ++ ds ++ post) Schemas.DRIVING_LICENCE)).
Proof.
  intros F L.
  destruct (@digit_run_aadhaar pre ds post F L) as (m & Hm).
  remember (pre ++ ds ++ post) as t eqn:Et. clear Et.
  split.
  - eexists. split.
    + apply service_respond.
      * rewrite service_regex_validation, Hm. reflexivity.
      * simpl; auto.
    + reflexivity.
  - destruct (adopts_cases t)
      as [(c & before & after & Hc & _ & Had & Hmax & _) | [(Hnil & _) | (Hnil & _)]];
      try (pose proof (@aadhaar_candidate t m Hm) as Hin; rewrite Hnil in Hin;
           now destruct Hin).
    destruct c as [[ty id] b].
    eexists. split; [exact (respond s Had (adopts_base Had))|].
    cbn [Schemas.detected_document_type]. intros ->.
    assert (Hin : In (Schemas.DRIVING_LICENCE, id, b) (OCR.candidates t))
      by (rewrite Hc; apply in_elt).
    apply in_candidates in Hin. simpl in Hin. destruct Hin as [_ Hmt].
    specialize (Hmax _ (@aadhaar_candidate t m Hm)).
    cbn [Spec.total] in Hmax.
    destruct (Spec.hits t Schemas.DRIVING_LICENCE) as [|n] eqn:Eh; [exfalso|lia].
    rewrite (calculate_scoring_sum t Schemas.DRIVING_LICENCE), Eh in Hmax.
    pose proof (indicator_hits_le_hits t) as Hle. rewrite Eh in Hle.
    destruct (validate_dl_evidence t)
      as [Hv | [[Hv Hi] | (m' & [[Hv Hi] | [Hv | Hv]])]];
      rewrite Hv in Hmt; try discriminate Hmt; try lia;
      injection Hmt as _ <-;
      destruct (calculate_scoring_cases t Schemas.AADHAAR) as [Ea | [Ea | Ea]];
      rewrite Ea in Hmax; vm_compute in Hmax; discriminate Hmax.
Qed.

Lemma unbroken_digits_read_as_aadhaar_witness :
  exists r,
    OcrService.classify_and_verify Config.settings
      ("Driving Licence KA0120110149646" : text) = Some r /\
    Schemas.detected_document_type r = Schemas.AADHAAR.
Proof.
  change ("Driving Licence KA0120110149646" : text)
    with (("Driving Licence KA" : text) ++ ("0120110149646" : text) ++ []).
  apply (@unbroken_digits_read_as_aadhaar Config.settings
           ("Driving Licence KA" : text) ("0120110149646" : text) []).
  - repeat constructor.
  - simpl. lia.
Defined.

(** ** The upload pipeline *)




Section ExtractText.

Variable Image : Type.
Variable image_to_string : Image -> text -> text -> Pipeline.outcome Pipeline.exn text.
Variable image : Image.


End ExtractText.


(** The first test of line 26 is subsumed by the second. *)
Lemma incorrect_password_subsumed (error_msg : text) :
  Py.contains "Incorrect password" error_msg = true ->
  Py.contains "password" (Py.lower error_msg) = true.
Proof.
  intro H. apply contains_spec in H. destruct H as (pre & post & ->).
  apply contains_spec.
  exists (Py.lower pre ++ ("incorrect " : text)), (Py.lower post).
  rewrite !lower_app, <- !app_assoc. reflexivity.
Qed.

Lemma password_test (error_msg : text) :
  Py.contains "Incorrect password" error_msg
  || Py.contains "password" (Py.lower error_msg)
  = Py.contains "password" (Py.lower error_msg).
Proof.
  destruct (Py.contains "Incorrect password" error_msg) eqn:E; [|reflexivity].
  now rewrite (incorrect_password_subsumed _ E).
Qed.

(** X19: [load_image_file] returns the first page of a PDF and the opened
    image otherwise.  Every failure is a [DocumentProcessingError]: the
    password notice exactly when the lower-cased message of the underlying
    exception contains [password] (the test for [Incorrect password] adds
    nothing), and [Failed to load image: ] followed by that message
    otherwise.  The [Empty PDF file] error raised inside the [try] is
    caught by the same handler and leaves as
    [Failed to load image: Empty PDF file]. *)
Theorem load_image_file_outcomes
        (Image : Type)
        (convert_from_bytes :
           Pipeline.bytes -> Z -> Pipeline.outcome Pipeline.exn (list Image))
        (Image_open : Pipeline.bytes -> Pipeline.outcome Pipeline.exn Image)
        (file_content : Pipeline.bytes) (content_type : text) :
  let wrapped error_msg :=
    Pipeline.DocumentProcessingError
      (if Py.contains "password" (Py.lower error_msg)
       then Pipeline.password_protected
       else ("Failed to load image: " : text) ++ error_msg) in
  match Pipeline.load_image_file convert_from_bytes Image_open
          file_content content_type with
  | Pipeline.Returns image =>
      if Pipeline.text_eqb content_type "application/pdf"
      then exists pages,
             convert_from_bytes file_content 300%Z = Pipeline.Returns (image :: pages)
      else Image_open file_content = Pipeline.Returns image
  | Pipeline.Raises e =>
      if Pipeline.text_eqb content_type "application/pdf"
      then (convert_from_bytes file_content 300%Z = Pipeline.Returns [] /\
            e = Pipeline.DocumentProcessingError
                  "Failed to load image: Empty PDF file") \/
           (exists e', convert_from_bytes file_content 300%Z = Pipeline.Raises e' /\
                       e = wrapped (Pipeline.str e'))
      else exists e', Image_open file_content = Pipeline.Raises e' /\
                      e = wrapped (Pipeline.str e')
  end.
Proof.
  cbv zeta. unfold Pipeline.load_image_file, Pipeline.try_except, Pipeline.bind.
  destruct (Pipeline.text_eqb content_type "application/pdf").
  - destruct (convert_from_bytes file_content 300%Z) as [[|image pages]|e'].
    + left. split; reflexivity.
    + now exists pages.
    + right. exists e'. split; [reflexivity|].
      cbv zeta. rewrite password_test.
      destruct (Py.contains "password" (Py.lower (Pipeline.str e'))); reflexivity.
  - destruct (Image_open file_content) as [image|e'].
    + reflexivity.
    + exists e'. split; [reflexivity|].
      cbv zeta. rewrite password_test.
      destruct (Py.contains "password" (Py.lower (Pipeline.str e'))); reflexivity.
Qed.

Lemma load_image_file_raises
      (Image : Type)
      (convert_from_bytes :
         Pipeline.bytes -> Z -> Pipeline.outcome Pipeline.exn (list Image))
      (Image_open : Pipeline.bytes -> Pipeline.outcome Pipeline.exn Image)
      (file_content : Pipeline.bytes) (content_type : text) (e : Pipeline.exn) :
  Pipeline.load_image_file convert_from_bytes Image_open file_content content_type
  = Pipeline.Raises e ->
  exists message,
    e = Pipeline.DocumentProcessingError message /\
    (message = Pipeline.password_protected \/
     exists what, message = ("Failed to load image: " : text) ++ what).
Proof.
  unfold Pipeline.load_image_file, Pipeline.try_except.
  destruct (if Pipeline.text_eqb content_type "application/pdf" then _ else _)
    as [image|e']; [discriminate|].
  intro H. injection H as <-. cbv zeta.
  destruct (_ || _); eexists; (split; [reflexivity|]);
    [now left | right; now exists (Pipeline.str e')].
Qed.

(** *** The route *)

Section RouteFacts.

Variable Image : Type.
Variable load_image_file : Pipeline.bytes -> text -> Pipeline.outcome Pipeline.exn Image.
Variable preprocess_image : Image -> Pipeline.outcome Pipeline.exn Image.
Variable extract_text : Image -> Pipeline.outcome Pipeline.exn text.
Variable classify_and_verify : text -> option Schemas.VerificationResponse.

Lemma pipeline_cases (file_content : Pipeline.bytes) (ct : text) :
  let stage :=
    Pipeline.bind (load_image_file file_content ct) (fun image =>
    Pipeline.bind (preprocess_image image) extract_text) in
  let run := Pipeline.pipeline load_image_file preprocess_image extract_text
               classify_and_verify file_content ct in
  (exists image processed_image text0,
      load_image_file file_content ct = Pipeline.Returns image /\
      preprocess_image image = Pipeline.Returns processed_image /\
      extract_text processed_image = Pipeline.Returns text0 /\
      run = Pipeline.validated (classify_and_verify text0)) \/
  (exists e, stage = Pipeline.Raises e /\ run = Pipeline.Raises e).
Proof.
  cbv zeta. unfold Pipeline.pipeline, Pipeline.bind.
  destruct (load_image_file file_content ct) as [image|e]; [|right; eauto].
  destruct (preprocess_image image) as [processed|e] eqn:Ep; [|right; eauto].
  destruct (extract_text processed) as [text0|e] eqn:Ee; [|right; eauto].
  left. exists image, processed, text0. auto.
Qed.

Lemma verify_document_cases
      (file : Pipeline.UploadFile) (declared_document_type : option text) :
  let run := Pipeline.verify_document load_image_file preprocess_image
               extract_text classify_and_verify file declared_document_type in
  let size := Z.of_nat (List.length (Pipeline.content file)) in
  (Pipeline.allowed (Pipeline.content_type file) = false /\
   run = Pipeline.Raises
           (Pipeline.HTTPException 400 Pipeline.unsupported_file_type)) \/
  (Pipeline.allowed (Pipeline.content_type file) = true /\
   (Pipeline.MAX_FILE_SIZE < size)%Z /\
   run = Pipeline.Raises
           (Pipeline.HTTPException 400 "File size exceeds 5 MB limit")) \/
  (Pipeline.allowed (Pipeline.content_type file) = true /\
   size = 0%Z /\
   run = Pipeline.Raises (Pipeline.HTTPException 400 "Empty file")) \/
  (exists ct,
      Pipeline.content_type file = Some ct /\
      Pipeline.allowed (Some ct) = true /\
      (0 < size <= Pipeline.MAX_FILE_SIZE)%Z /\
      run = match Pipeline.pipeline load_image_file preprocess_image
                    extract_text classify_and_verify
                    (Pipeline.content file) ct with
            | Pipeline.Returns result => Pipeline.Returns result
            | Pipeline.Raises (Pipeline.DocumentProcessingError message) =>
                Pipeline.Raises
                  (Pipeline.Raise (Pipeline.DocumentProcessingError message))
            | Pipeline.Raises (Pipeline.Exception _) =>
                Pipeline.Raises
                  (Pipeline.HTTPException 500 "Internal processing error")
            end).
Proof.
  cbv zeta. unfold Pipeline.verify_document.
  destruct (Pipeline.content_type file) as [ct|]; [|left; split; reflexivity].
  destruct (Pipeline.allowed (Some ct)) eqn:Ea; cbn [negb];
    [|left; split; reflexivity].
  right.
  destruct (Pipeline.MAX_FILE_SIZE <? _)%Z eqn:Emax.
  - left. apply Z.ltb_lt in Emax. repeat split; auto.
  - right. apply Z.ltb_ge in Emax.
    destruct (_ =? 0)%Z eqn:Ez.
    + left. apply Z.eqb_eq in Ez. repeat split; auto.
    + right. apply Z.eqb_neq in Ez. exists ct. repeat split; auto. lia.
Qed.

End RouteFacts.

(** X20: the route answers with a verification response only for a file
    of an allowed type with at least one byte and at most 5 MB, and that
    response is what [classify_and_verify] returns for the text extracted
    from the loaded and preprocessed image; the declared document type
    plays no part. *)
Theorem verify_document_success
        (Image : Type)
        (load_image_file : Pipeline.bytes -> text -> Pipeline.outcome Pipeline.exn Image)
        (preprocess_image : Image -> Pipeline.outcome Pipeline.exn Image)
        (extract_text : Image -> Pipeline.outcome Pipeline.exn text)
        (classify_and_verify : text -> option Schemas.VerificationResponse)
        (file : Pipeline.UploadFile) (declared_document_type : option text)
        (result : Schemas.VerificationResponse) :
  Pipeline.verify_document load_image_file preprocess_image extract_text
    classify_and_verify file declared_document_type = Pipeline.Returns result ->
  (0 < Z.of_nat (List.length (Pipeline.content file)) <= 5242880)%Z /\
  (exists ct image processed_image text0,
      Pipeline.content_type file = Some ct /\
      In ct Pipeline.ALLOWED_MIME_TYPES /\
      load_image_file (Pipeline.content file) ct = Pipeline.Returns image /\
      preprocess_image image = Pipeline.Returns processed_image /\
      extract_text processed_image = Pipeline.Returns text0 /\
      classify_and_verify text0 = Some result) /\
  forall declared,
    Pipeline.verify_document load_image_file preprocess_image extract_text
      classify_and_verify file declared = Pipeline.Returns result.
Proof.
  intro H.
  assert (Hd : forall declared,
             Pipeline.verify_document load_image_file preprocess_image extract_text
               classify_and_verify file declared
             = Pipeline.verify_document load_image_file preprocess_image extract_text
                 classify_and_verify file declared_document_type) by reflexivity.
  destruct (verify_document_cases load_image_file preprocess_image extract_text
              classify_and_verify file declared_document_type)
    as [[_ E] | [(_ & _ & E) | [(_ & _ & E) | (ct & Hct & Ha & Hsize & E)]]];
    cbv zeta in *; try congruence.
  split; [exact Hsize|]. split; [|intro d; now rewrite Hd].
  rewrite E in H.
  destruct (pipeline_cases load_image_file preprocess_image extract_text
              classify_and_verify (Pipeline.content file) ct)
    as [(image & processed & text0 & El & Ep & Ee & Er) | (e & _ & Er)];
    cbv zeta in Er; rewrite Er in H; [|destruct e; discriminate H].
  unfold Pipeline.validated in H.
  destruct (classify_and_verify text0) as [r|] eqn:Ec; try discriminate H.
  injection H as <-.
  exists ct, image, processed, text0. repeat split; auto.
  unfold Pipeline.allowed in Ha. apply existsb_exists in Ha.
  destruct Ha as (a & Hin & Heq).
  assert (Hte : forall x y, Pipeline.text_eqb x y = true -> x = y).
  { induction x as [|c x IH]; intros [|d y] Hxy; simpl in Hxy;
      try discriminate Hxy; [reflexivity|].
    apply andb_true_iff in Hxy. destruct Hxy as [Hc Hxy].
    apply Ascii.eqb_eq in Hc. subst d. f_equal. now apply IH. }
  apply Hte in Heq. now subst a.
Qed.

Lemma verify_document_success_witness :
  exists result,
    Pipeline.verify_document
      (fun (_ : Pipeline.bytes) (_ : text) => Pipeline.Returns tt)
      (fun image : unit => Pipeline.Returns image)
      (fun _ : unit => Pipeline.Returns pan_card_text)
      OCR.classify_and_verify
      (Pipeline.Build_UploadFile (Some ("image/png" : text)) [Byte.x00]) None
    = Pipeline.Returns result /\
    OCR.classify_and_verify pan_card_text = Some result.
Proof.
  eexists. split; [vm_compute; reflexivity|].
  destruct (@verify_document_success unit
              (fun (_ : Pipeline.bytes) (_ : text) => Pipeline.Returns tt)
              (fun image : unit => Pipeline.Returns image)
              (fun _ : unit => Pipeline.Returns pan_card_text)
              OCR.classify_and_verify
              (Pipeline.Build_UploadFile (Some ("image/png" : text)) [Byte.x00]) None
              _ ltac:(vm_compute; reflexivity))
    as (_ & (ct & image & processed & text0 & _ & _ & _ & _ & He & Hc) & _).
  injection He as <-. exact Hc.
Defined.

(** X21: how the route fails, whatever its collaborators do.  A type that
    is not allowed is refused first, then a file above 5 MB, then an empty
    one, each with status 400 and before any collaborator is consulted.
    Past these checks a [DocumentProcessingError] of a collaborator
    leaves the route unchanged, any other exception becomes status 500
    with the detail [Internal processing error], and nothing else is ever
    raised.  With the classifier of the first engine, status 500 arises
    only when loading, preprocessing or text extraction raised something
    other than a [DocumentProcessingError]. *)
Theorem verify_document_failures
        (Image : Type)
        (load_image_file : Pipeline.bytes -> text -> Pipeline.outcome Pipeline.exn Image)
        (preprocess_image : Image -> Pipeline.outcome Pipeline.exn Image)
        (extract_text : Image -> Pipeline.outcome Pipeline.exn text)
        (file : Pipeline.UploadFile) (declared_document_type : option text) :
  let size := Z.of_nat (List.length (Pipeline.content file)) in
  let stage ct :=
    Pipeline.bind (load_image_file (Pipeline.content file) ct) (fun image =>
    Pipeline.bind (preprocess_image image) extract_text) in
  match Pipeline.verify_document load_image_file preprocess_image extract_text
          OCR.classify_and_verify file declared_document_type with
  | Pipeline.Returns result => True
  | Pipeline.Raises (Pipeline.HTTPException status_code detail) =>
      (status_code = 400%Z /\ detail = Pipeline.unsupported_file_type /\
       Pipeline.allowed (Pipeline.content_type file) = false) \/
      (status_code = 400%Z /\ detail = ("File size exceeds 5 MB limit" : text) /\
       Pipeline.allowed (Pipeline.content_type file) = true /\
       (5242880 < size)%Z) \/
      (status_code = 400%Z /\ detail = ("Empty file" : text) /\
       Pipeline.allowed (Pipeline.content_type file) = true /\ size = 0%Z) \/
      (status_code = 500%Z /\ detail = ("Internal processing error" : text) /\
       Pipeline.allowed (Pipeline.content_type file) = true /\
       (0 < size <= 5242880)%Z /\
       exists ct what,
         Pipeline.content_type file = Some ct /\
         stage ct = Pipeline.Raises (Pipeline.Exception what))
  | Pipeline.Raises (Pipeline.Raise e) =>
      Pipeline.allowed (Pipeline.content_type file) = true /\
      (0 < size <= 5242880)%Z /\
      (exists message, e = Pipeline.DocumentProcessingError message) /\
      exists ct, Pipeline.content_type file = Some ct /\ stage ct = Pipeline.Raises e
  end.
Proof.
  cbv zeta.
  destruct (verify_document_cases load_image_file preprocess_image extract_text
              OCR.classify_and_verify file declared_document_type)
    as [[Ha E] | [(Ha & Hs & E) | [(Ha & Hs & E) | (ct & Hct & Ha & Hsize & E)]]];
    cbv zeta in *; rewrite E; clear E.
  - left. auto.
  - right; left. change Pipeline.MAX_FILE_SIZE with 5242880%Z in Hs. auto.
  - right; right; left. auto.
  - change Pipeline.MAX_FILE_SIZE with 5242880%Z in Hsize.
    rewrite Hct.
    destruct (pipeline_cases load_image_file preprocess_image extract_text
                OCR.classify_and_verify (Pipeline.content file) ct)
      as [(image & processed & text0 & _ & _ & _ & Er) | (e & Es & Er)];
      cbv zeta in *; rewrite Er.
    + destruct (response_cases Config.settings text0) as (ty & id & b & Hr & _).
      unfold OCR.classify_and_verify. rewrite Hr. exact I.
    + destruct e as [m|w].
      * split; [exact Ha|]. split; [lia|]. split; [eexists; reflexivity|].
        exists ct. split; [reflexivity | exact Es].
      * right; right; right. repeat split; try lia; try exact Ha.
        exists ct, w. split; [reflexivity | exact Es].
Qed.

Lemma verify_raises
      (Image : Type)
      (convert_from_bytes :
         Pipeline.bytes -> Z -> Pipeline.outcome Pipeline.exn (list Image))
      (Image_open : Pipeline.bytes -> Pipeline.outcome Pipeline.exn Image)
      (preprocess_steps : Image -> Pipeline.outcome Pipeline.exn Image)
      (image_to_string : Image -> text -> text -> Pipeline.outcome Pipeline.exn text)
      (file : Pipeline.UploadFile) (declared_document_type : option text) :
  match Pipeline.verify convert_from_bytes Image_open preprocess_steps
          image_to_string file declared_document_type with
  | Pipeline.Returns _ => True
  | Pipeline.Raises (Pipeline.HTTPException status_code _) => status_code = 400%Z
  | Pipeline.Raises (Pipeline.Raise e) =>
      exists message, e = Pipeline.DocumentProcessingError message
  end.
Proof.
  unfold Pipeline.verify.
  destruct (verify_document_cases
              (Pipeline.load_image_file convert_from_bytes Image_open)
              (Pipeline.preprocess_image preprocess_steps)
              (Pipeline.extract_text image_to_string)
              OCR.classify_and_verify file declared_document_type)
    as [[Ha E] | [(Ha & Hs & E) | [(Ha & Hs & E) | (ct & Hct & Ha & Hsize & E)]]];
    cbv zeta in *; rewrite E; clear E; auto.
  unfold Pipeline.pipeline, Pipeline.bind, Pipeline.validated.
  destruct (Pipeline.load_image_file convert_from_bytes Image_open
              (Pipeline.content file) ct) as [image|e] eqn:El.
  - unfold Pipeline.preprocess_image, Pipeline.try_except at 1.
    destruct (preprocess_steps image) as [processed|e]; [|eauto].
    unfold Pipeline.extract_text, Pipeline.try_except.
    destruct (Pipeline.try_configs image_to_string processed Pipeline.configs [])
      as [text0|e]; [|eauto].
    destruct (response_cases Config.settings text0) as (ty & id & b & Hr & _).
    unfold OCR.classify_and_verify. rewrite Hr. exact I.
  - destruct (load_image_file_raises _ _ _ _ El) as (message & -> & _). eauto.
Qed.

(** X22: over [load_image_file], [preprocess_image] and [extract_text] as
    they are written, the handler for unexpected exceptions of the route
    is never reached: whatever pdf2image, PIL, OpenCV and Tesseract do, an
    upload ends in a response of the classification engine, in one of the
    three refusals with status 400, or in a [DocumentProcessingError]
    with one of four messages. *)
Theorem verify_never_answers_500
        (Image : Type)
        (convert_from_bytes :
           Pipeline.bytes -> Z -> Pipeline.outcome Pipeline.exn (list Image))
        (Image_open : Pipeline.bytes -> Pipeline.outcome Pipeline.exn Image)
        (preprocess_steps : Image -> Pipeline.outcome Pipeline.exn Image)
        (image_to_string : Image -> text -> text -> Pipeline.outcome Pipeline.exn text)
        (file : Pipeline.UploadFile) (declared_document_type : option text) :
  match Pipeline.verify convert_from_bytes Image_open preprocess_steps
          image_to_string file declared_document_type with
  | Pipeline.Returns result =>
      exists text0, OCR.classify_and_verify text0 = Some result
  | Pipeline.Raises (Pipeline.HTTPException status_code detail) =>
      status_code = 400%Z /\
      (detail = Pipeline.unsupported_file_type \/
       detail = ("File size exceeds 5 MB limit" : text) \/
       detail = ("Empty file" : text))
  | Pipeline.Raises (Pipeline.Raise e) =>
      exists message,
        e = Pipeline.DocumentProcessingError message /\
        (message = Pipeline.password_protected \/
         exists what,
           message = ("Failed to load image: " : text) ++ what \/
           message = ("Image preprocessing failed: " : text) ++ what \/
           message = ("Text extraction failed: " : text) ++ what)
  end.
Proof.
  unfold Pipeline.verify.
  destruct (verify_document_cases
              (Pipeline.load_image_file convert_from_bytes Image_open)
              (Pipeline.preprocess_image preprocess_steps)
              (Pipeline.extract_text image_to_string)
              OCR.classify_and_verify file declared_document_type)
    as [[Ha E] | [(Ha & Hs & E) | [(Ha & Hs & E) | (ct & Hct & Ha & Hsize & E)]]];
    cbv zeta in *; rewrite E; clear E; auto.
  unfold Pipeline.pipeline, Pipeline.bind, Pipeline.validated.
  destruct (Pipeline.load_image_file convert_from_bytes Image_open
              (Pipeline.content file) ct) as [image|e] eqn:El.
  - unfold Pipeline.preprocess_image, Pipeline.try_except at 1.
    destruct (preprocess_steps image) as [processed|e].
    + unfold Pipeline.extract_text, Pipeline.try_except.
      destruct (Pipeline.try_configs image_to_string processed Pipeline.configs [])
        as [text0|e].
      * destruct (response_cases Config.settings text0) as (ty & id & b & Hr & _).
        unfold OCR.classify_and_verify. rewrite Hr. eauto.
      * eexists. split; [reflexivity|]. right. exists (Pipeline.str e). auto.
    + eexists. split; [reflexivity|]. right. exists (Pipeline.str e). auto.
  - destruct (load_image_file_raises _ _ _ _ El) as (message & -> & Hm).
    exists message. split; [reflexivity|].
    destruct Hm as [-> | (what & ->)]; [now left | right; exists what; auto].
Qed.

(** X23: what a client sees when an upload fails.  Over the services as
    written, every failure is answered with status 400, never 500: the
    three refusals of the request carry a [detail], and a processing
    error carries the status [rejected] with the message as [reason]. *)
Theorem failed_upload_is_answered_400
        (Image : Type)
        (convert_from_bytes :
           Pipeline.bytes -> Z -> Pipeline.outcome Pipeline.exn (list Image))
        (Image_open : Pipeline.bytes -> Pipeline.outcome Pipeline.exn Image)
        (preprocess_steps : Image -> Pipeline.outcome Pipeline.exn Image)
        (image_to_string : Image -> text -> text -> Pipeline.outcome Pipeline.exn text)
        (file : Pipeline.UploadFile) (declared_document_type : option text) :
  match Pipeline.verify convert_from_bytes Image_open preprocess_steps
          image_to_string file declared_document_type with
  | Pipeline.Returns _ => True
  | Pipeline.Raises exc =>
      Pipeline.status_code (Pipeline.handle exc) = 400%Z /\
      ((exists detail, Pipeline.json (Pipeline.handle exc) = [("detail", detail)]) \/
       (exists message,
           Pipeline.json (Pipeline.handle exc)
           = [("status", "rejected" : text); ("reason", message)]))
  end.
Proof.
  pose proof (verify_raises convert_from_bytes Image_open
                preprocess_steps image_to_string file declared_document_type) as H.
  destruct (Pipeline.verify convert_from_bytes Image_open preprocess_steps
              image_to_string file declared_document_type) as [r|[c d|e]];
    [exact I | |].
  - subst c. split; [reflexivity|]. left. now exists d.
  - destruct H as (m & ->). split; [reflexivity|]. right. now exists m.
Qed.

(** The API tests of the repository, with the collaborators patched as
    the tests patch them. *)
Example test_verify_pan_success :
  exists result,
    Pipeline.verify_document
      (fun (_ : Pipeline.bytes) (_ : text) => Pipeline.Returns tt)
      (fun _ : unit => Pipeline.Returns tt)
      (fun _ : unit => Pipeline.Returns pan_card_text)
      OCR.classify_and_verify
      (Pipeline.Build_UploadFile (Some ("image/jpeg" : text)) [Byte.x66; Byte.x61])
      None
    = Pipeline.Returns result /\
    Schemas.status result = Schemas.VERIFIED /\
    Schemas.detected_document_type result = Schemas.PAN /\
    Schemas.get "id_number" (Schemas.extracted_fields result)
    = Some ("ABCDE1234F" : text).
Proof. eexists. split; [vm_compute; reflexivity|]. repeat split. Qed.

Example test_verify_invalid_file_type
        (Image : Type)
        (load_image_file : Pipeline.bytes -> text -> Pipeline.outcome Pipeline.exn Image)
        (preprocess_image : Image -> Pipeline.outcome Pipeline.exn Image)
        (extract_text : Image -> Pipeline.outcome Pipeline.exn text) :
  option_map
    (fun exc => Pipeline.status_code (Pipeline.handle exc))
    match Pipeline.verify_document load_image_file preprocess_image extract_text
            OCR.classify_and_verify
            (Pipeline.Build_UploadFile (Some ("text/plain" : text))
               [Byte.x74; Byte.x65; Byte.x78; Byte.x74])
            None with
    | Pipeline.Returns _ => None
    | Pipeline.Raises exc => Some exc
    end
  = Some 400%Z.
Proof. reflexivity. Qed.
